(** * pypdl: segment planning, resumable segment workers and the combiner

    A shallow embedding of [src/pypdl/utls.py].

    - Python [int] is [Z]; Python [float] is IEEE binary64, given by the
      Standard Library's executable specification [SpecFloat] at
      [prec = 53], [emax = 1024].
    - The file system is a finite map from path strings to file contents;
      the interrupt event, the log, the sleeps and the HTTP requests issued
      are fields of one [world] record threaded through the code. Opening
      and writing a local file succeed; reading, [stat] and [unlink] raise
      [FileNotFoundError] on a missing path.
    - Exceptions are explicit: effectful code returns an [outcome].
    - The transport is a function from requests to the items a streamed
      response delivers; the threads that share the interrupt event are a
      schedule telling before which of a worker's checks the event gets set.
    - [json.dumps] / [json.loads] are a parameter ([JsonCodec]). *)

From Stdlib Require Import ZArith Lia Ascii Floats.SpecFloat.
From stdpp Require Import gmap strings list list_numbers fin_maps pretty.
From Equations Require Import Equations.

Local Open Scope Z_scope.

(** File contents and chunks of a response body. *)
Abbreviation bytes := (list Byte.byte).

(** ** Module constants *)

Definition MEGABYTE : Z := 1048576.
Definition BLOCKSIZE : Z := 4096.
Definition BLOCKS : Z := 1024.
Definition CHUNKSIZE : Z := BLOCKSIZE * BLOCKS.

(** ** Exceptions *)

(** An exception is observed by the code through its class name
    ([e.__class__.__name__]) and its text ([str(e)]). *)
Record exn := Exn { exn_class : string; exn_str : string }.

(** Exceptions raised by the interpreter itself; their message text is not
    tracked. *)
Definition builtin (cls : string) : exn := Exn cls "".

Definition ZeroDivisionError : exn := builtin "ZeroDivisionError".
Definition OverflowError : exn := builtin "OverflowError".
Definition ValueError : exn := builtin "ValueError".
Definition TypeError : exn := builtin "TypeError".
Definition KeyError : exn := builtin "KeyError".
Definition FileNotFoundError : exn := builtin "FileNotFoundError".

Inductive outcome (A : Type) : Type :=
| Ret (a : A)
| Raise (e : exn).
Arguments Ret {A} a.
Arguments Raise {A} e.

#[global] Instance outcome_ret : MRet outcome := fun A a => Ret a.
#[global] Instance outcome_bind : MBind outcome := fun A B k m =>
  match m with
  | Ret a => k a
  | Raise e => Raise e
  end.

(** ** Python floats *)

Module PyFloat.

Definition prec : Z := 53.
Definition emax : Z := 1024.

Abbreviation float := spec_float.

Definition is_zero (x : float) : bool :=
  match x with S754_zero _ => true | _ => false end.

(** [float(n)]: the nearest binary64, [OverflowError] beyond the range. *)
Definition of_int (n : Z) : outcome float :=
  match binary_normalize prec emax n 0 false with
  | S754_infinity _ => Raise OverflowError
  | x => Ret x
  end.

(** An int as an exact (unrounded) mantissa with exponent 0. *)
Definition exact (n : Z) : float :=
  match n with
  | Z0 => S754_zero false
  | Zpos m => S754_finite false m 0
  | Zneg m => S754_finite true m 0
  end.

(** [a / b] on two ints: the correctly rounded quotient of the exact
    operands. *)
Definition int_true_div (a b : Z) : outcome float :=
  if b =? 0 then Raise ZeroDivisionError
  else match SFdiv prec emax (exact a) (exact b) with
       | S754_infinity _ => Raise OverflowError
       | x => Ret x
       end.

(** [x / y] on two floats. *)
Definition true_div (x y : float) : outcome float :=
  if is_zero y then Raise ZeroDivisionError else Ret (SFdiv prec emax x y).

(** [x * n] with [n] an int: [n] is converted first. *)
Definition mul_int (x : float) (n : Z) : outcome float :=
  y ← of_int n;
  Ret (SFmul prec emax x y).

(** [x < n] with [n] an int that binary64 represents exactly. *)
Definition ltb_int (x : float) (n : Z) : bool :=
  SFltb x (binary_normalize prec emax n 0 false).

(** [x == n] with [n] an int that binary64 represents exactly. *)
Definition eqb_int (x : float) (n : Z) : bool :=
  SFeqb x (binary_normalize prec emax n 0 false).

(** [int(x)]: truncation towards zero. *)
Definition to_int (x : float) : outcome Z :=
  match x with
  | S754_zero _ => Ret 0
  | S754_infinity _ => Raise OverflowError
  | S754_nan => Raise ValueError
  | S754_finite s m e =>
      let a := match e with
               | Z0 => Zpos m
               | Zpos p => Z.shiftl (Zpos m) e
               | Zneg p => Z.shiftr (Zpos m) (Zpos p)
               end in
      Ret (if s then - a else a)
  end.

End PyFloat.

Definition to_mb (size_in_bytes : Z) : outcome PyFloat.float :=
  PyFloat.int_true_div size_in_bytes MEGABYTE.

(** ** Values read from and written to the sidecar *)

(** What [json.loads] returns and [json.dumps] accepts. A [dict] is kept as
    an association list with distinct keys, in insertion order. *)
#[warnings="-register-all"]
Inductive json : Type :=
| JNull
| JBool (b : bool)
| JInt (n : Z)
| JFloat (f : PyFloat.float)
| JStr (s : string)
| JList (l : list json)
| JObj (kvs : list (string * json)).

Fixpoint assoc (k : string) (kvs : list (string * json)) : option json :=
  match kvs with
  | [] => None
  | (k', v) :: rest => if String.eqb k k' then Some v else assoc k rest
  end.

(** [v[k]] for a string key. *)
Definition getitem (v : json) (k : string) : outcome json :=
  match v with
  | JObj kvs =>
      match assoc k kvs with
      | Some x => Ret x
      | None => Raise KeyError
      end
  | _ => Raise TypeError
  end.

(** The [etag] argument: [Union[str, bool]]. *)
Inductive etag_t : Type :=
| EStr (s : string)
| EBool (b : bool).

Definition truthy (etag : etag_t) : bool :=
  match etag with
  | EStr s => negb (String.eqb s "")
  | EBool b => b
  end.

Definition etag_json (etag : etag_t) : json :=
  match etag with
  | EStr s => JStr s
  | EBool b => JBool b
  end.

(** [v == s] for a [str] s. *)
Definition eq_str (v : json) (s : string) : bool :=
  match v with
  | JStr t => String.eqb t s
  | _ => false
  end.

(** [v == etag]; a [bool] compares as the int 0 or 1. *)
Definition eq_etag (v : json) (etag : etag_t) : bool :=
  match etag with
  | EStr s => eq_str v s
  | EBool b =>
      match v with
      | JBool c => Bool.eqb c b
      | JInt n => n =? Z.b2z b
      | JFloat f => PyFloat.eqb_int f (Z.b2z b)
      | _ => false
      end
  end.

(** The JSON text codec together with the text encoding of
    [Path.read_text] / [Path.write_text]: [json_dumps v] is the file
    content written for [json.dumps(v, indent=4)], [json_loads] is [None]
    when decoding or parsing raises. *)
Class JsonCodec := {
  json_dumps : json -> bytes;
  json_loads : bytes -> option json
}.

(** ** The world *)

(** Keyword arguments handed to [requests.get]: the [headers] entry when it
    is present (a dict of strings), and the remaining entries. *)
Record kwargs_t := Kwargs {
  headers : option (gmap string string);
  others : list (string * string)
}.

Record request := Request { req_url : string; req_kwargs : kwargs_t }.

Record world := World {
  fs : gmap string (bytes);   (* path -> content *)
  interrupt : bool;               (* the shared threading.Event *)
  log : list string;              (* logging.error lines *)
  slept : list Z;                 (* time.sleep arguments, in seconds *)
  requests : list request         (* GETs issued so far *)
}.

Definition set_fs (f : gmap string (bytes) -> gmap string (bytes))
    (w : world) : world :=
  World (f (fs w)) (interrupt w) (log w) (slept w) (requests w).
Definition set_interrupt (b : bool) (w : world) : world :=
  World (fs w) b (log w) (slept w) (requests w).
Definition add_log (line : string) (w : world) : world :=
  World (fs w) (interrupt w) (log w ++ [line]) (slept w) (requests w).
Definition add_sleep (secs : Z) (w : world) : world :=
  World (fs w) (interrupt w) (log w) (slept w ++ [secs]) (requests w).
Definition add_request (r : request) (w : world) : world :=
  World (fs w) (interrupt w) (log w) (slept w) (requests w ++ [r]).

(** Code that reads and writes the world and may raise. *)
Definition py (A : Type) : Type := world -> outcome A * world.

#[global] Instance py_ret : MRet py := fun A a w => (Ret a, w).
#[global] Instance py_bind : MBind py := fun A B k m w =>
  match m w with
  | (Ret a, w') => k a w'
  | (Raise e, w') => (Raise e, w')
  end.

Definition lift {A} (o : outcome A) : py A := fun w => (o, w).

(** *** File operations *)

(** [Path(p).exists()] *)
Definition path_exists (p : string) : py bool := fun w =>
  (Ret (bool_decide (is_Some (fs w !! p))), w).

(** [Path(p).stat().st_size] *)
Definition st_size (p : string) : py Z := fun w =>
  match fs w !! p with
  | Some c => (Ret (Z.of_nat (length c)), w)
  | None => (Raise FileNotFoundError, w)
  end.

(** [Path(p).unlink()] *)
Definition unlink (p : string) : py unit := fun w =>
  match fs w !! p with
  | Some _ => (Ret tt, set_fs (delete p) w)
  | None => (Raise FileNotFoundError, w)
  end.

(** [Path(p).read_text()] (as the bytes on disk) *)
Definition read_file (p : string) : py (bytes) := fun w =>
  match fs w !! p with
  | Some c => (Ret c, w)
  | None => (Raise FileNotFoundError, w)
  end.

(** [Path(p).write_text(...)]: create or replace. *)
Definition write_text (p : string) (c : bytes) : py unit := fun w =>
  (Ret tt, set_fs <[p := c]> w).

Inductive mode := WB | AB.   (* "wb", "ab" *)

(** [open(p, mode)]: "wb" creates or truncates, "ab" creates when absent. *)
Definition open_write (p : string) (m : mode) (w : world) : world :=
  match m with
  | WB => set_fs <[p := []]> w
  | AB => match fs w !! p with
          | Some _ => w
          | None => set_fs <[p := []]> w
          end
  end.

(** [f.write(chunk)] on a file opened by [open_write]: bytes go to the end. *)
Definition write_chunk (p : string) (chunk : bytes) (w : world) : world :=
  set_fs (alter (fun c => c ++ chunk) p) w.

Definition try_except {A} (body : py A) (handler : exn -> py A) : py A :=
  fun w =>
    match body w with
    | (Ret a, w') => (Ret a, w')
    | (Raise e, w') => handler e w'
    end.

(** ** create_segment_table *)

(** One entry of the table ([end] is a keyword: the field is [end_]). *)
Record entry := Entry {
  start : Z;
  end_ : Z;
  segment_size : Z;
  segment_path : string
}.

(** The returned dict: the keys "url" and "segments", and one entry per
    int key. *)
Record segment_table := SegmentTable {
  tbl_url : string;
  tbl_segments : json;
  tbl_entries : gmap Z entry
}.

(** A value usable as an int ([bool] is a subclass of [int]). *)
Definition index_value (v : json) : option Z :=
  match v with
  | JInt n => Some n
  | JBool b => Some (Z.b2z b)
  | _ => None
  end.

(** [5 if (segments > 5) and (to_mb(size) < 50) else segments] *)
Definition clamp_segments (segments size : Z) : outcome Z :=
  if 5 <? segments then
    mb ← to_mb size;
    mret (if PyFloat.ltb_int mb 50 then 5 else segments)
  else mret segments.

(** [size / segments] *)
Definition partition_size_of (size : Z) (segments : json) : outcome PyFloat.float :=
  match segments with
  | JInt n => PyFloat.int_true_div size n
  | JBool b => PyFloat.int_true_div size (Z.b2z b)
  | JFloat f => x ← PyFloat.of_int size; PyFloat.true_div x f
  | _ => Raise TypeError
  end.

(** [range(segments)], with the int behind [segments]. *)
Definition range_of (segments : json) : outcome (Z * list Z) :=
  match index_value segments with
  | Some n => Ret (n, seqZ 0 n)
  | None => Raise TypeError
  end.

Definition sidecar_path (file_path : string) : string := file_path +:+ ".json".

(** f"{file_path }.{segment}" *)
Definition segment_file (file_path : string) (segment : Z) : string :=
  file_path +:+ "." +:+ pretty segment.

(** The body of the [for] loop, for one value of [segment]. *)
Definition segment_entry (partition_size : PyFloat.float) (file_path : string)
    (segments segment : Z) : outcome entry :=
  start ← (x ← PyFloat.mul_int partition_size segment; PyFloat.to_int x);
  end_ ← (x ← PyFloat.mul_int partition_size (segment + 1); PyFloat.to_int x);
  let segment_size := end_ - start in
  let end_ := if bool_decide (segment ≠ segments - 1) then end_ - 1 else end_ in
  mret (Entry start end_ segment_size (segment_file file_path segment)).

Fixpoint fill_table (partition_size : PyFloat.float) (file_path : string)
    (segments : Z) (idx : list Z) (dic : gmap Z entry)
  : outcome (gmap Z entry) :=
  match idx with
  | [] => Ret dic
  | segment :: rest =>
      e ← segment_entry partition_size file_path segments segment;
      fill_table partition_size file_path segments rest (<[segment := e]> dic)
  end.

Section Planner.
Context `{codec : JsonCodec}.

(** The body of the [try] block: [Some s] when [segments = s] was
    assigned, [None] when the condition was false. *)
Definition read_progress (progress_file url : string) (etag : etag_t)
  : py (option json) :=
  text ← read_file progress_file;
  progress ← lift (match json_loads text with
                   | Some v => Ret v
                   | None => Raise ValueError
                   end);
  if truthy etag then
    u ← lift (getitem progress "url");
    if eq_str u url then
      e ← lift (getitem progress "etag");
      if eq_etag e etag then
        s ← lift (getitem progress "segments");
        mret (Some s)
      else mret None
    else mret None
  else mret None.

(** The value of [segments] after the clamp and the [try] block. *)
Definition resolve_segments (url file_path : string) (segments size : Z)
    (etag : etag_t) : py json :=
  segments ← lift (clamp_segments segments size);
  prior ← try_except (read_progress (sidecar_path file_path) url etag)
                     (fun _ => mret None);
  mret (default (JInt segments) prior).

(** The dict handed to [json.dumps]. *)
Definition sidecar_object (url : string) (etag : etag_t) (segments : json) : json :=
  JObj [("url", JStr url); ("etag", etag_json etag); ("segments", segments)].

Definition create_segment_table (url file_path : string) (segments size : Z)
    (etag : etag_t) : py segment_table :=
  segments ← resolve_segments url file_path segments size etag;
  _ ← write_text (sidecar_path file_path)
                 (json_dumps (sidecar_object url etag segments));
  partition_size ← lift (partition_size_of size segments);
  '(n, idx) ← lift (range_of segments);
  dic ← lift (fill_table partition_size file_path n idx ∅);
  mret (SegmentTable url segments dic).

End Planner.

(** ** Workers *)

(** What the streamed GET delivers, one item per iteration of
    [for chunk in r.iter_content(MEGABYTE)]: a chunk, together with the
    value of [end - start] read off the clock around it, or an exception
    raised by the transport (by [requests.get] itself when it comes first).
    The end of the list is the end of the stream. *)
Inductive event :=
| Chunk (data : bytes) (elapsed : PyFloat.float)
| Fail (e : exn).

(** The fields set by [Basicdown.__init__]; [self.interrupt] is the shared
    event of the [world]. *)
Record Basicdown := MkBasicdown {
  curr : Z;
  completed : bool;
  id : Z;
  speed : PyFloat.float
}.

Definition Basicdown_init : Basicdown :=
  MkBasicdown 0 false 0 (S754_zero false).

Definition set_curr (n : Z) (self : Basicdown) : Basicdown :=
  MkBasicdown n (completed self) (id self) (speed self).
Definition set_completed (b : bool) (self : Basicdown) : Basicdown :=
  MkBasicdown (curr self) b (id self) (speed self).
Definition set_id (n : Z) (self : Basicdown) : Basicdown :=
  MkBasicdown (curr self) (completed self) n (speed self).
Definition set_speed (x : PyFloat.float) (self : Basicdown) : Basicdown :=
  MkBasicdown (curr self) (completed self) (id self) x.

(** f"(Thread: {self.id}) [{e.__class__.__name__}: {e}]" *)
Definition error_line (self : Basicdown) (e : exn) : string :=
  "(Thread: " +:+ pretty (id self) +:+ ") [" +:+ exn_class e +:+ ": "
    +:+ exn_str e +:+ "]".

Record Simpledown := MkSimpledown {
  sd_base : Basicdown;
  sd_url : string;
  sd_file_path : string;
  sd_kwargs : kwargs_t
}.

Record Multidown := MkMultidown {
  md_base : Basicdown;
  md_segement_table : segment_table;
  md_kwargs : kwargs_t
}.

Definition Simpledown_init (url file_path : string) (kwargs : kwargs_t) : Simpledown :=
  MkSimpledown Basicdown_init url file_path kwargs.

Definition Multidown_init (segement_table : segment_table) (segment_id : Z)
    (kwargs : kwargs_t) : Multidown :=
  MkMultidown (set_id segment_id Basicdown_init) segement_table kwargs.

(** [kwargs.setdefault("headers", {}).update({"range": v})] on a copy *)
Definition with_range (kwargs : kwargs_t) (v : string) : kwargs_t :=
  Kwargs (Some (<["range" := v]> (default ∅ (headers kwargs)))) (others kwargs).

(** f"bytes={start}-{end}" *)
Definition range_value (start end_ : Z) : string :=
  "bytes=" +:+ pretty start +:+ "-" +:+ pretty end_.

Section Workers.
(** The transport: the response to each request. *)
Variable transport : request -> list event.
(** The sibling workers: [sibling i] tells whether some other thread sets
    the shared event between this worker's check number [i - 1] (or the
    start of its download) and its check number [i]. *)
Variable sibling : nat -> bool.

(** The [for] loop of [download], from iteration [i] on. The first
    component tells whether an exception left the loop. *)
Fixpoint download_loop (evs : list event) (i : nat) (path : string)
    (self : Basicdown) (w : world) : outcome unit * Basicdown * world :=
  match evs with
  | [] => (Ret tt, self, w)
  | Fail e :: _ => (Raise e, self, w)
  | Chunk chunk elapsed :: rest =>
      let w := write_chunk path chunk w in
      let self := set_curr (curr self + Z.of_nat (length chunk)) self in
      match (mb ← to_mb (Z.of_nat (length chunk)); PyFloat.true_div mb elapsed) with
      | Raise e => (Raise e, self, w)
      | Ret v =>
          let self := set_speed v self in
          let w := set_interrupt (interrupt w || sibling i) w in
          if interrupt w then (Ret tt, self, w)
          else download_loop rest (S i) path self w
      end
  end.

(** [Basicdown.download] *)
Definition download (self : Basicdown) (url path : string) (m : mode)
    (kwargs : kwargs_t) (w : world) : Basicdown * world :=
  let w := open_write path m w in
  let req := Request url kwargs in
  let w := add_request req w in
  match download_loop (transport req) 0 path self w with
  | (Ret _, self, w) => (self, w)
  | (Raise e, self, w) =>
      let w := set_interrupt true w in
      let w := add_sleep 1 w in
      let w := add_log (error_line self e) w in
      (self, w)
  end.

(** [Simpledown.worker] *)
Definition Simpledown_worker (self : Simpledown) (w : world) : Simpledown * world :=
  let '(base, w) :=
    download (sd_base self) (sd_url self) (sd_file_path self) WB (sd_kwargs self) w in
  (MkSimpledown (set_completed true base) (sd_url self) (sd_file_path self)
     (sd_kwargs self), w).

(** [Multidown.worker], first block: [if segment_path.exists(): ...]. *)
Definition Multidown_resume (segment_path : string) (size : Z)
    (base : Basicdown) : py Basicdown :=
  present ← path_exists segment_path;
  if present : bool then
    downloaded_size ← st_size segment_path;
    if size <? downloaded_size then
      _ ← unlink segment_path; mret base
    else mret (set_curr downloaded_size base)
  else mret base.

(** [Multidown.worker], the two blocks that follow:
    [if self.curr < size: ...] and [if self.curr == size: ...]. *)
Definition Multidown_fetch (self : Multidown) (e : entry) (base : Basicdown)
  : py Multidown :=
  let url := tbl_url (md_segement_table self) in
  let segment_path := segment_path e in
  let start := start e in
  let end_ := end_ e in
  let size := segment_size e in
  base ← (if curr base <? size then
            let start := start + curr base in
            let kwargs := with_range (md_kwargs self) (range_value start end_) in
            (fun w => let '(base, w) := download base url segment_path AB kwargs w in
                      (Ret base, w)) : py Basicdown
          else mret base);
  let base := if curr base =? size then set_completed true base else base in
  mret (MkMultidown base (md_segement_table self) (md_kwargs self)).

(** [Multidown.worker]; [KeyError] when the table has no entry for
    [self.id]. The object is returned as the call leaves it. *)
Definition Multidown_worker (self : Multidown) : py Multidown :=
  e ← lift (match tbl_entries (md_segement_table self) !! id (md_base self) with
            | Some e => Ret e
            | None => Raise KeyError
            end);
  base ← Multidown_resume (segment_path e) (segment_size e) (md_base self);
  Multidown_fetch self e base.

End Workers.

(** ** combine_files *)

(** [src.read(n)] on the bytes not yet read: the chunk and what remains. *)
Fixpoint read_bytes (n : Z) (src : bytes) : bytes * bytes :=
  match src with
  | [] => ([], [])
  | b :: rest =>
      if n <=? 0 then ([], src)
      else let '(chunk, rest') := read_bytes (n - 1) rest in (b :: chunk, rest')
  end.

Definition inspect {A} (a : A) : {b : A | a = b} := exist _ a eq_refl.

(** The [while True] loop copying one opened segment file into [dest].
    [src] holds the bytes of the segment file from the read position on; the
    segment file is never the destination ([segment_file_ne_dest] below), so
    the writes do not change what is read. *)
Equations? copy_chunks (src : bytes) (dest : string) (w : world) : world
  by wf (length src) lt :=
  copy_chunks src dest w with inspect (read_bytes CHUNKSIZE src) := {
    | exist _ ([], _) _ := w
    | exist _ (b :: chunk, rest) Heq :=
        copy_chunks rest dest (write_chunk dest (b :: chunk) w) }.
Proof.
  assert (Hlen : forall (s : bytes) n c r,
             read_bytes n s = (c, r) -> length s = (length c + length r)%nat).
  { induction s as [|x s IH]; intros n c r; simpl.
    - by intros [= <- <-].
    - destruct (n <=? 0); [by intros [= <- <-]|].
      destruct (read_bytes (n - 1) s) as [c' r'] eqn:E.
      intros [= <- <-]. simpl. by rewrite (IH _ _ _ E). }
  apply Hlen in Heq. simpl in Heq. lia.
Qed.

(** The [for] loop of [combine_files]. *)
Fixpoint combine_loop (file_path : string) (idx : list Z) : py unit :=
  match idx with
  | [] => mret tt
  | segment :: rest =>
      let segment_file := segment_file file_path segment in
      src ← read_file segment_file;
      _ ← (fun w => (Ret tt, copy_chunks src file_path w));
      _ ← unlink segment_file;
      combine_loop file_path rest
  end.

Definition combine_files (file_path : string) (segments : Z) : py unit :=
  _ ← (fun w => (Ret tt, open_write file_path WB w));
  _ ← combine_loop file_path (seqZ 0 segments);
  unlink (sidecar_path file_path).

(** ** The planner's resolution rule, in the words of the specification *)

(** The fresh value: the requested count, forced to 5 when it exceeds 5 and
    the size is below 50 MB. *)
Definition fresh_segments (requested size : Z) : Z :=
  if (5 <? requested) && (size <? 50 * MEGABYTE) then 5 else requested.

(** The persisted count of a usable sidecar: the sidecar exists, parses to
    an object with "url", "etag" and "segments", the etag of the request is
    truthy, and url and etag are equal to the request's. *)
Definition persisted_segments `{codec : JsonCodec} (w : world)
    (url file_path : string) (etag : etag_t) : option json :=
  text ← fs w !! (file_path +:+ ".json");
  progress ← json_loads text;
  match progress with
  | JObj kvs =>
      u ← assoc "url" kvs;
      e ← assoc "etag" kvs;
      s ← assoc "segments" kvs;
      if truthy etag && eq_str u url && eq_etag e etag then Some s else None
  | _ => None
  end.

(** ** Well-formed responses and what they carry *)

Definition chunk_data (ev : event) : bytes :=
  match ev with
  | Chunk data _ => data
  | Fail _ => []
  end.

Definition is_chunk (ev : event) : bool :=
  match ev with
  | Chunk _ _ => true
  | Fail _ => false
  end.

(** A chunk of [iter_content(MEGABYTE)] holds at most [MEGABYTE] bytes; the
    clock has advanced when the elapsed time is not zero. *)
Definition chunk_ok (ev : event) : bool :=
  match ev with
  | Chunk data elapsed =>
      (Z.of_nat (length data) <=? MEGABYTE) && negb (PyFloat.is_zero elapsed)
  | Fail _ => true
  end.

(** The bytes of the first [m] items of a response. *)
Definition body_prefix (m : nat) (evs : list event) : bytes :=
  mjoin (chunk_data <$> take m evs).

(** The sizes stored in a table for the indices [0 .. n-1]. *)
Definition stored_sizes (t : segment_table) (n : Z) : list Z :=
  (fun i => from_option segment_size 0 (tbl_entries t !! i)) <$> seqZ 0 n.

Definition sum_sizes (t : segment_table) (n : Z) : Z :=
  foldr Z.add 0 (stored_sizes t n).

(** The rows of a table for the indices [0 .. n-1]. *)
Definition rows (t : segment_table) (n : Z) : list (option entry) :=
  (fun i => tbl_entries t !! i) <$> seqZ 0 n.

(** The content of [path] right after [open(path, mode)]. *)
Definition opened_content (m : mode) (path : string) (w : world) : bytes :=
  match m with
  | WB => []
  | AB => default [] (fs w !! path)
  end.

(** Chunks that the loop can process without an exception. *)
Definition good_chunk (ev : event) : bool := is_chunk ev && chunk_ok ev.

(** The event has been set by the time of check number [j] of a download
    that started in [w]: it was set at the start, or a sibling set it before
    one of the checks [0 .. j]. *)
Definition signalled_by (sibling : nat -> bool) (w : world) (j : nat) : bool :=
  interrupt w || existsb sibling (seq 0 (S j)).

(** ** Concrete instances on which the code is run *)

Definition demo_text : bytes := [Byte.x7b; Byte.x7d].

Definition demo_document : json :=
  JObj [("url", JStr "http://host/file"); ("etag", JStr "v1"); ("segments", JInt 8)].

(** A codec for running the code: it writes the top-level keys of an object,
    one per line, and reads back one known text. *)
Definition demo_codec : JsonCodec := {|
  json_dumps := fun v =>
    match v with
    | JObj kvs => mjoin ((fun kv => String.list_byte_of_string kv.1 ++ [Byte.x0a]) <$> kvs)
    | _ => []
    end;
  json_loads := fun text =>
    match text with
    | [Byte.x7b; Byte.x7d] => Some demo_document
    | _ => None
    end
|}.

Definition empty_world : world := World ∅ false [] [] [].

(** A world whose only file is a sidecar for "file". *)
Definition sidecar_world : world :=
  World {["file.json" := demo_text]} false [] [] [].

Definition no_kwargs : kwargs_t := Kwargs None [].

Definition no_sibling : nat -> bool := fun _ => false.

(** One second between two clock readings. *)
Definition one_second : PyFloat.float := S754_finite false 4503599627370496 (-52).

Definition abc : bytes := [Byte.x61; Byte.x62; Byte.x63].
Definition de : bytes := [Byte.x64; Byte.x65].

(** The plan of a 5-byte resource in one segment stored in "file.0". *)
Definition demo_table : segment_table :=
  SegmentTable "http://host/file" (JInt 1) {[0 := Entry 0 5 5 "file.0"]}.

(** A response of one chunk, of two chunks, and one that fails after its
    first chunk. *)
Definition one_chunk : request -> list event :=
  fun _ => [Chunk de one_second].
Definition two_chunks : request -> list event :=
  fun _ => [Chunk de one_second; Chunk abc one_second].
Definition failing_transport : request -> list event :=
  fun _ => [Chunk de one_second; Fail (Exn "ConnectionError" "reset")].

(** A sibling sets the event before the first check. *)
Definition always_set : nat -> bool := fun _ => true.

(** Worlds in which "file.0" holds 3 of its 5 planned bytes, and all 5. *)
Definition partial_world : world := World {["file.0" := abc]} false [] [] [].
Definition full_world : world := World {["file.0" := abc ++ de]} false [] [] [].

(** Two downloaded segments of "file", its sidecar and an unrelated file. *)
Definition merge_world : world :=
  World {["file.0" := abc; "file.1" := de; "file.json" := demo_text;
          "other" := de]} false [] [] [].
Definition merge_contents (i : Z) : bytes := if i =? 0 then abc else de.

(** ** get_filepath *)

(** [c in s] for one character. *)
Fixpoint string_mem (c : ascii) (s : string) : bool :=
  match s with
  | EmptyString => false
  | String a s' => Ascii.eqb a c || string_mem c s'
  end.

(** [s] without its prefix [pat], when [s.startswith(pat)]. *)
Fixpoint strip_prefix (pat s : string) : option string :=
  match pat, s with
  | EmptyString, _ => Some s
  | String a pat', String b s' =>
      if Ascii.eqb a b then strip_prefix pat' s' else None
  | String _ _, EmptyString => None
  end.

(** [s[s.index(pat) + len(pat):]], and [None] when [pat not in s]. *)
Fixpoint after_first (pat s : string) : option string :=
  match strip_prefix pat s with
  | Some rest => Some rest
  | None =>
      match s with
      | EmptyString => None
      | String _ s' => after_first pat s'
      end
  end.

(** [s.lstrip(c)], [s.rstrip(c)] and [s.strip(c)] for one character [c]. *)
Fixpoint lstrip (c : ascii) (s : string) : string :=
  match s with
  | EmptyString => EmptyString
  | String a s' => if Ascii.eqb a c then lstrip c s' else s
  end.

Fixpoint rstrip (c : ascii) (s : string) : string :=
  match s with
  | EmptyString => EmptyString
  | String a s' =>
      match rstrip c s' with
      | EmptyString => if Ascii.eqb a c then EmptyString else String a EmptyString
      | r => String a r
      end
  end.

Definition strip (c : ascii) (s : string) : string := rstrip c (lstrip c s).

(** [s.split("/")[-1]]: what follows the last slash, or all of [s]. *)
Fixpoint last_segment (s : string) : string :=
  match s with
  | EmptyString => EmptyString
  | String a s' =>
      if string_mem "/" s' then last_segment s'
      else if Ascii.eqb a "/" then s' else s
  end.

(** The double quote character. *)
Definition dquote : ascii := "034"%char.

Section Filepath.
(** [urllib.parse.unquote], [urlparse(url).path], [Path(p).is_dir()],
    [str(Path(p))] and [str(Path(p) / name)]. *)
Variable unquote : string -> string.
Variable url_path : string -> string.
Variable is_dir : string -> bool.
Variable path_str : string -> string.
Variable path_join : string -> string -> string.

(** The name taken from the headers or, failing that, from the url. *)
Definition derived_filename (url : string) (headers : gmap string string) : string :=
  let from_url := unquote (last_segment (url_path url)) in
  match headers !! "Content-Disposition" with
  | Some content_disposition =>
      if String.eqb content_disposition "" then from_url
      else match after_first "filename=" content_disposition with
           | Some filename => unquote (strip dquote filename)
           | None => from_url
           end
  | None => from_url
  end.

(** [file_path] is [""] when the caller gives none. *)
Definition get_filepath (url : string) (headers : gmap string string)
    (file_path : string) : string :=
  let filename := derived_filename url headers in
  if String.eqb file_path "" then filename
  else if is_dir file_path then path_join file_path filename
  else path_str file_path.

End Filepath.

(** ** timestring *)

(** f"{n:02d}": at least two characters, the sign included. *)
Definition pad2 (n : Z) : string :=
  if (0 <=? n) && (n <? 10) then "0" +:+ pretty n else pretty n.

(** [sec] is already an int. *)
Definition timestring (sec : Z) : string :=
  let '(m, s) := (sec `div` 60, sec `mod` 60) in
  let '(h, m) := (m `div` 60, m `mod` 60) in
  pad2 h +:+ ":" +:+ pad2 m +:+ ":" +:+ pad2 s.

(** ** Further notions used in the statements *)

(** The size of the file at [p], 0 when there is none. *)
Definition size_on_disk (p : string) (w : world) : Z :=
  from_option (fun c => Z.of_nat (length c)) 0 (fs w !! p).

(** The int products of the partition: [int(partition_size * i)]. *)
Definition boundary (partition_size : PyFloat.float) (i : Z) : outcome Z :=
  x ← PyFloat.mul_int partition_size i; PyFloat.to_int x.

(** A codec whose one text stands for [demo_document]. *)
Definition fixed_codec : JsonCodec := {|
  json_dumps := fun _ => demo_text;
  json_loads := fun text =>
    match text with
    | [Byte.x7b; Byte.x7d] => Some demo_document
    | _ => None
    end
|}.

(** A codec that reads every sidecar as one whose "segments" is a string. *)
Definition broken_document : json :=
  JObj [("url", JStr "http://host/file"); ("etag", JStr "v1");
        ("segments", JStr "8")].
Definition broken_codec : JsonCodec := {|
  json_dumps := fun _ => demo_text;
  json_loads := fun _ => Some broken_document
|}.

(** A transport that fails before the first chunk. *)
Definition refusing_transport : request -> list event :=
  fun _ => [Fail (Exn "ConnectionError" "refused")].

(** A world in which "file" was downloaded before. *)
Definition old_file_world : world := World {["file" := abc ++ de]} false [] [] [].

(** "file.0" holds 7 bytes, 2 more than planned. *)
Definition oversized_world : world :=
  World {["file.0" := abc ++ de ++ de]} false [] [] [].

(** "file.0" is there, "file.1" is missing. *)
Definition gap_world : world :=
  World {["file.0" := abc; "file.json" := demo_text]} false [] [] [].

(** Both segments are there, the sidecar is missing. *)
Definition no_sidecar_world : world :=
  World {["file.0" := abc; "file.1" := de]} false [] [] [].

(** The plan of 100 bytes in 4 segments, and the world it leaves. *)
Definition demo_plan : segment_table :=
  SegmentTable "http://host/file" (JInt 4)
    {[0 := Entry 0 24 25 "file.0"; 1 := Entry 25 49 25 "file.1";
      2 := Entry 50 74 25 "file.2"; 3 := Entry 75 100 25 "file.3"]}.

Definition demo_plan_world : world :=
  World {["file.json" := String.list_byte_of_string "url" ++ [Byte.x0a]
                         ++ String.list_byte_of_string "etag" ++ [Byte.x0a]
                         ++ String.list_byte_of_string "segments" ++ [Byte.x0a]]}
        false [] [] [].

(** A response whose one chunk arrives with the clock not advanced. *)
Definition instant_transport : request -> list event :=
  fun _ => [Chunk de (S754_zero false)].

(** A server that ignores the range and sends 7 bytes for a 5-byte segment. *)
Definition oversending_transport : request -> list event :=
  fun _ => [Chunk (abc ++ de ++ de) one_second].

(** [unquote], [urlparse(url).path], [is_dir], [str(Path(p))] and
    [str(Path(p) / name)] on the inputs of the examples: nothing to decode,
    the path of the one url, one directory. *)
Definition demo_unquote (s : string) : string := s.
Definition demo_url_path (url : string) : string :=
  if String.eqb url "http://host/dir/file.bin?x=1" then "/dir/file.bin" else url.
Definition demo_is_dir (p : string) : bool := String.eqb p "downloads".
Definition demo_path_str (p : string) : string := p.
Definition demo_path_join (p name : string) : string := p +:+ "/" +:+ name.

(** The binary64 float of a positive integer below 2^53: its 53-digit
    mantissa and exponent. *)
Definition fl (v : positive) : PyFloat.float :=
  let d := Zpos (digits2_pos v) in
  S754_finite false (Z.to_pos (Zpos v * 2 ^ (53 - d))) (d - 53).

(** The plan of 3 bytes in 5 segments: segments 0 and 2 are empty. *)
Definition tiny_plan : segment_table :=
  SegmentTable "http://host/file" (JInt 5)
    {[0 := Entry 0 (-1) 0 "file.0"; 1 := Entry 0 0 1 "file.1";
      2 := Entry 1 0 0 "file.2"; 3 := Entry 1 1 1 "file.3";
      4 := Entry 2 3 1 "file.4"]}.

(** * Properties *)

(** ** Binary64 facts used by the planner *)

Lemma digits2_pos_bounds (x : positive) :
  2 ^ (Zpos (digits2_pos x) - 1) <= Zpos x < 2 ^ Zpos (digits2_pos x).
Proof.
  induction x as [x IH|x IH|]; simpl digits2_pos.
  - rewrite Pos2Z.inj_succ, (Pos2Z.inj_xI x).
    replace (Z.succ (Zpos (digits2_pos x)) - 1) with (Z.succ (Zpos (digits2_pos x) - 1)) by lia.
    rewrite !Z.pow_succ_r by lia. lia.
  - rewrite Pos2Z.inj_succ, (Pos2Z.inj_xO x).
    replace (Z.succ (Zpos (digits2_pos x)) - 1) with (Z.succ (Zpos (digits2_pos x) - 1)) by lia.
    rewrite !Z.pow_succ_r by lia. lia.
  - simpl. lia.
Qed.

Lemma digits2_pos_unique (x : positive) (n : Z) :
  2 ^ (n - 1) <= Zpos x < 2 ^ n -> Zpos (digits2_pos x) = n.
Proof.
  intros [Hlo Hhi]. pose proof (digits2_pos_bounds x) as [Blo Bhi].
  assert (0 < n).
  { destruct (Z.lt_ge_cases 0 n); [done|].
    assert (2 ^ n <= 2 ^ 0) by (apply Z.pow_le_mono_r; lia). simpl in *. lia. }
  destruct (Z.lt_trichotomy (Zpos (digits2_pos x)) n) as [Hlt|[Heq|Hgt]]; [|done|].
  - assert (2 ^ Zpos (digits2_pos x) <= 2 ^ (n - 1)) by (apply Z.pow_le_mono_r; lia). lia.
  - assert (2 ^ n <= 2 ^ (Zpos (digits2_pos x) - 1)) by (apply Z.pow_le_mono_r; lia). lia.
Qed.

Lemma SFdiv_core_MEGABYTE (mx : positive) :
  Zpos mx < 2 ^ 53 ->
  let d := Zpos (digits2_pos mx) in
  SFdiv_core_binary PyFloat.prec PyFloat.emax (Zpos mx) 0 MEGABYTE 0
  = (Zpos (Z.to_pos (Zpos mx * 2 ^ (53 - d)))~0, d - 74, loc_Exact).
Proof.
  intros Hlt d.
  pose proof (digits2_pos_bounds mx) as [Blo Bhi]. fold d in Blo, Bhi.
  assert (Hd : 1 <= d <= 53).
  { split; [unfold d; lia|].
    destruct (Z.le_gt_cases d 53); [done|].
    assert (2 ^ 53 <= 2 ^ (d - 1)) by (apply Z.pow_le_mono_r; lia). lia. }
  unfold SFdiv_core_binary.
  change (Zdigits2 (Zpos mx)) with d.
  change (Zdigits2 MEGABYTE) with 21.
  unfold fexp, emin, PyFloat.prec, PyFloat.emax.
  replace (Z.min (Z.max (d + 0 - (21 + 0) - 53) (3 - 1024 - 53)) (0 - 0)) with (d - 74) by lia.
  replace (0 - 0 - (d - 74)) with (74 - d) by lia.
  destruct (74 - d) as [|s|s] eqn:Es; [lia| |lia].
  rewrite <- Es. clear s Es.
  set (p := Z.to_pos (Zpos mx * 2 ^ (53 - d))).
  assert (Hp : Zpos p = Zpos mx * 2 ^ (53 - d)).
  { unfold p. rewrite Z2Pos.id; [done|]. apply Z.mul_pos_pos; [lia|]. apply Z.pow_pos_nonneg; lia. }
  assert (Hsh : Zpos mx ≪ (74 - d) = Zpos p~0 * MEGABYTE).
  { rewrite Z.shiftl_mul_pow2 by lia. rewrite (Pos2Z.inj_xO p), Hp.
    replace (74 - d) with (53 - d + 1 + 20) by lia.
    rewrite !Z.pow_add_r by lia. change (2 ^ 20) with MEGABYTE. change (2 ^ 1) with 2. lia. }
  assert (Hde : forall a b, Z.div_eucl a b = (a / b, a mod b)).
  { intros a b. unfold Z.div, Z.modulo. by destruct (Z.div_eucl a b). }
  change IntDef.Z.div_eucl with Z.div_eucl.
  rewrite Hsh, Hde, Z.div_mul, Z.mod_mul by done.
  reflexivity.
Qed.

Lemma binary_round_aux_54 (p : positive) (e : Z) :
  Zpos (digits2_pos p) = 53 -> -1074 <= e <= 970 ->
  binary_round_aux PyFloat.prec PyFloat.emax false (Zpos p~0) e loc_Exact
  = S754_finite false p (e + 1).
Proof.
  intros Hp He.
  unfold binary_round_aux, shr_fexp.
  change (Zdigits2 (Zpos p~0)) with (Zpos (Pos.succ (digits2_pos p))).
  rewrite Pos2Z.inj_succ, Hp.
  unfold fexp, emin, PyFloat.prec, PyFloat.emax.
  replace (Z.max (Z.succ 53 + e - 53) (3 - 1024 - 53) - e) with 1 by lia.
  cbn [shr shr_record_of_loc SpecFloat.iter_pos shr_1 shr_m loc_of_shr_record
       round_nearest_even orb].
  change (Zdigits2 (Zpos p)) with (Zpos (digits2_pos p)). rewrite Hp.
  replace (Z.max (53 + (e + 1) - 53) (3 - 1024 - 53) - (e + 1)) with 0 by lia.
  cbn [shr shr_m].
  destruct (Z.leb_spec (e + 1) (1024 - 53)); [done|lia].
Qed.

Lemma to_mb_exact (mx : positive) :
  Zpos mx < 2 ^ 53 ->
  let d := Zpos (digits2_pos mx) in
  to_mb (Zpos mx)
  = Ret (S754_finite false (Z.to_pos (Zpos mx * 2 ^ (53 - d))) (d - 73)).
Proof.
  intros Hlt d.
  pose proof (digits2_pos_bounds mx) as [Blo Bhi]. fold d in Blo, Bhi.
  assert (Hd : 1 <= d <= 53).
  { split; [unfold d; lia|].
    destruct (Z.le_gt_cases d 53); [done|].
    assert (2 ^ 53 <= 2 ^ (d - 1)) by (apply Z.pow_le_mono_r; lia). lia. }
  unfold to_mb, PyFloat.int_true_div.
  change (MEGABYTE =? 0) with false. cbv iota.
  change (PyFloat.exact (Zpos mx)) with (S754_finite false mx 0).
  change (PyFloat.exact MEGABYTE) with (S754_finite false 1048576 0).
  unfold SFdiv.
  change (Zpos 1048576) with MEGABYTE.
  rewrite (SFdiv_core_MEGABYTE mx Hlt). fold d.
  change (xorb false false) with false.
  rewrite binary_round_aux_54.
  - by replace (d - 74 + 1) with (d - 73) by lia.
  - apply digits2_pos_unique. rewrite Z2Pos.id.
    + split.
      * replace (53 - 1) with ((d - 1) + (53 - d)) by lia.
        rewrite Z.pow_add_r by lia. apply Z.mul_le_mono_nonneg_r; [|done].
        apply Z.pow_nonneg; lia.
      * replace 53 with (d + (53 - d)) at 2 by lia.
        rewrite Z.pow_add_r by lia. apply Z.mul_lt_mono_pos_r; [|done].
        apply Z.pow_pos_nonneg; lia.
    + apply Z.mul_pos_pos; [lia|]. apply Z.pow_pos_nonneg; lia.
  - lia.
Qed.

Lemma to_mb_lt_50 (size : Z) :
  0 <= size < 2 ^ 53 ->
  exists mb, to_mb size = Ret mb /\ PyFloat.ltb_int mb 50 = (size <? 50 * MEGABYTE).
Proof.
  intros [Hlo Hhi]. destruct size as [|mx|mx]; [|clear Hlo|lia].
  - eexists. split; [reflexivity|]. reflexivity.
  - eexists. split; [exact (to_mb_exact mx Hhi)|].
    pose proof (digits2_pos_bounds mx) as [Blo Bhi].
    set (d := Zpos (digits2_pos mx)) in *.
    assert (Hd : 1 <= d <= 53).
    { split; [unfold d; lia|].
      destruct (Z.le_gt_cases d 53); [done|].
      assert (2 ^ 53 <= 2 ^ (d - 1)) by (apply Z.pow_le_mono_r; lia). lia. }
    set (p := Z.to_pos (Zpos mx * 2 ^ (53 - d))).
    assert (Hp : Zpos p = Zpos mx * 2 ^ (53 - d)).
    { unfold p. rewrite Z2Pos.id; [done|].
      apply Z.mul_pos_pos; [lia|]. apply Z.pow_pos_nonneg; lia. }
    unfold PyFloat.ltb_int.
    replace (binary_normalize PyFloat.prec PyFloat.emax 50 0 false)
      with (S754_finite false 7036874417766400 (-47)) by (vm_compute; reflexivity).
    unfold SFltb, SFcompare.
    change (50 * MEGABYTE) with 52428800.
    destruct (Z.compare_spec (d - 73) (-47)) as [He|He|He].
    + assert (d = 26) as Hd26 by lia.
      rewrite Hd26 in Hp, Blo, Bhi. change (2 ^ (53 - 26)) with 134217728 in Hp.
      rewrite Pos.compare_cont_spec. unfold Pos.switch_Eq.
      rewrite (Pos2Z.inj_compare p), Hp.
      destruct (Z.compare_spec (Zpos mx * 134217728) (Zpos 7036874417766400));
        destruct (Z.ltb_spec (Zpos mx) 52428800); try done; lia.
    + assert (2 ^ d <= 2 ^ 25) by (apply Z.pow_le_mono_r; lia).
      change (2 ^ 25) with 33554432 in *.
      destruct (Z.ltb_spec (Zpos mx) 52428800); [done|lia].
    + assert (2 ^ 26 <= 2 ^ (d - 1)) by (apply Z.pow_le_mono_r; lia).
      change (2 ^ 26) with 67108864 in *.
      destruct (Z.ltb_spec (Zpos mx) 52428800); [lia|done].
Qed.

(** ** The planner *)

Lemma clamp_segments_fresh (requested size : Z) :
  requested <= 5 \/ 0 <= size < 2 ^ 53 ->
  clamp_segments requested size = Ret (fresh_segments requested size).
Proof.
  intros Hdom. unfold clamp_segments, fresh_segments.
  destruct (Z.ltb_spec 5 requested) as [Hgt|Hle]; [|done].
  destruct Hdom as [?|Hsize]; [lia|].
  destruct (to_mb_lt_50 size Hsize) as (mb & -> & Hlt).
  cbn. by rewrite Hlt.
Qed.

Section PlannerFacts.
Context `{codec : JsonCodec}.

Lemma read_progress_persisted (url file_path : string) (etag : etag_t) (w : world) :
  try_except (read_progress (sidecar_path file_path) url etag)
             (fun _ => mret None) w
  = (Ret (persisted_segments w url file_path etag), w).
Proof.
  unfold read_progress, persisted_segments, sidecar_path, read_file.
  cbv [mbind py_bind mret py_ret lift try_except].
  destruct (fs w !! (file_path +:+ ".json")) as [text|]; cbn; [|done].
  destruct (json_loads text) as [progress|]; cbn; [|done].
  destruct (truthy etag) eqn:Ht; cbn.
  - destruct progress as [| | | | | |kvs]; cbn; try done.
    destruct (assoc "url" kvs) as [u|]; cbn; [|done].
    destruct (eq_str u url); cbn.
    + destruct (assoc "etag" kvs) as [e|]; cbn; [|done].
      destruct (eq_etag e etag); cbn; by destruct (assoc "segments" kvs).
    + destruct (assoc "etag" kvs) as [e|]; cbn; [|done].
      by destruct (assoc "segments" kvs).
  - destruct progress as [| | | | | |kvs]; cbn; try done.
    destruct (assoc "url" kvs) as [u|]; cbn; [|done].
    destruct (assoc "etag" kvs) as [e|]; cbn; [|done].
    by destruct (assoc "segments" kvs).
Qed.

Lemma resolve_segments_resolved (url file_path : string) (requested size : Z)
    (etag : etag_t) (w : world) :
  requested <= 5 \/ 0 <= size < 2 ^ 53 ->
  resolve_segments url file_path requested size etag w
  = (Ret (default (JInt (fresh_segments requested size))
                  (persisted_segments w url file_path etag)), w).
Proof.
  intros Hdom. unfold resolve_segments. cbv [mbind py_bind mret py_ret lift].
  rewrite (clamp_segments_fresh _ _ Hdom).
  by rewrite read_progress_persisted.
Qed.

(** When the sidecar counts: it exists, parses to an object, and its "url"
    and "etag" are the strings of the request, the etag not being empty. *)
Lemma persisted_segments_usable (url file_path tag : string) (w : world)
    (text : bytes) (kvs : list (string * json)) (s : json) :
  fs w !! (file_path +:+ ".json") = Some text ->
  json_loads text = Some (JObj kvs) ->
  assoc "url" kvs = Some (JStr url) ->
  assoc "etag" kvs = Some (JStr tag) ->
  assoc "segments" kvs = Some s ->
  tag ≠ "" ->
  persisted_segments w url file_path (EStr tag) = Some s.
Proof.
  intros Hfile Hparse Hurl Hetag Hseg Htag. unfold persisted_segments.
  rewrite Hfile. cbn. rewrite Hparse. cbn. rewrite Hurl, Hetag, Hseg. cbn.
  rewrite !String.eqb_refl. by destruct (String.eqb_spec tag "").
Qed.

(** When it does not: no sidecar, unreadable text, a falsy etag, or a url or
    an etag that differs. *)
Lemma persisted_segments_unusable (url file_path : string) (etag : etag_t)
    (w : world) :
  fs w !! (file_path +:+ ".json") = None
  \/ (exists text, fs w !! (file_path +:+ ".json") = Some text
                   /\ json_loads text = None)
  \/ truthy etag = false
  \/ (exists text kvs u, fs w !! (file_path +:+ ".json") = Some text
         /\ json_loads text = Some (JObj kvs)
         /\ assoc "url" kvs = Some u /\ eq_str u url = false)
  \/ (exists text kvs e, fs w !! (file_path +:+ ".json") = Some text
         /\ json_loads text = Some (JObj kvs)
         /\ assoc "etag" kvs = Some e /\ eq_etag e etag = false) ->
  persisted_segments w url file_path etag = None.
Proof.
  unfold persisted_segments.
  intros [Hnone|[(text & Hfile & Hparse)|[Hfalsy|[(text & kvs & u & Hfile & Hparse & Hu & Hne)
                                                  |(text & kvs & e & Hfile & Hparse & He & Hne)]]]].
  - by rewrite Hnone.
  - rewrite Hfile. cbn. by rewrite Hparse.
  - destruct (fs w !! (file_path +:+ ".json")) as [text|]; cbn; [|done].
    destruct (json_loads text) as [[| | | | | |kvs]|]; cbn; try done.
    destruct (assoc "url" kvs); cbn; [|done].
    destruct (assoc "etag" kvs); cbn; [|done].
    destruct (assoc "segments" kvs); cbn; [|done]. by rewrite Hfalsy.
  - rewrite Hfile. cbn. rewrite Hparse. cbn. rewrite Hu. cbn.
    destruct (assoc "etag" kvs); cbn; [|done].
    destruct (assoc "segments" kvs); cbn; [|done].
    by rewrite Hne, andb_false_r.
  - rewrite Hfile. cbn. rewrite Hparse. cbn.
    destruct (assoc "url" kvs); cbn; [|done]. rewrite He. cbn.
    destruct (assoc "segments" kvs); cbn; [|done].
    by rewrite Hne, andb_false_r.
Qed.

(** C3. The resolved segment count is the fresh value (the request, forced to
    5 when it exceeds 5 and the size is below 50 MB) unless the sidecar
    exists, parses, carries the request's url and its truthy etag, in which
    case it is the sidecar's "segments" value; resolving never raises and
    changes nothing, and the returned table carries the resolved value.
    Sizes range over the ints that binary64 holds exactly. *)
Theorem resolve_segments_spec (url file_path : string) (requested size : Z)
    (etag : etag_t) (w : world) :
  requested <= 5 \/ 0 <= size < 2 ^ 53 ->
  let resolved := default (JInt (fresh_segments requested size))
                          (persisted_segments w url file_path etag) in
  resolve_segments url file_path requested size etag w = (Ret resolved, w)
  /\ forall t w', create_segment_table url file_path requested size etag w = (Ret t, w') ->
       tbl_segments t = resolved.
Proof.
  intros Hdom resolved.
  pose proof (resolve_segments_resolved url file_path requested size etag w Hdom)
    as Hres.
  fold resolved in Hres. split; [done|].
  intros t w'. unfold create_segment_table.
  cbv [mbind py_bind mret py_ret lift write_text]. rewrite Hres.
  destruct (partition_size_of size resolved); [|done].
  destruct (range_of resolved) as [[n idx]|]; [|done].
  destruct (fill_table _ _ _ _ _); [|done].
  by intros [= <- _].
Qed.

End PlannerFacts.

(** The example of the specification: 8 requested segments for 10 MB. *)
Lemma resolve_segments_spec_witness :
  resolve_segments (codec := demo_codec) "http://host/file" "file" 8
    (10 * MEGABYTE) (EStr "v2") sidecar_world = (Ret (JInt 5), sidecar_world).
Proof.
  apply (resolve_segments_spec (codec := demo_codec) "http://host/file" "file" 8
           (10 * MEGABYTE) (EStr "v2") sidecar_world).
  right. vm_compute. split; [discriminate | reflexivity].
Defined.

Section SidecarFacts.
Context `{codec : JsonCodec}.


End SidecarFacts.



(** C2 (as stated, refuted). The plan of 100 bytes in 4 segments is not
    [0,24], [25,49], [50,74], [75,99]. *)
Lemma plan_100_in_4_not_as_claimed :
  (t ← (create_segment_table (codec := demo_codec) "http://host/file" "file"
          4 100 (EBool false) empty_world).1;
   mret (rows t 4))
  <> Ret [Some (Entry 0 24 25 "file.0"); Some (Entry 25 49 25 "file.1");
          Some (Entry 50 74 25 "file.2"); Some (Entry 75 99 25 "file.3")].
Proof. vm_compute. discriminate. Qed.

(** C2 (amended). Planning 100 bytes in 4 segments, with no usable sidecar,
    yields [0,24], [25,49], [50,74], [75,100], each with [segment_size] 25:
    the last segment keeps its computed end, 100. *)
Theorem plan_100_in_4 :
  (t ← (create_segment_table (codec := demo_codec) "http://host/file" "file"
          4 100 (EBool false) empty_world).1;
   mret (tbl_segments t, rows t 4))
  = Ret (JInt 4,
         [Some (Entry 0 24 25 "file.0"); Some (Entry 25 49 25 "file.1");
          Some (Entry 50 74 25 "file.2"); Some (Entry 75 100 25 "file.3")]).
Proof. vm_compute. reflexivity. Qed.

(** C1 (the code departs from it). For 52428810 bytes and 11 requested
    segments (no sidecar, no clamp: the size is not below 50 MB) the table
    has 11 contiguous entries, but the float product
    [partition_size * 11] is 52428809.99..., so the last entry ends at
    52428809 and the stored sizes sum to 52428809, one short of the size. *)
Theorem sizes_sum_one_short :
  (t ← (create_segment_table (codec := demo_codec) "http://host/file" "file"
          11 52428810 (EBool false) empty_world).1;
   mret (tbl_segments t, tbl_entries t !! 10, sum_sizes t 11))
  = Ret (JInt 11, Some (Entry 47662554 52428809 4766255 "file.10"), 52428809).
Proof. vm_compute. reflexivity. Qed.

(** *** Contiguity of every returned table *)

Lemma segment_entry_inv (p : PyFloat.float) (file_path : string) (n i : Z) (e : entry) :
  segment_entry p file_path n i = Ret e ->
  exists s f,
    (x ← PyFloat.mul_int p i; PyFloat.to_int x) = Ret s
    /\ (x ← PyFloat.mul_int p (i + 1); PyFloat.to_int x) = Ret f
    /\ e = Entry s (if bool_decide (i ≠ n - 1) then f - 1 else f) (f - s)
                 (segment_file file_path i).
Proof.
  unfold segment_entry.
  destruct (x ← PyFloat.mul_int p i; PyFloat.to_int x) as [s|] eqn:Hs; [|done].
  destruct (x ← PyFloat.mul_int p (i + 1); PyFloat.to_int x) as [f|] eqn:Hf; [|done].
  cbn. intros [= <-]. by exists s, f.
Qed.

Lemma fill_table_lookup (p : PyFloat.float) (file_path : string) (n : Z)
    (idx : list Z) (dic dic' : gmap Z entry) :
  fill_table p file_path n idx dic = Ret dic' ->
  forall i,
    (i ∈ idx -> exists e, segment_entry p file_path n i = Ret e /\ dic' !! i = Some e)
    /\ (i ∉ idx -> dic' !! i = dic !! i).
Proof.
  revert dic. induction idx as [|j idx IH]; intros dic Hfill i; simpl in Hfill.
  - injection Hfill as <-. split; [by intros ?%elem_of_nil|done].
  - destruct (segment_entry p file_path n j) as [e|] eqn:He; [|done].
    cbn in Hfill. destruct (IH _ Hfill i) as [Hin Hout].
    destruct (decide (i ∈ idx)) as [Hi|Hi].
    + split; [by intros _; apply Hin|]. intros Hn. exfalso. apply Hn. by right.
    + split.
      * intros [->|?]%elem_of_cons; [|done].
        exists e. split; [done|]. rewrite (Hout Hi). apply lookup_insert_eq.
      * intros Hn. rewrite (Hout Hi). apply lookup_insert_ne.
        intros ->. apply Hn. by left.
Qed.

Section Contiguity.
Context `{codec : JsonCodec}.

(** The part of C1 that holds for every table the planner returns: the
    entries are exactly those of the indices [0 .. n-1] for the resolved count
    [n], each stored in its own segment file, and the stored end of an entry
    plus one is the start of the next. *)
Lemma segments_contiguous (url file_path : string) (requested size : Z)
    (etag : etag_t) (w w' : world) (t : segment_table) :
  create_segment_table url file_path requested size etag w = (Ret t, w') ->
  exists n,
    index_value (tbl_segments t) = Some n
    /\ (forall i, is_Some (tbl_entries t !! i) <-> 0 <= i < n)
    /\ (forall i a, tbl_entries t !! i = Some a ->
          segment_path a = segment_file file_path i)
    /\ (forall i a b, tbl_entries t !! i = Some a ->
          tbl_entries t !! (i + 1) = Some b -> end_ a + 1 = start b).
Proof.
  unfold create_segment_table. cbv [mbind py_bind mret py_ret lift write_text].
  destruct (resolve_segments _ _ _ _ _ w) as [[s|] w1]; [|done].
  destruct (partition_size_of size s) as [p|]; [|done].
  unfold range_of. destruct (index_value s) as [n|] eqn:Hn; [|done].
  destruct (fill_table p file_path n (seqZ 0 n) ∅) as [dic|] eqn:Hfill; [|done].
  intros [= <- _]. cbn. exists n. split; [done|].
  pose proof (fill_table_lookup _ _ _ _ _ _ Hfill) as Hlk.
  assert (Hin : forall i, i ∈ seqZ 0 n <-> 0 <= i < n).
  { intros i. rewrite elem_of_seqZ. lia. }
  assert (Hsome : forall i a, dic !! i = Some a ->
            0 <= i < n /\ segment_entry p file_path n i = Ret a).
  { intros i a Ha. destruct (Hlk i) as [H1 H2].
    destruct (decide (i ∈ seqZ 0 n)) as [Hi|Hi].
    - destruct (H1 Hi) as (e & He & Hde). split; [by apply Hin|]. congruence.
    - rewrite (H2 Hi), lookup_empty in Ha. done. }
  split; [|split].
  - intros i. split.
    + intros [a Ha]. by destruct (Hsome i a Ha).
    + intros Hi. destruct (Hlk i) as [H1 _].
      destruct (H1 (proj2 (Hin i) Hi)) as (e & _ & He). by exists e.
  - intros i a Ha. destruct (Hsome i a Ha) as [_ He].
    apply segment_entry_inv in He as (s0 & f & _ & _ & ->). done.
  - intros i a b Ha Hb.
    destruct (Hsome i a Ha) as [Hia Hea]. destruct (Hsome (i + 1) b Hb) as [Hib Heb].
    apply segment_entry_inv in Hea as (sa & fa & _ & Hfa & ->).
    apply segment_entry_inv in Heb as (sb & fb & Hsb & _ & ->).
    cbn. rewrite Hfa in Hsb. injection Hsb as <-.
    rewrite bool_decide_true by lia. lia.
Qed.

End Contiguity.

(** ** The download loop *)

Lemma speed_defined (data : bytes) (elapsed : PyFloat.float) :
  chunk_ok (Chunk data elapsed) = true ->
  exists v, (mb ← to_mb (Z.of_nat (length data)); PyFloat.true_div mb elapsed) = Ret v.
Proof.
  unfold chunk_ok. intros [Hlen Hz]%andb_true_iff.
  apply Z.leb_le in Hlen. apply negb_true_iff in Hz.
  assert (Hdom : 0 <= Z.of_nat (length data) < 2 ^ 53).
  { split; [lia|]. unfold MEGABYTE in Hlen. 
    assert (1048576 < 2 ^ 53) by done. lia. }
  destruct (to_mb_lt_50 _ Hdom) as (mb & -> & _).
  cbv [mbind outcome_bind]. unfold PyFloat.true_div. rewrite Hz. by eexists.
Qed.

Lemma world_eta (w : world) :
  World (fs w) (interrupt w) (log w) (slept w) (requests w) = w.
Proof. by destruct w. Qed.

Section LoopFacts.
Variable transport : request -> list event.
Variable sibling : nat -> bool.

(** What one run of the loop does, whichever way it ends: it appends the
    bytes of the first [m] items, all of them chunks, to the file, counts
    them in [curr], and touches nothing else; once the event is set, it
    stays set. *)
Lemma download_loop_effect (evs : list event) (i : nat) (path : string)
    (self : Basicdown) (w : world) (c : bytes) :
  fs w !! path = Some c ->
  exists m : nat,
    let '(r, self', w') := download_loop sibling evs i path self w in
    (m <= length evs)%nat
    /\ forallb is_chunk (take m evs) = true
    /\ fs w' = <[path := c ++ body_prefix m evs]> (fs w)
    /\ curr self' = curr self + Z.of_nat (length (body_prefix m evs))
    /\ completed self' = completed self
    /\ id self' = id self
    /\ log w' = log w /\ slept w' = slept w /\ requests w' = requests w
    /\ (interrupt w = true -> interrupt w' = true)
    /\ (forall j : nat,
          interrupt w || existsb sibling (seq i (S j)) = true -> (m <= S j)%nat)
    /\ (r = Ret tt -> interrupt w' = false ->
          m = length evs /\ forallb is_chunk evs = true).
Proof.
  revert i self w c. induction evs as [|ev evs IH]; intros i self w c Hc.
  - exists 0%nat. cbn. rewrite app_nil_r, insert_id by done.
    repeat split; auto; lia.
  - destruct ev as [data elapsed|e].
    + cbn [download_loop].
      destruct (mb ← to_mb (Z.of_nat (length data)); PyFloat.true_div mb elapsed)
        as [v|e] eqn:Hv.
      * set (w1 := set_interrupt _ _).
        assert (Hc1 : fs w1 !! path = Some (c ++ data)).
        { cbn. by rewrite lookup_alter_eq, Hc. }
        assert (Hfs1 : fs w1 = <[path := c ++ data]> (fs w)).
        { cbn. apply map_eq. intros q. destruct (decide (path = q)) as [<-|Hq].
          - by rewrite lookup_alter_eq, lookup_insert_eq, Hc.
          - by rewrite lookup_alter_ne, lookup_insert_ne. }
        destruct (interrupt w1) eqn:Hint.
        -- exists 1%nat. unfold body_prefix. cbn. rewrite app_nil_r.
           repeat split; auto; try lia; cbn in Hint; congruence.
        -- destruct (IH (S i) (set_speed v (set_curr (curr self + Z.of_nat (length data)) self)) w1 (c ++ data) Hc1) as [m Hm].
           exists (S m).
           destruct (download_loop sibling evs (S i) path _ w1) as [[r self'] w'].
           destruct Hm as (Hle & Hall & Hfs & Hcurr & Hcomp & Hid & Hlog & Hsl & Hreq & Hmono & Hstop & Hend).
           cbn in Hint. apply orb_false_iff in Hint as [Hi0 Hsib].
           unfold body_prefix in *. cbn [take fmap list_fmap mjoin chunk_data forallb is_chunk length].
           split_and!.
           ++ lia.
           ++ done.
           ++ rewrite Hfs, Hfs1, insert_insert_eq. by rewrite <- app_assoc.
           ++ rewrite Hcurr. cbn. rewrite length_app. lia.
           ++ done.
           ++ done.
           ++ done.
           ++ done.
           ++ done.
           ++ rewrite Hi0. done.
           ++ intros j. rewrite Hi0. cbn [seq existsb orb]. rewrite Hsib. cbn [orb].
              destruct j as [|j]; [done|]. intros Hj.
              apply le_n_S. apply Hstop. by rewrite Hj, orb_true_r.
           ++ intros Hr Hw. by destruct (Hend Hr Hw) as [-> ->].
      * exists 1%nat. unfold body_prefix. cbn. rewrite app_nil_r.
        repeat split; auto; try lia; try done.
        apply map_eq. intros q. destruct (decide (path = q)) as [<-|Hq].
        -- by rewrite lookup_alter_eq, lookup_insert_eq, Hc.
        -- by rewrite lookup_alter_ne, lookup_insert_ne.
    + exists 0%nat. cbn. rewrite app_nil_r, insert_id by done.
      repeat split; auto; try lia; done.
Qed.

End LoopFacts.

Lemma write_chunk_nil (path : string) (w : world) : write_chunk path [] w = w.
Proof.
  unfold write_chunk, set_fs. rewrite alter_id; [apply world_eta|].
  intros x _. apply app_nil_r.
Qed.

Lemma write_chunk_app (path : string) (a b : bytes) (w : world) :
  write_chunk path b (write_chunk path a w) = write_chunk path (a ++ b) w.
Proof.
  unfold write_chunk, set_fs. cbn. f_equal.
  rewrite alter_alter_eq. apply alter_ext. intros x _. cbn. by rewrite app_assoc.
Qed.

Lemma open_write_lookup (path : string) (m : mode) (w : world) :
  fs (open_write path m w) !! path = Some (opened_content m path w).
Proof.
  unfold open_write, opened_content. destruct m; cbn.
  - apply lookup_insert_eq.
  - destruct (fs w !! path) eqn:E; cbn; [done|apply lookup_insert_eq].
Qed.

Lemma open_write_fs (path : string) (m : mode) (w : world) :
  fs (open_write path m w) = <[path := opened_content m path w]> (fs w).
Proof.
  unfold open_write, opened_content. destruct m; cbn; [done|].
  destruct (fs w !! path) eqn:E; cbn; [by rewrite insert_id|done].
Qed.

Lemma open_write_rest (path : string) (m : mode) (w : world) :
  interrupt (open_write path m w) = interrupt w
  /\ log (open_write path m w) = log w
  /\ slept (open_write path m w) = slept w
  /\ requests (open_write path m w) = requests w.
Proof. unfold open_write. destruct m; [done|]. by destruct (fs w !! path). Qed.

Section DownloadFacts.
Variable transport : request -> list event.
Variable sibling : nat -> bool.

(** A prefix of good chunks, with the event unset throughout, is written
    whole and the loop goes on with what follows. *)
Lemma download_loop_prefix (cs evs : list event) (i : nat) (path : string)
    (self : Basicdown) (w : world) :
  forallb good_chunk cs = true ->
  (forall k, (k < length cs)%nat -> interrupt w || sibling (i + k) = false) ->
  exists self1,
    curr self1 = curr self + Z.of_nat (length (mjoin (chunk_data <$> cs)))
    /\ completed self1 = completed self
    /\ id self1 = id self
    /\ download_loop sibling (cs ++ evs) i path self w
       = download_loop sibling evs (i + length cs) path self1
           (write_chunk path (mjoin (chunk_data <$> cs)) w).
Proof.
  revert i self w. induction cs as [|ev cs IH]; intros i self w Hgood Hunset.
  - exists self. cbn. rewrite write_chunk_nil, Nat.add_0_r. split_and!; [lia|done..].
  - assert (Hint : interrupt w = false).
    { assert (H0 : (0 < length (ev :: cs))%nat) by (cbn; lia).
      apply Hunset in H0. by apply orb_false_iff in H0 as [? _]. }
    assert (Hsib : forall k, (k < length (ev :: cs))%nat -> sibling (i + k) = false).
    { intros k Hk. apply Hunset in Hk. by apply orb_false_iff in Hk as [_ ?]. }
    cbn in Hgood. apply andb_true_iff in Hgood as [Hev Hcs].
    unfold good_chunk in Hev. apply andb_true_iff in Hev as [Hchunk Hok].
    destruct ev as [data elapsed|e]; [|done].
    destruct (speed_defined data elapsed Hok) as [v Hv].
    cbn [app download_loop]. rewrite Hv.
    assert (Hw1 : set_interrupt (interrupt (write_chunk path data w) || sibling i)
                    (write_chunk path data w) = write_chunk path data w).
    { assert (Hs0 : sibling i = false).
      { rewrite <- (Nat.add_0_r i). apply Hsib. cbn. lia. }
      unfold set_interrupt, write_chunk, set_fs. cbn. by rewrite Hint, Hs0. }
    rewrite Hw1. cbn [interrupt write_chunk set_fs]. rewrite Hint.
    destruct (IH (S i) (set_speed v (set_curr (curr self + Z.of_nat (length data)) self))
                (write_chunk path data w) Hcs) as (self1 & Hcurr & Hcomp & Hid & Heq).
    { intros k Hk. replace (S i + k)%nat with (i + S k)%nat by lia.
      change (interrupt (write_chunk path data w)) with (interrupt w).
      apply Hunset. cbn [length]. lia. }
    exists self1. split_and!.
    + rewrite Hcurr.
      change (mjoin (chunk_data <$> Chunk data elapsed :: cs))
        with (data ++ mjoin (chunk_data <$> cs)).
      rewrite length_app. cbn [curr set_speed set_curr]. lia.
    + done.
    + done.
    + fold (write_chunk path data w). rewrite Heq, write_chunk_app.
      change (mjoin (chunk_data <$> Chunk data elapsed :: cs))
        with (data ++ mjoin (chunk_data <$> cs)).
      cbn [length].
      by replace (i + S (length cs))%nat with (S i + length cs)%nat by lia.
Qed.

(** What one call of [download] does, whichever way it ends. *)
Lemma download_effect (self : Basicdown) (url path : string) (m : mode)
    (kwargs : kwargs_t) (w : world) :
  exists n : nat,
    let '(self', w') := download transport sibling self url path m kwargs w in
    let evs := transport (Request url kwargs) in
    (n <= length evs)%nat
    /\ fs w' = <[path := opened_content m path w ++ body_prefix n evs]> (fs w)
    /\ curr self' = curr self + Z.of_nat (length (body_prefix n evs))
    /\ completed self' = completed self
    /\ id self' = id self
    /\ requests w' = requests w ++ [Request url kwargs]
    /\ (interrupt w = true -> interrupt w' = true)
    /\ (forall j, signalled_by sibling w j = true -> (n <= S j)%nat).
Proof.
  unfold download.
  set (req := Request url kwargs).
  set (w0 := add_request req (open_write path m w)).
  assert (Hc : fs w0 !! path = Some (opened_content m path w))
    by apply open_write_lookup.
  destruct (open_write_rest path m w) as (Hi & Hl & Hs & Hr).
  destruct (download_loop_effect sibling (transport req) 0 path self w0 _ Hc)
    as [n Hn].
  exists n.
  destruct (download_loop sibling (transport req) 0 path self w0) as [[r self'] w'].
  destruct Hn as (Hle & _ & Hfs & Hcurr & Hcomp & Hid & Hlog & Hsl & Hreq & Hmono & Hstop & _).
  assert (Hfs' : fs w' = <[path := opened_content m path w ++ body_prefix n (transport req)]> (fs w)).
  { rewrite Hfs. cbn. rewrite open_write_fs. apply insert_insert_eq. }
  assert (Hreq' : requests w' = requests w ++ [req]).
  { rewrite Hreq. cbn. by rewrite Hr. }
  assert (Hstop' : forall j, signalled_by sibling w j = true -> (n <= S j)%nat).
  { intros j Hj. apply Hstop. cbn [interrupt w0 add_request]. by rewrite Hi. }
  destruct r as [[]|e]; cbn; split_and!; try done.
  intros Hw. apply Hmono. cbn. by rewrite Hi.
Qed.

End DownloadFacts.

Section WorkerFacts.
Variable transport : request -> list event.
Variable sibling : nat -> bool.



(** While the event stays unset, every good chunk is written: the loop runs
    to the end of the stream. *)
Lemma download_runs_to_end (self : Basicdown) (url path : string)
    (m : mode) (kwargs : kwargs_t) (w : world) :
  forallb good_chunk (transport (Request url kwargs)) = true ->
  interrupt w = false ->
  (forall k, sibling k = false) ->
  let '(self', w') := download transport sibling self url path m kwargs w in
  let body := mjoin (chunk_data <$> transport (Request url kwargs)) in
  fs w' = <[path := opened_content m path w ++ body]> (fs w)
  /\ curr self' = curr self + Z.of_nat (length body)
  /\ interrupt w' = false /\ log w' = log w /\ slept w' = slept w.
Proof.
  intros Hgood Hint Hsib. unfold download.
  destruct (open_write_rest path m w) as (Hi & Hl & Hs & Hr).
  set (req := Request url kwargs) in *.
  set (w0 := add_request req (open_write path m w)).
  destruct (download_loop_prefix sibling (transport req) [] 0 path self w0 Hgood)
    as (self1 & Hcurr & Hcomp & Hid & Heq).
  { intros k _. change (interrupt w0) with (interrupt (open_write path m w)).
    by rewrite Hi, Hint, Hsib. }
  rewrite app_nil_r in Heq. rewrite Heq.
  cbn [download_loop interrupt log slept requests fs write_chunk set_fs w0 add_request].
  rewrite Hi, Hl, Hs, open_write_fs. split_and!; try done.
  apply map_eq. intros q. destruct (decide (path = q)) as [<-|Hq].
  - by rewrite lookup_alter_eq, !lookup_insert_eq.
  - by rewrite lookup_alter_ne, !lookup_insert_ne.
Qed.

End WorkerFacts.

Section SegmentWorkerFacts.
Variable transport : request -> list event.
Variable sibling : nat -> bool.

Lemma Multidown_resume_present (path : string) (size : Z) (base : Basicdown)
    (w : world) (c : bytes) :
  fs w !! path = Some c ->
  Multidown_resume path size base w
  = if size <? Z.of_nat (length c)
    then (Ret base, set_fs (delete path) w)
    else (Ret (set_curr (Z.of_nat (length c)) base), w).
Proof.
  intros Hc. unfold Multidown_resume, path_exists, st_size, unlink.
  cbv [mbind py_bind mret py_ret]. rewrite !Hc.
  rewrite bool_decide_true by done. cbv beta iota. rewrite !Hc.
  destruct (size <? Z.of_nat (length c)); [|done]. by rewrite Hc.
Qed.

Lemma Multidown_resume_absent (path : string) (size : Z) (base : Basicdown)
    (w : world) :
  fs w !! path = None -> Multidown_resume path size base w = (Ret base, w).
Proof.
  intros Hc. unfold Multidown_resume, path_exists.
  cbv [mbind py_bind mret py_ret]. rewrite Hc.
  rewrite bool_decide_false; [done|]. by intros [? ?].
Qed.

Lemma Multidown_worker_unfold (self : Multidown) (e : entry) (w : world) :
  tbl_entries (md_segement_table self) !! id (md_base self) = Some e ->
  Multidown_worker transport sibling self w
  = match Multidown_resume (segment_path e) (segment_size e) (md_base self) w with
    | (Ret base, w1) => Multidown_fetch transport sibling self e base w1
    | (Raise x, w1) => (Raise x, w1)
    end.
Proof.
  intros He. unfold Multidown_worker. cbv [mbind py_bind lift]. by rewrite He.
Qed.

(** C4. A fresh segment worker that finds its segment file holding [k] bytes:
    when [k] exceeds the planned size it deletes the file and goes on with
    [curr = 0]; otherwise it goes on with [curr = k]; and when [k] is below
    the planned size it issues one GET whose "range" header is
    "bytes=(start + k)-end", in append mode, so that the body is added after
    the [k] bytes already there. *)
Theorem segment_worker_resume (table : segment_table) (segment_id : Z)
    (kwargs : kwargs_t) (e : entry) (c : bytes) (w : world) :
  tbl_entries table !! segment_id = Some e ->
  fs w !! segment_path e = Some c ->
  let k := Z.of_nat (length c) in
  let self := Multidown_init table segment_id kwargs in
  let size := segment_size e in
  let ranged := with_range kwargs
                  ("bytes=" +:+ pretty (start e + k) +:+ "-" +:+ pretty (end_ e)) in
  curr (md_base self) = 0
  /\ (size < k ->
        Multidown_resume (segment_path e) size (md_base self) w
        = (Ret (md_base self), set_fs (delete (segment_path e)) w)
        /\ Multidown_worker transport sibling self w
           = Multidown_fetch transport sibling self e (md_base self)
               (set_fs (delete (segment_path e)) w))
  /\ (k <= size ->
        Multidown_resume (segment_path e) size (md_base self) w
        = (Ret (set_curr k (md_base self)), w)
        /\ Multidown_worker transport sibling self w
           = Multidown_fetch transport sibling self e (set_curr k (md_base self)) w)
  /\ (k < size ->
        Multidown_worker transport sibling self w
        = (let '(base, w') :=
             download transport sibling (set_curr k (md_base self))
               (tbl_url table) (segment_path e) AB ranged w in
           (Ret (MkMultidown
                   (if curr base =? size then set_completed true base else base)
                   table kwargs), w'))
        /\ headers ranged
           = Some (<["range" := "bytes=" +:+ pretty (start e + k) +:+ "-"
                                  +:+ pretty (end_ e)]> (default ∅ (headers kwargs)))
        /\ requests (Multidown_worker transport sibling self w).2
           = requests w ++ [Request (tbl_url table) ranged]
        /\ exists n : nat,
             fs (Multidown_worker transport sibling self w).2 !! segment_path e
             = Some (c ++ body_prefix n (transport (Request (tbl_url table) ranged)))).
Proof.
  intros He Hc k self size ranged.
  assert (Hid : tbl_entries (md_segement_table self) !! id (md_base self) = Some e) by done.
  pose proof (Multidown_worker_unfold self e w Hid) as Hw.
  pose proof (Multidown_resume_present (segment_path e) size (md_base self) w c Hc) as Hr.
  fold k in Hr. fold size in Hw.
  split; [done|]. split_and!.
  - intros Hlt. destruct (Z.ltb_spec size k); [|lia].
    rewrite Hw, Hr. done.
  - intros Hle. destruct (Z.ltb_spec size k); [lia|].
    rewrite Hw, Hr. done.
  - intros Hlt. destruct (Z.ltb_spec size k); [lia|].
    assert (Hworker : Multidown_worker transport sibling self w
        = (let '(base, w') :=
             download transport sibling (set_curr k (md_base self))
               (tbl_url table) (segment_path e) AB ranged w in
           (Ret (MkMultidown
                   (if curr base =? size then set_completed true base else base)
                   table kwargs), w'))).
    { rewrite Hw, Hr. unfold Multidown_fetch. cbv [mbind py_bind mret py_ret].
      cbn [curr set_curr md_base self Multidown_init md_kwargs md_segement_table].
      fold size. destruct (Z.ltb_spec k size); [|lia].
      unfold range_value. fold ranged.
      by destruct (download _ _ _ _ _ _ _ _) as [base w']. }
    split_and!; [done|done|..].
    + rewrite Hworker.
      destruct (download_effect transport sibling (set_curr k (md_base self))
                  (tbl_url table) (segment_path e) AB ranged w) as [n Hn].
      destruct (download _ _ _ _ _ _ _ _) as [base w'].
      by destruct Hn as (_ & _ & _ & _ & _ & Hreq & _).
    + rewrite Hworker.
      destruct (download_effect transport sibling (set_curr k (md_base self))
                  (tbl_url table) (segment_path e) AB ranged w) as [n Hn].
      exists n. destruct (download _ _ _ _ _ _ _ _) as [base w'].
      destruct Hn as (_ & Hfs & _). cbn [snd]. rewrite Hfs, lookup_insert_eq.
      unfold opened_content. by rewrite Hc.
Qed.

(** C10. A segment worker whose segment file already holds exactly the
    planned number of bytes issues no request and changes nothing in the
    world; it returns with [curr] equal to the planned size and
    [completed = true]. *)
Theorem segment_worker_already_complete (self : Multidown) (e : entry)
    (c : bytes) (w : world) :
  tbl_entries (md_segement_table self) !! id (md_base self) = Some e ->
  fs w !! segment_path e = Some c ->
  Z.of_nat (length c) = segment_size e ->
  let out := Multidown_worker transport sibling self w in
  out = (Ret (MkMultidown
                (set_completed true (set_curr (segment_size e) (md_base self)))
                (md_segement_table self) (md_kwargs self)), w)
  /\ requests out.2 = requests w
  /\ (self' ← out.1; mret (completed (md_base self'))) = Ret true.
Proof.
  intros He Hc Hlen out.
  assert (Hout : out = (Ret (MkMultidown
                (set_completed true (set_curr (segment_size e) (md_base self)))
                (md_segement_table self) (md_kwargs self)), w)).
  { unfold out. rewrite (Multidown_worker_unfold self e w He).
    rewrite (Multidown_resume_present _ _ _ _ _ Hc), Hlen, Z.ltb_irrefl.
    unfold Multidown_fetch. cbv [mbind py_bind mret py_ret].
    cbn [curr set_curr]. by rewrite Z.ltb_irrefl, Z.eqb_refl. }
  by rewrite Hout.
Qed.

(** C5 (amended). A whole-file worker ends with [completed = true] whenever
    its [download] call returns, whether the stream was exhausted, the loop
    was cancelled or the transport failed. A segment worker that starts with
    [completed = false] always returns, and it ends with [completed = true]
    exactly when [curr] equals the planned size at that point, whichever way
    its download ended and also when none was needed. *)
Theorem workers_completed (sd : Simpledown) (md : Multidown) (e : entry)
    (w : world) :
  tbl_entries (md_segement_table md) !! id (md_base md) = Some e ->
  completed (md_base md) = false ->
  completed (sd_base (Simpledown_worker transport sibling sd w).1) = true
  /\ exists md' w',
       Multidown_worker transport sibling md w = (Ret md', w')
       /\ (completed (md_base md') = true <-> curr (md_base md') = segment_size e).
Proof.
  intros He Hfalse. split.
  - unfold Simpledown_worker. by destruct (download _ _ _ _ _ _ _ _).
  - rewrite (Multidown_worker_unfold md e w He).
    assert (Hres : exists base w1,
              Multidown_resume (segment_path e) (segment_size e) (md_base md) w
              = (Ret base, w1) /\ completed base = false).
    { destruct (fs w !! segment_path e) as [c|] eqn:Hc.
      - rewrite (Multidown_resume_present _ _ _ _ _ Hc).
        destruct (segment_size e <? Z.of_nat (length c)); by eexists _, _.
      - rewrite (Multidown_resume_absent _ _ _ _ Hc). by eexists _, _. }
    destruct Hres as (base & w1 & -> & Hbase).
    unfold Multidown_fetch. cbv [mbind py_bind mret py_ret].
    destruct (curr base <? segment_size e).
    + destruct (download_effect transport sibling base (tbl_url (md_segement_table md))
                  (segment_path e) AB
                  (with_range (md_kwargs md)
                     (range_value (start e + curr base) (end_ e))) w1) as [n Hn].
      destruct (download _ _ _ _ _ _ _ _) as [base' w'].
      destruct Hn as (_ & _ & _ & Hcomp & _).
      eexists _, _. split; [reflexivity|]. cbn [md_base].
      destruct (Z.eqb_spec (curr base') (segment_size e)); cbn; [done|].
      rewrite Hcomp, Hbase. split; [done|]. intros. done.
    + eexists _, _. split; [reflexivity|]. cbn [md_base].
      destruct (Z.eqb_spec (curr base) (segment_size e)); cbn; [done|].
      rewrite Hbase. split; [done|]. intros. done.
Qed.

End SegmentWorkerFacts.

(** ** The combiner *)

Lemma read_bytes_app (n : Z) (src : bytes) :
  (read_bytes n src).1 ++ (read_bytes n src).2 = src.
Proof.
  revert n. induction src as [|b rest IH]; intros n; simpl; [done|].
  destruct (n <=? 0); simpl; [done|].
  specialize (IH (n - 1)). destruct (read_bytes (n - 1) rest) as [c r].
  simpl in *. by rewrite IH.
Qed.

Lemma read_bytes_nil (n : Z) (src : bytes) :
  0 < n -> (read_bytes n src).1 = [] -> src = [].
Proof.
  intros Hn. destruct src as [|b rest]; simpl; [done|].
  destruct (Z.leb_spec n 0); [lia|].
  by destruct (read_bytes (n - 1) rest).
Qed.

(** The copy loop appends the whole segment to the destination. *)
Lemma copy_chunks_all (src : bytes) (dest : string) (w : world) :
  copy_chunks src dest w = write_chunk dest src w.
Proof.
  funelim (copy_chunks src dest w).
  - assert (src = []) as ->.
    { apply (read_bytes_nil CHUNKSIZE); [done|]. by rewrite e. }
    symmetry. apply write_chunk_nil.
  - rewrite H, write_chunk_app. f_equal.
    pose proof (read_bytes_app CHUNKSIZE src) as Happ. by rewrite Heq in Happ.
Qed.

(** *** The paths involved are pairwise distinct *)

Lemma string_app_nil_r (s : string) : s +:+ "" = s.
Proof.
  induction s as [|a s IH]; [done|].
  change (String a (s +:+ "") = String a s). by rewrite IH.
Qed.

Lemma string_app_assoc (s t u : string) : (s +:+ t) +:+ u = s +:+ (t +:+ u).
Proof.
  induction s as [|a s IH]; [done|].
  change (String a ((s +:+ t) +:+ u) = String a (s +:+ (t +:+ u))). by rewrite IH.
Qed.

Lemma segment_file_inj (file_path : string) (i j : Z) :
  segment_file file_path i = segment_file file_path j -> i = j.
Proof.
  unfold segment_file. intros H.
  apply (inj (String.app file_path)) in H.
  apply (inj (String.app ".")) in H.
  by apply (inj pretty) in H.
Qed.

Lemma segment_file_ne_dest (file_path : string) (i : Z) :
  segment_file file_path i ≠ file_path.
Proof.
  unfold segment_file. intros H.
  rewrite <- (string_app_nil_r file_path) in H at 2.
  by apply (inj (String.app file_path)) in H.
Qed.

Lemma sidecar_ne_dest (file_path : string) : sidecar_path file_path ≠ file_path.
Proof.
  unfold sidecar_path. intros H.
  rewrite <- (string_app_nil_r file_path) in H at 2.
  by apply (inj (String.app file_path)) in H.
Qed.

Lemma pretty_N_go_suffix (x : N) (s : string) :
  pretty_N_go x s = pretty_N_go x "" +:+ s.
Proof.
  revert s. induction (N.lt_wf_0 x) as [x _ IH]; intros s.
  destruct (decide (0 < x)%N) as [Hx|Hx].
  - assert (Hlt : (x `div` 10 < x)%N) by (apply N.div_lt; [done|lia]).
    rewrite !(pretty_N_go_step x) by done.
    rewrite (IH _ Hlt (String _ s)), (IH _ Hlt (String _ "")).
    by rewrite string_app_assoc.
  - assert (x = 0%N) as -> by lia. by rewrite !pretty_N_go_0.
Qed.

Lemma pretty_not_json (i : Z) : pretty i ≠ "json".
Proof.
  destruct i as [|p|p]; [done| |done].
  unfold pretty, pretty_Z, pretty, pretty_positive, pretty, pretty_N.
  rewrite decide_False by done.
  rewrite pretty_N_go_step, pretty_N_go_suffix by lia.
  generalize (pretty_N_go (N.pos p `div` 10) "") as t.
  generalize (N.pos p `mod` 10)%N as d. intros d t H.
  assert (pretty_N_char d = "n"%char) as Hd.
  { assert (Hnil : forall u : string, "" +:+ u = u) by done.
    assert (Hcons : forall a (u v : string), String a u +:+ v = String a (u +:+ v)) by done.
    destruct t as [|a1 t]; [rewrite Hnil in H; discriminate|].
    rewrite Hcons in H. injection H as _ H.
    destruct t as [|a2 t]; [rewrite Hnil in H; discriminate|].
    rewrite Hcons in H. injection H as _ H.
    destruct t as [|a3 t]; [rewrite Hnil in H; discriminate|].
    rewrite Hcons in H. injection H as _ H.
    destruct t as [|a4 t]; [rewrite Hnil in H; by injection H|].
    rewrite Hcons in H. injection H as _ H.
    destruct t; discriminate. }
  unfold pretty_N_char in Hd. by repeat case_match.
Qed.

Lemma segment_file_ne_sidecar (file_path : string) (i : Z) :
  segment_file file_path i ≠ sidecar_path file_path.
Proof.
  unfold segment_file, sidecar_path. intros H.
  apply (inj (String.app file_path)) in H.
  apply (inj (String.app ".") (pretty i) "json") in H.
  by apply pretty_not_json in H.
Qed.

(** *** The merge *)

Lemma combine_loop_spec (file_path : string) (contents : Z -> bytes)
    (idx : list Z) (w : world) (acc : bytes) :
  NoDup idx ->
  (forall i, i ∈ idx -> fs w !! segment_file file_path i = Some (contents i)) ->
  fs w !! file_path = Some acc ->
  exists w',
    combine_loop file_path idx w = (Ret tt, w')
    /\ fs w' !! file_path = Some (acc ++ mjoin (contents <$> idx))
    /\ (forall i, i ∈ idx -> fs w' !! segment_file file_path i = None)
    /\ (forall p, p ≠ file_path -> (forall i, i ∈ idx -> p ≠ segment_file file_path i) ->
          fs w' !! p = fs w !! p)
    /\ interrupt w' = interrupt w /\ log w' = log w
    /\ slept w' = slept w /\ requests w' = requests w.
Proof.
  revert w acc. induction idx as [|i idx IH]; intros w acc Hnd Hsrc Hdest.
  - exists w. cbn. rewrite app_nil_r. split_and!; try done.
    intros i Hi. by apply elem_of_nil in Hi.
  - apply NoDup_cons in Hnd as [Hi Hnd].
    assert (Hsi : fs w !! segment_file file_path i = Some (contents i)).
    { apply Hsrc. by left. }
    cbn [combine_loop]. unfold read_file, unlink.
    cbv [mbind py_bind mret py_ret]. rewrite Hsi, copy_chunks_all.
    set (w1 := write_chunk file_path (contents i) w).
    assert (Hw1 : forall p, p ≠ file_path -> fs w1 !! p = fs w !! p).
    { intros p Hp. cbn. by rewrite lookup_alter_ne. }
    assert (Hw1d : fs w1 !! file_path = Some (acc ++ contents i)).
    { cbn. by rewrite lookup_alter_eq, Hdest. }
    rewrite (Hw1 _ (segment_file_ne_dest file_path i)), Hsi.
    set (w2 := set_fs (delete (segment_file file_path i)) w1).
    assert (Hw2 : forall p, p ≠ segment_file file_path i -> fs w2 !! p = fs w1 !! p).
    { intros p Hp. cbn. by rewrite lookup_delete_ne. }
    destruct (IH w2 (acc ++ contents i) Hnd) as (w' & Hrun & Hd & Hgone & Hframe & Hrest).
    { intros j Hj.
      rewrite Hw2 by (intros ?%segment_file_inj; by subst).
      rewrite Hw1 by apply segment_file_ne_dest. apply Hsrc. by right. }
    { rewrite Hw2 by (intros E; by apply (segment_file_ne_dest file_path i)).
      done. }
    exists w'. split_and!.
    + done.
    + rewrite Hd. cbn. by rewrite app_assoc.
    + intros j [->|Hj]%elem_of_cons; [|by apply Hgone].
      rewrite Hframe.
      * cbn. apply lookup_delete_eq.
      * apply segment_file_ne_dest.
      * intros j Hj ?%segment_file_inj. by subst.
    + intros p Hp Hne. rewrite Hframe.
      * rewrite Hw2 by (apply Hne; by left). by apply Hw1.
      * done.
      * intros j Hj. apply Hne. by right.
    + by destruct Hrest as (-> & _).
    + by destruct Hrest as (_ & -> & _).
    + by destruct Hrest as (_ & _ & -> & _).
    + by destruct Hrest as (_ & _ & _ & ->).
Qed.

(** C7. With the segment files 0 .. segments-1 and the sidecar on disk,
    [combine_files] returns normally; afterwards the destination holds the
    segment contents concatenated in increasing index order, every segment
    file and the sidecar are gone, and nothing else has changed. *)
Theorem combine_files_spec (file_path : string) (segments : Z)
    (contents : Z -> bytes) (w : world) :
  (forall i, 0 <= i < segments ->
     fs w !! (file_path +:+ "." +:+ pretty i) = Some (contents i)) ->
  is_Some (fs w !! (file_path +:+ ".json")) ->
  exists w',
    combine_files file_path segments w = (Ret tt, w')
    /\ fs w' !! file_path = Some (mjoin (contents <$> seqZ 0 segments))
    /\ (forall i, 0 <= i < segments -> fs w' !! (file_path +:+ "." +:+ pretty i) = None)
    /\ fs w' !! (file_path +:+ ".json") = None
    /\ (forall p, p ≠ file_path -> p ≠ file_path +:+ ".json" ->
          (forall i, 0 <= i < segments -> p ≠ file_path +:+ "." +:+ pretty i) ->
          fs w' !! p = fs w !! p)
    /\ interrupt w' = interrupt w /\ log w' = log w
    /\ slept w' = slept w /\ requests w' = requests w.
Proof.
  intros Hsrc [side Hside].
  fold (sidecar_path file_path) in *.
  unfold combine_files. cbv [mbind py_bind mret py_ret].
  set (w0 := open_write file_path WB w).
  assert (Hw0 : forall p, p ≠ file_path -> fs w0 !! p = fs w !! p).
  { intros p Hp. cbn. by rewrite lookup_insert_ne. }
  assert (Hin : forall i, i ∈ seqZ 0 segments <-> 0 <= i < segments).
  { intros i. rewrite elem_of_seqZ. lia. }
  destruct (combine_loop_spec file_path contents (seqZ 0 segments) w0 [])
    as (w1 & -> & Hd & Hgone & Hframe & Hi & Hl & Hs & Hr).
  { apply NoDup_seqZ. }
  { intros i Hi. rewrite Hw0 by apply segment_file_ne_dest. by apply Hsrc, Hin. }
  { cbn. apply lookup_insert_eq. }
  assert (Hs1 : fs w1 !! sidecar_path file_path = Some side).
  { rewrite Hframe, Hw0; [done|apply sidecar_ne_dest..|].
    intros i _ E. by apply (segment_file_ne_sidecar file_path i). }
  unfold unlink. rewrite Hs1.
  eexists. split; [reflexivity|]. cbn [fs set_fs interrupt log slept requests].
  split_and!; try done.
  - rewrite lookup_delete_ne by apply sidecar_ne_dest. done.
  - intros i Hi'. rewrite lookup_delete_ne by (intros E; by apply (segment_file_ne_sidecar file_path i)).
    by apply Hgone, Hin.
  - apply lookup_delete_eq.
  - intros p Hp Hps Hseg. rewrite lookup_delete_ne by done.
    rewrite Hframe, Hw0; [done..|]. intros i Hi'. by apply Hseg, Hin.
Qed.

(** ** The theorems at concrete inputs *)



Lemma segment_worker_resume_witness :
  requests (Multidown_worker one_chunk no_sibling
              (Multidown_init demo_table 0 no_kwargs) partial_world).2
  = [Request "http://host/file"
       (Kwargs (Some {["range" := "bytes=3-5"]}) [])].
Proof.
  destruct (segment_worker_resume one_chunk no_sibling demo_table 0 no_kwargs
              (Entry 0 5 5 "file.0") abc partial_world eq_refl eq_refl)
    as (_ & _ & _ & Hlt).
  destruct Hlt as (_ & _ & Hreq & _); [vm_compute; reflexivity|].
  exact Hreq.
Defined.

Lemma segment_worker_already_complete_witness :
  Multidown_worker one_chunk no_sibling (Multidown_init demo_table 0 no_kwargs)
    full_world
  = (Ret (MkMultidown (MkBasicdown 5 true 0 (S754_zero false)) demo_table no_kwargs),
     full_world).
Proof.
  apply (segment_worker_already_complete one_chunk no_sibling
           (Multidown_init demo_table 0 no_kwargs) (Entry 0 5 5 "file.0")
           (abc ++ de) full_world eq_refl eq_refl eq_refl).
Defined.

Lemma workers_completed_witness :
  completed (sd_base (Simpledown_worker one_chunk no_sibling
                        (Simpledown_init "http://host/file" "file" no_kwargs)
                        partial_world).1) = true
  /\ exists md' w',
       Multidown_worker one_chunk no_sibling
         (Multidown_init demo_table 0 no_kwargs) partial_world = (Ret md', w')
       /\ (completed (md_base md') = true <-> curr (md_base md') = 5).
Proof.
  exact (workers_completed one_chunk no_sibling
           (Simpledown_init "http://host/file" "file" no_kwargs)
           (Multidown_init demo_table 0 no_kwargs) (Entry 0 5 5 "file.0")
           partial_world eq_refl eq_refl).
Defined.

(** C5 (as stated, refuted). A segment worker whose loop is left by
    cancellation right after the chunk that fills its segment ends with
    [completed = true]; so does a whole-file worker whose transport fails
    after the first chunk, and one cancelled after the first of two chunks. *)
Lemma completed_after_cancellation_or_error :
  (let '(r, w') :=
     Multidown_worker two_chunks always_set
       (Multidown_init demo_table 0 no_kwargs) partial_world in
   (md' ← r; mret (completed (md_base md'), curr (md_base md'))) = Ret (true, 5)
   /\ interrupt w' = true
   /\ fs w' !! "file.0" = Some (abc ++ de))
  /\ (let '(sd', w') :=
        Simpledown_worker failing_transport no_sibling
          (Simpledown_init "http://host/file" "file" no_kwargs) empty_world in
      completed (sd_base sd') = true
      /\ interrupt w' = true
      /\ log w' = ["(Thread: 0) [ConnectionError: reset]"]
      /\ fs w' !! "file" = Some de)
  /\ (let '(sd', w') :=
        Simpledown_worker two_chunks always_set
          (Simpledown_init "http://host/file" "file" no_kwargs) empty_world in
      completed (sd_base sd') = true
      /\ interrupt w' = true
      /\ fs w' !! "file" = Some de).
Proof. vm_compute. by repeat split. Qed.

Lemma combine_files_spec_witness :
  exists w',
    combine_files "file" 2 merge_world = (Ret tt, w')
    /\ fs w' !! "file" = Some (abc ++ de)
    /\ fs w' !! "file.0" = None
    /\ fs w' !! "file.1" = None
    /\ fs w' !! "file.json" = None
    /\ fs w' !! "other" = Some de.
Proof.
  destruct (combine_files_spec "file" 2 merge_contents merge_world)
    as (w' & Hrun & Hdest & Hgone & Hside & Hframe & _).
  - intros i Hi. assert (i = 0 \/ i = 1) as [-> | ->] by lia; reflexivity.
  - by eexists.
  - exists w'. split_and!; [done|done|by apply (Hgone 0)|by apply (Hgone 1)|done|].
    rewrite Hframe; [done|done|done|].
    intros i Hi. assert (i = 0 \/ i = 1) as [-> | ->] by lia; done.
Defined.

(** * Further properties *)

(** ** The planner: what a returned table is made of *)

Section PlanFacts.
Context `{codec : JsonCodec}.

Lemma create_segment_table_inv (url file_path : string) (requested size : Z)
    (etag : etag_t) (w w' : world) (t : segment_table) :
  create_segment_table url file_path requested size etag w = (Ret t, w') ->
  exists (s : json) (p : PyFloat.float) (n : Z) (dic : gmap Z entry) (w1 : world),
    resolve_segments url file_path requested size etag w = (Ret s, w1)
    /\ partition_size_of size s = Ret p
    /\ index_value s = Some n
    /\ fill_table p file_path n (seqZ 0 n) ∅ = Ret dic
    /\ t = SegmentTable url s dic
    /\ w' = set_fs <[sidecar_path file_path :=
                      json_dumps (sidecar_object url etag s)]> w1.
Proof.
  unfold create_segment_table. cbv [mbind py_bind mret py_ret lift write_text].
  destruct (resolve_segments _ _ _ _ _ w) as [[s|] w1]; [|done].
  destruct (partition_size_of size s) as [p|] eqn:Hp; [|done].
  unfold range_of. destruct (index_value s) as [n|] eqn:Hn; [|done].
  destruct (fill_table p file_path n (seqZ 0 n) ∅) as [dic|] eqn:Hfill; [|done].
  intros [= <- <-]. by exists s, p, n, dic, w1.
Qed.

Lemma resolve_segments_pure (url file_path : string) (requested size : Z)
    (etag : etag_t) (w w1 : world) (s : json) :
  resolve_segments url file_path requested size etag w = (Ret s, w1) -> w1 = w.
Proof.
  unfold resolve_segments. cbv [mbind py_bind mret py_ret lift].
  destruct (clamp_segments requested size); [|done].
  rewrite read_progress_persisted. by intros [= _ <-].
Qed.

End PlanFacts.

Lemma boundary_zero (p : PyFloat.float) (v : Z) : boundary p 0 = Ret v -> v = 0.
Proof.
  unfold boundary, PyFloat.mul_int, PyFloat.of_int.
  destruct p as [s|s| |s m e]; cbn; by intros [= <-].
Qed.

Lemma fill_table_entries (p : PyFloat.float) (file_path : string) (n : Z)
    (dic : gmap Z entry) :
  fill_table p file_path n (seqZ 0 n) ∅ = Ret dic ->
  forall i, 0 <= i < n ->
    exists s f,
      boundary p i = Ret s /\ boundary p (i + 1) = Ret f
      /\ dic !! i = Some (Entry s (if bool_decide (i ≠ n - 1) then f - 1 else f)
                                (f - s) (segment_file file_path i)).
Proof.
  intros Hfill i Hi.
  destruct (fill_table_lookup _ _ _ _ _ _ Hfill i) as [Hin _].
  destruct Hin as (e & He & Hlk); [apply elem_of_seqZ; lia|].
  apply segment_entry_inv in He as (s & f & Hs & Hf & ->).
  by exists s, f.
Qed.

Lemma sum_telescope (G : Z -> Z) (k : nat) (m : Z) :
  foldr Z.add 0 ((fun i => G (i + 1) - G i) <$> seqZ m (Z.of_nat k))
  = G (m + Z.of_nat k) - G m.
Proof.
  revert m. induction k as [|k IH]; intros m.
  - rewrite seqZ_nil by lia. change (Z.of_nat 0) with 0. rewrite Z.add_0_r.
    cbn [fmap list_fmap foldr]. lia.
  - rewrite seqZ_cons by lia. cbn [fmap list_fmap foldr].
    replace (Z.pred (Z.of_nat (S k))) with (Z.of_nat k) by lia.
    rewrite IH. replace (Z.succ m + Z.of_nat k) with (m + Z.of_nat (S k)) by lia.
    replace (Z.succ m) with (m + 1) by lia. lia.
Qed.

Section PlanTheorems.
Context `{codec : JsonCodec}.

(** X2. Whatever the float rounding does, a returned table with [n >= 1]
    segments starts at byte 0 and its stored sizes sum to the stored end of
    its last segment: the sizes fail to sum to the total size exactly when
    the last end is not the total size. *)
Theorem sizes_sum_to_last_end (url file_path : string) (requested size : Z)
    (etag : etag_t) (w w' : world) (t : segment_table) (n : Z) :
  create_segment_table url file_path requested size etag w = (Ret t, w') ->
  index_value (tbl_segments t) = Some n ->
  0 < n ->
  exists first last,
    tbl_entries t !! 0 = Some first
    /\ tbl_entries t !! (n - 1) = Some last
    /\ start first = 0
    /\ sum_sizes t n = end_ last.
Proof.
  intros Hrun Hn Hpos.
  apply create_segment_table_inv in Hrun
    as (s & p & n' & dic & w1 & _ & _ & Hn' & Hfill & -> & _).
  cbn in Hn. rewrite Hn in Hn'. injection Hn' as <-.
  pose proof (fill_table_entries _ _ _ _ Hfill) as Hent.
  destruct (Hent 0) as (s0 & f0 & Hs0 & _ & H0); [lia|].
  destruct (Hent (n - 1)) as (sl & fl & _ & Hfl & Hl); [lia|].
  eexists _, _. split; [exact H0|]. split; [exact Hl|].
  split; [by apply (boundary_zero p)|].
  cbn [end_]. rewrite bool_decide_false by lia.
  set (G := fun i => match boundary p i with Ret v => v | Raise _ => 0 end).
  assert (Hsizes : stored_sizes (SegmentTable url s dic) n
                   = (fun i => G (i + 1) - G i) <$> seqZ 0 n).
  { unfold stored_sizes. apply list_fmap_ext. intros k i Hk.
    apply lookup_seqZ in Hk as [-> Hlt].
    destruct (Hent (0 + Z.of_nat k)) as (a & b & Ha & Hb & Hd); [lia|].
    cbn [tbl_entries]. rewrite Hd. unfold G. by rewrite Ha, Hb. }
  unfold sum_sizes. rewrite Hsizes.
  replace n with (Z.of_nat (Z.to_nat n)) at 1 by lia.
  rewrite sum_telescope. unfold G.
  replace (0 + Z.of_nat (Z.to_nat n)) with (n - 1 + 1) by lia.
  rewrite Hfl, Hs0. apply (boundary_zero p) in Hs0. lia.
Qed.

End PlanTheorems.

Lemma eq_etag_refl (etag : etag_t) : eq_etag (etag_json etag) etag = true.
Proof. destruct etag as [s|b]; cbn; [apply String.eqb_refl|by destruct b]. Qed.

Section ReplanFacts.
Context `{codec : JsonCodec}.

(** What a sidecar written by an earlier plan resolves to. *)
Lemma persisted_of_written (url0 url file_path : string) (etag0 etag : etag_t)
    (s : json) (w : world) :
  fs w !! sidecar_path file_path = Some (json_dumps (sidecar_object url0 etag0 s)) ->
  json_loads (json_dumps (sidecar_object url0 etag0 s))
    = Some (sidecar_object url0 etag0 s) ->
  persisted_segments w url file_path etag
  = if truthy etag && String.eqb url0 url && eq_etag (etag_json etag0) etag
    then Some s else None.
Proof.
  intros Hfile Hload. unfold persisted_segments.
  fold (sidecar_path file_path). rewrite Hfile. cbn. rewrite Hload. done.
Qed.

Lemma plan_leaves_sidecar (url file_path : string) (requested size : Z)
    (etag : etag_t) (w w' : world) (t : segment_table) :
  create_segment_table url file_path requested size etag w = (Ret t, w') ->
  w' = set_fs <[sidecar_path file_path :=
                  json_dumps (sidecar_object url etag (tbl_segments t))]> w.
Proof.
  intros Hrun.
  apply create_segment_table_inv in Hrun
    as (s & p & n & dic & w1 & Hres & _ & _ & _ & -> & ->).
  by apply resolve_segments_pure in Hres as ->.
Qed.

(** X3. Planning again for the same url with the same truthy etag reuses the
    plan: whatever count is requested the second time, the same table comes
    back and the world, sidecar included, is as the first plan left it. *)
Theorem replanning_reuses_plan (url file_path : string) (first again size : Z)
    (etag : etag_t) (w w1 : world) (t : segment_table) :
  truthy etag = true ->
  again <= 5 \/ 0 <= size < 2 ^ 53 ->
  create_segment_table url file_path first size etag w = (Ret t, w1) ->
  json_loads (json_dumps (sidecar_object url etag (tbl_segments t)))
    = Some (sidecar_object url etag (tbl_segments t)) ->
  create_segment_table url file_path again size etag w1 = (Ret t, w1).
Proof.
  intros Htruthy Hdom Hrun Hload.
  pose proof (plan_leaves_sidecar _ _ _ _ _ _ _ _ Hrun) as Hw1.
  apply create_segment_table_inv in Hrun
    as (s & p & n & dic & w0 & _ & Hp & Hn & Hfill & -> & _).
  cbn [tbl_segments] in *.
  assert (Hfile : fs w1 !! sidecar_path file_path
                  = Some (json_dumps (sidecar_object url etag s))).
  { rewrite Hw1. cbn. apply lookup_insert_eq. }
  assert (Hres : resolve_segments url file_path again size etag w1 = (Ret s, w1)).
  { rewrite (resolve_segments_resolved _ _ _ _ _ _ Hdom).
    rewrite (persisted_of_written url url file_path etag etag s w1 Hfile Hload).
    by rewrite Htruthy, String.eqb_refl, eq_etag_refl. }
  unfold create_segment_table. cbv [mbind py_bind mret py_ret lift write_text].
  rewrite Hres, Hp. unfold range_of. rewrite Hn, Hfill.
  f_equal. unfold set_fs. rewrite insert_id by done. apply world_eta.
Qed.

(** X4. A plan left by an earlier call is ignored as soon as the url differs, the
    etag differs, or the new request has no etag: the count is then the
    fresh one, computed from the new request alone, and it is the count of
    every table the new call returns. *)
Theorem changed_request_discards_plan (url url' file_path : string)
    (first again size size' : Z) (etag etag' : etag_t) (w w1 : world)
    (t : segment_table) :
  url ≠ url' \/ eq_etag (etag_json etag) etag' = false \/ truthy etag' = false ->
  again <= 5 \/ 0 <= size' < 2 ^ 53 ->
  create_segment_table url file_path first size etag w = (Ret t, w1) ->
  json_loads (json_dumps (sidecar_object url etag (tbl_segments t)))
    = Some (sidecar_object url etag (tbl_segments t)) ->
  resolve_segments url' file_path again size' etag' w1
  = (Ret (JInt (fresh_segments again size')), w1)
  /\ (forall t2 w2,
        create_segment_table url' file_path again size' etag' w1 = (Ret t2, w2) ->
        tbl_segments t2 = JInt (fresh_segments again size')).
Proof.
  intros Hdiff Hdom Hrun Hload.
  pose proof (plan_leaves_sidecar _ _ _ _ _ _ _ _ Hrun) as Hw1.
  assert (Hfile : fs w1 !! sidecar_path file_path
                  = Some (json_dumps (sidecar_object url etag (tbl_segments t)))).
  { rewrite Hw1. cbn. apply lookup_insert_eq. }
  assert (Hres : resolve_segments url' file_path again size' etag' w1
                 = (Ret (JInt (fresh_segments again size')), w1)).
  { rewrite (resolve_segments_resolved _ _ _ _ _ _ Hdom).
    rewrite (persisted_of_written url url' file_path etag etag' _ w1 Hfile Hload).
    destruct Hdiff as [Hurl|[Hetag|Hfalsy]].
    - destruct (String.eqb_spec url url'); [done|]. by rewrite andb_false_r.
    - by rewrite Hetag, andb_false_r.
    - by rewrite Hfalsy. }
  split; [done|]. intros t2 w2 Hrun2.
  apply create_segment_table_inv in Hrun2
    as (s & p & n & dic & w0 & Hres2 & _ & _ & _ & -> & _).
  rewrite Hres in Hres2. by injection Hres2 as <-.
Qed.

(** X5. A resolved count of 0 makes the planner raise [ZeroDivisionError], after
    the sidecar has been rewritten with that count. *)
Theorem zero_segments_raise (url file_path : string) (requested size : Z)
    (etag : etag_t) (w : world) :
  requested <= 5 \/ 0 <= size < 2 ^ 53 ->
  default (JInt (fresh_segments requested size))
          (persisted_segments w url file_path etag) = JInt 0 ->
  create_segment_table url file_path requested size etag w
  = (Raise ZeroDivisionError,
     set_fs <[file_path +:+ ".json" :=
                json_dumps (JObj [("url", JStr url); ("etag", etag_json etag);
                                  ("segments", JInt 0)])]> w).
Proof.
  intros Hdom Hzero.
  unfold create_segment_table. cbv [mbind py_bind mret py_ret lift write_text].
  rewrite (resolve_segments_resolved _ _ _ _ _ _ Hdom), Hzero. reflexivity.
Qed.

(** X6. A usable sidecar whose "segments" is not an int (a string, a float, a
    list, null) makes the planner raise instead of falling back to the fresh
    count, and the same value is written back to the sidecar. *)
Theorem non_integer_count_raises (url file_path : string) (requested size : Z)
    (etag : etag_t) (w : world) (s : json) :
  requested <= 5 \/ 0 <= size < 2 ^ 53 ->
  persisted_segments w url file_path etag = Some s ->
  index_value s = None ->
  exists e,
    create_segment_table url file_path requested size etag w
    = (Raise e,
       set_fs <[file_path +:+ ".json" :=
                  json_dumps (JObj [("url", JStr url); ("etag", etag_json etag);
                                    ("segments", s)])]> w).
Proof.
  intros Hdom Hsome Hidx.
  unfold create_segment_table. cbv [mbind py_bind mret py_ret lift write_text].
  rewrite (resolve_segments_resolved _ _ _ _ _ _ Hdom), Hsome.
  change (default (JInt (fresh_segments requested size)) (Some s)) with s.
  destruct (partition_size_of size s) as [p|e]; [|exists e; reflexivity].
  unfold range_of. rewrite Hidx. exists TypeError. reflexivity.
Qed.

End ReplanFacts.

(** ** Workers: what a run leaves behind *)

Lemma set_fs_rest (f : gmap string bytes -> gmap string bytes) (w : world) :
  interrupt (set_fs f w) = interrupt w /\ log (set_fs f w) = log w
  /\ slept (set_fs f w) = slept w /\ requests (set_fs f w) = requests w.
Proof. done. Qed.

(** The first block of [Multidown.worker]: either the file is kept and
    counted, or there is no file afterwards and [curr] is untouched. *)
Lemma Multidown_resume_cases (path : string) (size : Z) (base : Basicdown)
    (w : world) :
  exists base1 w1,
    Multidown_resume path size base w = (Ret base1, w1)
    /\ completed base1 = completed base /\ id base1 = id base
    /\ (forall p, p ≠ path -> fs w1 !! p = fs w !! p)
    /\ interrupt w1 = interrupt w /\ log w1 = log w
    /\ slept w1 = slept w /\ requests w1 = requests w
    /\ ((fs w1 !! path = None /\ curr base1 = curr base
         /\ (fs w !! path = None \/ size < size_on_disk path w))
        \/ (exists c, fs w !! path = Some c /\ w1 = w
                      /\ Z.of_nat (length c) <= size
                      /\ curr base1 = Z.of_nat (length c))).
Proof.
  destruct (fs w !! path) as [c|] eqn:Hc.
  - rewrite (Multidown_resume_present _ _ _ _ _ Hc).
    destruct (Z.ltb_spec size (Z.of_nat (length c))).
    + eexists _, _. split; [reflexivity|]. split_and!; try done.
      * intros p Hp. cbn. by rewrite lookup_delete_ne.
      * left. split_and!; [cbn; apply lookup_delete_eq|done|].
        right. unfold size_on_disk. by rewrite Hc.
    + eexists _, _. split; [reflexivity|]. split_and!; try done.
      right. by exists c.
  - rewrite (Multidown_resume_absent _ _ _ _ Hc).
    eexists _, _. split; [reflexivity|]. split_and!; try done.
    left. split_and!; [done|done|by left].
Qed.

Section RunFacts.
Variable transport : request -> list event.
Variable sibling : nat -> bool.

(** The two blocks that follow, started with [completed = false]. *)
Lemma Multidown_fetch_cases (self : Multidown) (e : entry) (base1 : Basicdown)
    (w1 : world) :
  let req := Request (tbl_url (md_segement_table self))
               (with_range (md_kwargs self)
                  (range_value (start e + curr base1) (end_ e))) in
  exists md' w',
    Multidown_fetch transport sibling self e base1 w1 = (Ret md', w')
    /\ md_segement_table md' = md_segement_table self
    /\ md_kwargs md' = md_kwargs self
    /\ id (md_base md') = id base1
    /\ (interrupt w1 = true -> interrupt w' = true)
    /\ (forall p, p ≠ segment_path e -> fs w' !! p = fs w1 !! p)
    /\ (completed base1 = false ->
          (completed (md_base md') = true <-> curr (md_base md') = segment_size e))
    /\ ((segment_size e <= curr base1 /\ w' = w1 /\ curr (md_base md') = curr base1)
        \/ (curr base1 < segment_size e
            /\ requests w' = requests w1 ++ [req]
            /\ exists n : nat,
                 fs w' !! segment_path e
                 = Some (default [] (fs w1 !! segment_path e)
                         ++ body_prefix n (transport req))
                 /\ curr (md_base md')
                    = curr base1 + Z.of_nat (length (body_prefix n (transport req))))).
Proof.
  intros req. unfold Multidown_fetch. cbv [mbind py_bind mret py_ret].
  destruct (Z.ltb_spec (curr base1) (segment_size e)) as [Hlt|Hge].
  - fold req.
    destruct (download_effect transport sibling base1 (tbl_url (md_segement_table self))
                (segment_path e) AB (req_kwargs req) w1) as [n Hn].
    cbn [req_kwargs req] in Hn. fold req in Hn.
    destruct (download _ _ _ _ _ _ _ _) as [base' w'].
    destruct Hn as (_ & Hfs & Hcurr & Hcomp & Hid & Hreq & Hmono & _).
    eexists _, _. split; [reflexivity|]. cbn [md_base md_segement_table md_kwargs].
    assert (Hcurr' : curr (if curr base' =? segment_size e
                           then set_completed true base' else base') = curr base').
    { by destruct (curr base' =? segment_size e). }
    split_and!; try done.
    + by destruct (curr base' =? segment_size e).
    + intros p Hp. rewrite Hfs. by apply lookup_insert_ne.
    + intros Hfalse. rewrite Hcurr'.
      destruct (Z.eqb_spec (curr base') (segment_size e)); cbn; [done|].
      rewrite Hcomp, Hfalse. split; [done|]. intros. done.
    + right. split; [done|]. split; [done|]. exists n. rewrite Hcurr'.
      split; [|done]. rewrite Hfs, lookup_insert_eq. done.
  - eexists _, _. split; [reflexivity|]. cbn [md_base md_segement_table md_kwargs].
    assert (Hcurr' : curr (if curr base1 =? segment_size e
                           then set_completed true base1 else base1) = curr base1).
    { by destruct (curr base1 =? segment_size e). }
    split_and!; try done.
    + by destruct (curr base1 =? segment_size e).
    + intros Hfalse. rewrite Hcurr'.
      destruct (Z.eqb_spec (curr base1) (segment_size e)); cbn; [done|].
      rewrite Hfalse. split; [done|]. intros. done.
    + left. by rewrite Hcurr'.
Qed.

End RunFacts.

Lemma size_on_disk_length (p : string) (w : world) :
  size_on_disk p w = Z.of_nat (length (default [] (fs w !! p))).
Proof. unfold size_on_disk. by destruct (fs w !! p). Qed.

Section RunTheorems.
Variable transport : request -> list event.
Variable sibling : nat -> bool.

(** A run of a fresh segment worker, in one statement. *)
Lemma fresh_worker_run (table : segment_table) (segment_id : Z)
    (kwargs : kwargs_t) (e : entry) (w : world) :
  tbl_entries table !! segment_id = Some e ->
  exists md' w',
    Multidown_worker transport sibling (Multidown_init table segment_id kwargs) w
    = (Ret md', w')
    /\ curr (md_base md') = size_on_disk (segment_path e) w'
    /\ (forall p, p ≠ segment_path e -> fs w' !! p = fs w !! p)
    /\ (interrupt w = true -> interrupt w' = true)
    /\ (completed (md_base md') = true <-> curr (md_base md') = segment_size e)
    /\ let k := if size_on_disk (segment_path e) w <=? segment_size e
                then size_on_disk (segment_path e) w else 0 in
       let req := Request (tbl_url table)
                    (with_range kwargs (range_value (start e + k) (end_ e))) in
       (segment_size e <= k /\ requests w' = requests w
        /\ curr (md_base md') = k)
       \/ (k < segment_size e
           /\ requests w' = requests w ++ [req]
           /\ exists n : nat,
                fs w' !! segment_path e
                = Some (take (Z.to_nat k) (default [] (fs w !! segment_path e))
                        ++ body_prefix n (transport req))).
Proof.
  intros He. set (self := Multidown_init table segment_id kwargs).
  rewrite (Multidown_worker_unfold transport sibling self e w He).
  destruct (Multidown_resume_cases (segment_path e) (segment_size e) (md_base self) w)
    as (base1 & w1 & -> & Hcomp1 & Hid1 & Hframe1 & Hi1 & Hl1 & Hs1 & Hr1 & Hcase).
  destruct (Multidown_fetch_cases transport sibling self e base1 w1)
    as (md' & w' & -> & _ & _ & _ & Hmono & Hframe & Hiff & Hfetch).
  exists md', w'. split; [done|].
  assert (Hk : (if size_on_disk (segment_path e) w <=? segment_size e
                then size_on_disk (segment_path e) w else 0) = curr base1
               /\ default [] (fs w1 !! segment_path e)
                  = take (Z.to_nat (curr base1)) (default [] (fs w !! segment_path e))).
  { destruct Hcase as [(Hnone & Hcurr & Hwhy)|(c & Hc & -> & Hle & Hcurr)].
    - rewrite Hcurr, Hnone. cbn. split; [|by rewrite take_0].
      destruct Hwhy as [Habs|Hbig].
      + unfold size_on_disk. rewrite Habs. cbn. by destruct (0 <=? segment_size e).
      + by destruct (Z.leb_spec (size_on_disk (segment_path e) w) (segment_size e)); [lia|].
    - unfold size_on_disk. rewrite Hc. cbn.
      destruct (Z.leb_spec (Z.of_nat (length c)) (segment_size e)); [|lia].
      split; [done|]. rewrite Hcurr, Nat2Z.id. by rewrite firstn_all. }
  destruct Hk as [Hk Hprior]. rewrite Hk.
  split_and!.
  - destruct Hfetch as [(Hge & -> & Hcurr)|(Hlt & Hreq & n & Hfile & Hcurr)].
    + rewrite Hcurr. destruct Hcase as [(Hnone & Hc0 & _)|(c & Hc & -> & _ & Hc1)].
      * unfold size_on_disk. by rewrite Hnone.
      * unfold size_on_disk. by rewrite Hc.
    + unfold size_on_disk. rewrite Hfile, Hcurr. cbn. rewrite length_app.
      destruct Hcase as [(Hnone & Hc0 & _)|(c & Hc & -> & _ & Hc1)].
      * rewrite Hnone, Hc0. cbn. lia.
      * rewrite Hc, Hc1. cbn. lia.
  - intros p Hp. rewrite Hframe by done. by apply Hframe1.
  - intros Hw. apply Hmono. by rewrite Hi1.
  - apply Hiff. by rewrite Hcomp1.
  - destruct Hfetch as [(Hge & -> & Hcurr)|(Hlt & Hreq & n & Hfile & Hcurr)].
    + left. by rewrite Hr1.
    + right. split; [done|]. split; [by rewrite Hreq, Hr1|].
      exists n. by rewrite Hfile, Hprior.
Qed.

(** X7. After a fresh segment worker returns, its byte count is the size of its
    segment file on disk (0 when there is no file): the state a later run
    resumes from is what the count says. *)
Theorem worker_count_is_file_size (table : segment_table) (segment_id : Z)
    (kwargs : kwargs_t) (e : entry) (w w' : world) (md' : Multidown) :
  tbl_entries table !! segment_id = Some e ->
  Multidown_worker transport sibling (Multidown_init table segment_id kwargs) w
  = (Ret md', w') ->
  curr (md_base md') = size_on_disk (segment_path e) w'.
Proof.
  intros He Hrun.
  destruct (fresh_worker_run table segment_id kwargs e w He)
    as (md0 & w0 & Hrun0 & Hcount & _).
  rewrite Hrun in Hrun0. by injection Hrun0 as -> ->.
Qed.

(** X8. A segment worker changes no file but its own segment file: the sidecar,
    the destination and the other segments are as they were; and it never
    clears the event. *)
Theorem worker_touches_only_its_segment (table : segment_table) (segment_id : Z)
    (kwargs : kwargs_t) (e : entry) (w w' : world) (md' : Multidown) :
  tbl_entries table !! segment_id = Some e ->
  Multidown_worker transport sibling (Multidown_init table segment_id kwargs) w
  = (Ret md', w') ->
  (forall p, p ≠ segment_path e -> fs w' !! p = fs w !! p)
  /\ (interrupt w = true -> interrupt w' = true).
Proof.
  intros He Hrun.
  destruct (fresh_worker_run table segment_id kwargs e w He)
    as (md0 & w0 & Hrun0 & _ & Hframe & Hmono & _).
  rewrite Hrun in Hrun0. by injection Hrun0 as -> ->.
Qed.

End RunTheorems.

Section TwoRuns.
(** The transport and the siblings of a first run and of a later one. *)
Variable transport1 transport2 : request -> list event.
Variable sibling1 sibling2 : nat -> bool.

(** X9. A fresh worker started after an unfinished run asks for the bytes from
    [start + curr] of that run on, and appends them to what is there. *)
Theorem second_run_resumes (table : segment_table) (segment_id : Z)
    (kwargs : kwargs_t) (e : entry) (w w1 : world) (md1 : Multidown) :
  tbl_entries table !! segment_id = Some e ->
  Multidown_worker transport1 sibling1 (Multidown_init table segment_id kwargs) w
  = (Ret md1, w1) ->
  curr (md_base md1) < segment_size e ->
  let req := Request (tbl_url table)
               (with_range kwargs
                  ("bytes=" +:+ pretty (start e + curr (md_base md1)) +:+ "-"
                     +:+ pretty (end_ e))) in
  exists md2 w2 (n : nat),
    Multidown_worker transport2 sibling2 (Multidown_init table segment_id kwargs) w1
    = (Ret md2, w2)
    /\ requests w2 = requests w1 ++ [req]
    /\ fs w2 !! segment_path e
       = Some (default [] (fs w1 !! segment_path e) ++ body_prefix n (transport2 req))
    /\ curr (md_base md2)
       = curr (md_base md1) + Z.of_nat (length (body_prefix n (transport2 req))).
Proof.
  intros He Hrun1 Hlt req.
  assert (Hcount : curr (md_base md1) = size_on_disk (segment_path e) w1).
  { destruct (fresh_worker_run transport1 sibling1 table segment_id kwargs e w He)
      as (md0 & w0 & Hrun0 & Hc0 & _).
    rewrite Hrun1 in Hrun0. by injection Hrun0 as <- <-. }
  destruct (fresh_worker_run transport2 sibling2 table segment_id kwargs e w1 He)
    as (md2 & w2 & Hrun2 & Hcount2 & _ & _ & _ & Hcase).
  rewrite <- Hcount in Hcase.
  destruct (Z.leb_spec (curr (md_base md1)) (segment_size e)); [|lia].
  destruct Hcase as [(Hge & _)|(_ & Hreq & n & Hfile)]; [lia|].
  exists md2, w2, n. split; [done|]. split; [done|].
  assert (Hall : take (Z.to_nat (curr (md_base md1))) (default [] (fs w1 !! segment_path e))
                 = default [] (fs w1 !! segment_path e)).
  { apply take_ge. rewrite Hcount, size_on_disk_length. lia. }
  rewrite Hall in Hfile. split; [done|].
  rewrite Hcount2, Hcount, !size_on_disk_length, Hfile.
  change (default [] (Some ?x)) with x.
  rewrite length_app, Nat2Z.inj_add. reflexivity.
Qed.

(** X10. A fresh worker started after a run that received more bytes than planned
    deletes them and asks for the whole range of the segment again. *)
Theorem second_run_restarts_oversized (table : segment_table) (segment_id : Z)
    (kwargs : kwargs_t) (e : entry) (w w1 : world) (md1 : Multidown) :
  tbl_entries table !! segment_id = Some e ->
  Multidown_worker transport1 sibling1 (Multidown_init table segment_id kwargs) w
  = (Ret md1, w1) ->
  segment_size e < curr (md_base md1) ->
  0 < segment_size e ->
  let req := Request (tbl_url table)
               (with_range kwargs
                  ("bytes=" +:+ pretty (start e + 0) +:+ "-" +:+ pretty (end_ e))) in
  exists md2 w2 (n : nat),
    Multidown_worker transport2 sibling2 (Multidown_init table segment_id kwargs) w1
    = (Ret md2, w2)
    /\ requests w2 = requests w1 ++ [req]
    /\ fs w2 !! segment_path e = Some (body_prefix n (transport2 req))
    /\ completed (md_base md1) = false.
Proof.
  intros He Hrun1 Hgt Hpos req.
  destruct (fresh_worker_run transport1 sibling1 table segment_id kwargs e w He)
    as (md0 & w0 & Hrun0 & Hcount & _ & _ & Hiff1 & _).
  rewrite Hrun1 in Hrun0. injection Hrun0 as <- <-.
  destruct (fresh_worker_run transport2 sibling2 table segment_id kwargs e w1 He)
    as (md2 & w2 & Hrun2 & _ & _ & _ & _ & Hcase).
  rewrite <- Hcount in Hcase.
  destruct (Z.leb_spec (curr (md_base md1)) (segment_size e)); [lia|].
  destruct Hcase as [(Hge & _)|(_ & Hreq & n & Hfile)]; [lia|].
  exists md2, w2, n. split; [done|]. split; [done|]. split.
  - by rewrite Hfile, take_0.
  - destruct (completed (md_base md1)) eqn:Hc; [|done].
    destruct Hiff1 as [Hto _]. specialize (Hto eq_refl). lia.
Qed.

End TwoRuns.

Section MoreRunTheorems.
Variable transport : request -> list event.
Variable sibling : nat -> bool.

(** X11. With the event never set and a response of good chunks, a fresh segment
    worker that finds fewer bytes than planned appends the whole body to
    them, logs nothing, and ends completed exactly when the bytes on disk
    plus the body make up the planned size. *)
Theorem uninterrupted_run (table : segment_table) (segment_id : Z)
    (kwargs : kwargs_t) (e : entry) (w : world) :
  let prior := default [] (fs w !! segment_path e) in
  let req := Request (tbl_url table)
               (with_range kwargs
                  ("bytes=" +:+ pretty (start e + Z.of_nat (length prior)) +:+ "-"
                     +:+ pretty (end_ e))) in
  let body := mjoin (chunk_data <$> transport req) in
  tbl_entries table !! segment_id = Some e ->
  Z.of_nat (length prior) < segment_size e ->
  forallb good_chunk (transport req) = true ->
  interrupt w = false ->
  (forall k, sibling k = false) ->
  exists md' w',
    Multidown_worker transport sibling (Multidown_init table segment_id kwargs) w
    = (Ret md', w')
    /\ fs w' !! segment_path e = Some (prior ++ body)
    /\ curr (md_base md') = Z.of_nat (length prior) + Z.of_nat (length body)
    /\ (completed (md_base md') = true
        <-> Z.of_nat (length prior) + Z.of_nat (length body) = segment_size e)
    /\ interrupt w' = false /\ log w' = log w /\ slept w' = slept w.
Proof.
  intros prior req body He Hlt Hgood Hint Hsib.
  set (self := Multidown_init table segment_id kwargs).
  rewrite (Multidown_worker_unfold transport sibling self e w He).
  assert (Hres : Multidown_resume (segment_path e) (segment_size e) (md_base self) w
                 = (Ret (set_curr (Z.of_nat (length prior)) (md_base self)), w)).
  { unfold prior in *. destruct (fs w !! segment_path e) as [c|] eqn:Hc.
    - rewrite (Multidown_resume_present _ _ _ _ _ Hc). cbn in Hlt.
      by destruct (Z.ltb_spec (segment_size e) (Z.of_nat (length c))); [lia|].
    - by rewrite (Multidown_resume_absent _ _ _ _ Hc). }
  rewrite Hres. unfold Multidown_fetch. cbv [mbind py_bind mret py_ret].
  cbn [curr set_curr]. destruct (Z.ltb_spec (Z.of_nat (length prior)) (segment_size e)); [|lia].
  pose proof (download_runs_to_end transport sibling
                (set_curr (Z.of_nat (length prior)) (md_base self))
                (tbl_url table) (segment_path e) AB (req_kwargs req) w
                Hgood Hint Hsib) as Hrun.
  cbn [req_kwargs req] in Hrun. fold req body in Hrun.
  destruct (download_effect transport sibling
              (set_curr (Z.of_nat (length prior)) (md_base self))
              (tbl_url table) (segment_path e) AB (req_kwargs req) w) as [n Hn].
  cbn [req_kwargs req] in Hn. fold req in Hn.
  cbn [md_segement_table md_kwargs self Multidown_init].
  unfold range_value. fold req.
  destruct (download _ _ _ _ _ _ _ _) as [base' w'].
  destruct Hrun as (Hfs & Hcurr & Hint' & Hlog & Hsl).
  destruct Hn as (_ & _ & _ & Hcomp & _).
  eexists _, _. split; [reflexivity|]. cbn [md_base].
  assert (Hcurr' : curr (if curr base' =? segment_size e
                         then set_completed true base' else base') = curr base').
  { by destruct (curr base' =? segment_size e). }
  rewrite Hcurr'. cbn [curr set_curr] in Hcurr.
  split_and!; try done.
  - rewrite Hfs, lookup_insert_eq. done.
  - rewrite <- Hcurr.
    destruct (Z.eqb_spec (curr base') (segment_size e)); cbn; [done|].
    rewrite Hcomp. cbn. split; [done|]. intros. done.
Qed.


(** X13. When the request of a whole-file worker fails before the first chunk, a
    file downloaded earlier is left empty, the event is set, and the worker
    still reports completed. *)
Theorem failed_request_empties_file (sd : Simpledown) (w : world)
    (e : exn) (rest : list event) :
  transport (Request (sd_url sd) (sd_kwargs sd)) = Fail e :: rest ->
  let '(sd', w') := Simpledown_worker transport sibling sd w in
  fs w' !! sd_file_path sd = Some []
  /\ interrupt w' = true
  /\ curr (sd_base sd') = curr (sd_base sd)
  /\ completed (sd_base sd') = true.
Proof.
  intros Htr. unfold Simpledown_worker, download. rewrite Htr.
  cbn. split_and!; try done. apply lookup_insert_eq.
Qed.


End MoreRunTheorems.

(** ** The combiner: what a failed merge leaves behind *)

(** The loop over two index lists in a row: the second part runs in the world
    the first part leaves, unless the first part raised. *)
Lemma combine_loop_app (file_path : string) (l1 l2 : list Z) (w : world) :
  combine_loop file_path (l1 ++ l2) w
  = match combine_loop file_path l1 w with
    | (Ret _, w1) => combine_loop file_path l2 w1
    | (Raise e, w1) => (Raise e, w1)
    end.
Proof.
  revert w. induction l1 as [|i l1 IH]; intros w; [done|].
  cbn [app combine_loop]. cbv [mbind py_bind mret py_ret].
  destruct (read_file _ w) as [[src|e] w1]; [|done].
  destruct (unlink _ _) as [[[]|e] w2]; [|done].
  apply IH.
Qed.

(** X16. When segment file [j] is missing while the files [0 .. j-1] are
    there, [combine_files] raises FileNotFoundError and leaves the merge half
    done: the destination holds the first [j] segments, their files are
    gone, and the sidecar and the later segment files are still on disk. *)
Theorem combine_files_missing_segment (file_path : string) (segments j : Z)
    (contents : Z -> bytes) (w : world) :
  0 <= j < segments ->
  (forall i, 0 <= i < j ->
     fs w !! segment_file file_path i = Some (contents i)) ->
  fs w !! segment_file file_path j = None ->
  exists w',
    combine_files file_path segments w = (Raise FileNotFoundError, w')
    /\ fs w' !! file_path = Some (mjoin (contents <$> seqZ 0 j))
    /\ (forall i, 0 <= i < j -> fs w' !! segment_file file_path i = None)
    /\ fs w' !! sidecar_path file_path = fs w !! sidecar_path file_path
    /\ (forall i, j < i -> fs w' !! segment_file file_path i
                           = fs w !! segment_file file_path i).
Proof.
  intros Hj Hsrc Hmiss.
  unfold combine_files. cbv [mbind py_bind mret py_ret].
  set (w0 := open_write file_path WB w).
  assert (Hw0 : forall p, p ≠ file_path -> fs w0 !! p = fs w !! p).
  { intros p Hp. cbn. by rewrite lookup_insert_ne. }
  assert (Hin : forall i, i ∈ seqZ 0 j <-> 0 <= i < j).
  { intros i. rewrite elem_of_seqZ. lia. }
  replace (seqZ 0 segments) with (seqZ 0 j ++ j :: seqZ (j + 1) (segments - j - 1)).
  2:{ replace segments with (j + (segments - j)) at 2 by lia.
      rewrite seqZ_app by lia. f_equal.
      change (0 + j) with j.
      by rewrite (seqZ_cons j) by lia. }
  rewrite combine_loop_app.
  destruct (combine_loop_spec file_path contents (seqZ 0 j) w0 [])
    as (w1 & -> & Hd & Hgone & Hframe & _).
  { apply NoDup_seqZ. }
  { intros i Hi. rewrite Hw0 by apply segment_file_ne_dest. by apply Hsrc, Hin. }
  { cbn. apply lookup_insert_eq. }
  assert (Hother : forall i, j <= i ->
            fs w1 !! segment_file file_path i = fs w !! segment_file file_path i).
  { intros i Hi. rewrite Hframe, Hw0; [done|apply segment_file_ne_dest..|].
    intros k Hk E%segment_file_inj. apply Hin in Hk. lia. }
  cbn [combine_loop]. cbv [mbind py_bind mret py_ret]. unfold read_file.
  rewrite (Hother j), Hmiss by lia.
  exists w1. split_and!; [done|done| | |].
  - intros i Hi. by apply Hgone, Hin.
  - rewrite Hframe, Hw0; [done|apply sidecar_ne_dest..|].
    intros i _ E. by apply (segment_file_ne_sidecar file_path i).
  - intros i Hi. apply Hother. lia.
Qed.

(** X17. When every segment file is there but the sidecar is missing,
    [combine_files] merges and deletes all segments and only then raises
    FileNotFoundError: the destination is complete although the call failed. *)
Theorem combine_files_missing_sidecar (file_path : string) (segments : Z)
    (contents : Z -> bytes) (w : world) :
  (forall i, 0 <= i < segments ->
     fs w !! segment_file file_path i = Some (contents i)) ->
  fs w !! sidecar_path file_path = None ->
  exists w',
    combine_files file_path segments w = (Raise FileNotFoundError, w')
    /\ fs w' !! file_path = Some (mjoin (contents <$> seqZ 0 segments))
    /\ (forall i, 0 <= i < segments -> fs w' !! segment_file file_path i = None).
Proof.
  intros Hsrc Hside.
  unfold combine_files. cbv [mbind py_bind mret py_ret].
  set (w0 := open_write file_path WB w).
  assert (Hw0 : forall p, p ≠ file_path -> fs w0 !! p = fs w !! p).
  { intros p Hp. cbn. by rewrite lookup_insert_ne. }
  assert (Hin : forall i, i ∈ seqZ 0 segments <-> 0 <= i < segments).
  { intros i. rewrite elem_of_seqZ. lia. }
  destruct (combine_loop_spec file_path contents (seqZ 0 segments) w0 [])
    as (w1 & -> & Hd & Hgone & Hframe & _).
  { apply NoDup_seqZ. }
  { intros i Hi. rewrite Hw0 by apply segment_file_ne_dest. by apply Hsrc, Hin. }
  { cbn. apply lookup_insert_eq. }
  assert (Hs1 : fs w1 !! sidecar_path file_path = None).
  { rewrite Hframe, Hw0; [done|apply sidecar_ne_dest..|].
    intros i _ E. by apply (segment_file_ne_sidecar file_path i). }
  unfold unlink. rewrite Hs1.
  exists w1. split_and!; [done|done|].
  intros i Hi. by apply Hgone, Hin.
Qed.

(** ** timestring *)

Lemma string_app_cons (a : ascii) (s t : string) :
  String a s +:+ t = String a (s +:+ t).
Proof. done. Qed.

Lemma string_mem_app (c : ascii) (s t : string) :
  string_mem c (s +:+ t) = string_mem c s || string_mem c t.
Proof.
  induction s as [|a s IH]; [done|].
  rewrite string_app_cons. cbn [string_mem]. by rewrite IH, orb_assoc.
Qed.

Lemma pretty_N_char_not_colon (d : N) : Ascii.eqb (pretty_N_char d) ":" = false.
Proof. unfold pretty_N_char. by repeat case_match. Qed.

Lemma pretty_N_go_colon (x : N) (s : string) :
  string_mem ":" (pretty_N_go x s) = string_mem ":" s.
Proof.
  revert s. induction (N.lt_wf_0 x) as [x _ IH]; intros s.
  destruct (decide (0 < x)%N) as [Hx|Hx].
  - rewrite pretty_N_go_step by done.
    rewrite IH by (apply N.div_lt; [done|lia]).
    cbn [string_mem]. by rewrite pretty_N_char_not_colon.
  - assert (x = 0%N) as -> by lia. by rewrite pretty_N_go_0.
Qed.

Lemma pretty_Z_colon (n : Z) : string_mem ":" (pretty n) = false.
Proof.
  destruct n as [|p|p]; [done| |].
  - unfold pretty, pretty_Z, pretty, pretty_positive, pretty, pretty_N.
    rewrite decide_False by done. by rewrite pretty_N_go_colon.
  - unfold pretty, pretty_Z. rewrite string_mem_app.
    unfold pretty, pretty_positive, pretty, pretty_N.
    rewrite decide_False by done. by rewrite pretty_N_go_colon.
Qed.

Lemma pad2_colon (n : Z) : string_mem ":" (pad2 n) = false.
Proof.
  unfold pad2. destruct (_ && _).
  - rewrite string_mem_app, pretty_Z_colon. done.
  - apply pretty_Z_colon.
Qed.

(** The digits of a positive number do not start with a zero. *)
Lemma pretty_N_go_head (x : N) (s : string) :
  (0 < x)%N -> exists c t, pretty_N_go x s = String c t /\ c ≠ "0"%char.
Proof.
  revert s. induction (N.lt_wf_0 x) as [x _ IH]; intros s Hx.
  rewrite pretty_N_go_step by done.
  destruct (decide (0 < x `div` 10)%N) as [Hq|Hq].
  - apply IH; [|done]. apply N.div_lt; [done|lia].
  - assert (Hq0 : (x `div` 10 = 0)%N).
    { destruct (N.eq_0_gt_0_cases (x `div` 10)); done. }
    rewrite Hq0, pretty_N_go_0. eexists _, _. split; [done|].
    assert (Hlt : (x < 10)%N).
    { destruct (N.lt_ge_cases x 10) as [|Hge]; [done|].
      assert (1 <= x `div` 10)%N; [|lia].
      apply N.div_le_lower_bound; lia. }
    rewrite N.mod_small by done.
    assert (Hcases : (x = 1 ∨ x = 2 ∨ x = 3 ∨ x = 4 ∨ x = 5 ∨ x = 6
                      ∨ x = 7 ∨ x = 8 ∨ x = 9)%N) by lia.
    destruct_or!; subst x; done.
Qed.

Lemma pretty_Z_no_leading_zero (a b : Z) :
  ¬ (0 <= b < 10) -> "0" +:+ pretty a ≠ pretty b.
Proof.
  intros Hb H. destruct b as [|p|p]; [lia| |].
  - unfold pretty at 2, pretty_Z, pretty, pretty_positive, pretty, pretty_N in H.
    rewrite decide_False in H by done.
    destruct (pretty_N_go_head (N.pos p) "") as (c & t & Ht & Hc); [lia|].
    rewrite Ht in H. by injection H as <- _.
  - discriminate H.
Qed.

Lemma pad2_inj (a b : Z) : pad2 a = pad2 b -> a = b.
Proof.
  unfold pad2.
  destruct (decide (0 <= a < 10)) as [Ha|Ha], (decide (0 <= b < 10)) as [Hb|Hb].
  - replace ((0 <=? a) && (a <? 10)) with true by (symmetry; apply andb_true_iff; lia).
    replace ((0 <=? b) && (b <? 10)) with true by (symmetry; apply andb_true_iff; lia).
    intros H. apply (inj (String.app "0")) in H. by apply (inj pretty) in H.
  - replace ((0 <=? a) && (a <? 10)) with true by (symmetry; apply andb_true_iff; lia).
    replace ((0 <=? b) && (b <? 10)) with false by (symmetry; apply andb_false_iff; lia).
    intros H. by apply pretty_Z_no_leading_zero in H.
  - replace ((0 <=? a) && (a <? 10)) with false by (symmetry; apply andb_false_iff; lia).
    replace ((0 <=? b) && (b <? 10)) with true by (symmetry; apply andb_true_iff; lia).
    intros H. symmetry in H. by apply pretty_Z_no_leading_zero in H.
  - replace ((0 <=? a) && (a <? 10)) with false by (symmetry; apply andb_false_iff; lia).
    replace ((0 <=? b) && (b <? 10)) with false by (symmetry; apply andb_false_iff; lia).
    apply (inj pretty).
Qed.

(** Two texts split at their first colon in one way only. *)
Lemma split_at_colon (a a' r r' : string) :
  string_mem ":" a = false -> string_mem ":" a' = false ->
  a +:+ String ":" r = a' +:+ String ":" r' -> a = a' /\ r = r'.
Proof.
  revert a'. induction a as [|c a IH]; intros [|c' a'] Ha Ha' H.
  - by injection H as ->.
  - rewrite string_app_cons in H. injection H as <- _.
    cbn in Ha'. done.
  - rewrite string_app_cons in H. injection H as -> _.
    cbn in Ha. done.
  - rewrite !string_app_cons in H. injection H as <- H.
    cbn [string_mem] in Ha, Ha'.
    apply orb_false_iff in Ha as [_ Ha]. apply orb_false_iff in Ha' as [_ Ha'].
    destruct (IH a' Ha Ha' H) as [-> ->]. done.
Qed.

(** X18. Two different durations never print as the same text: the hours,
    minutes and seconds read off the text give the number of seconds back. *)
Theorem timestring_inj (a b : Z) : timestring a = timestring b -> a = b.
Proof.
  unfold timestring. intros H.
  apply split_at_colon in H as [Hh H]; [|apply pad2_colon..].
  apply split_at_colon in H as [Hm Hs]; [|apply pad2_colon..].
  apply pad2_inj in Hh, Hm, Hs.
  pose proof (Z.div_mod a 60). pose proof (Z.div_mod b 60).
  pose proof (Z.div_mod (a `div` 60) 60). pose proof (Z.div_mod (b `div` 60) 60).
  lia.
Qed.

Lemma string_length_app (s t : string) :
  String.length (s +:+ t) = (String.length s + String.length t)%nat.
Proof.
  induction s as [|a s IH]; [done|].
  rewrite string_app_cons. cbn [String.length]. by rewrite IH.
Qed.

Lemma pad2_length (n : Z) : 0 <= n < 100 -> String.length (pad2 n) = 2%nat.
Proof.
  intros Hn.
  assert (Hall : forallb (fun k => Nat.eqb (String.length (pad2 k)) 2) (seqZ 0 100) = true)
    by (vm_compute; reflexivity).
  rewrite forallb_forall in Hall.
  apply Nat.eqb_eq, Hall, list_elem_of_In, elem_of_seqZ. lia.
Qed.

(** X19. Below one hundred hours the text has the fixed width of HH:MM:SS,
    eight characters; from one hundred hours on it is longer, the hours
    being printed in full. *)
Theorem timestring_width (sec : Z) :
  0 <= sec ->
  (sec < 360000 -> String.length (timestring sec) = 8%nat)
  /\ (360000 <= sec -> (8 < String.length (timestring sec))%nat).
Proof.
  intros Hsec. unfold timestring.
  assert (Hm : 0 <= (sec `div` 60) `mod` 60 < 100).
  { pose proof (Z.mod_pos_bound (sec `div` 60) 60). lia. }
  assert (Hs : 0 <= sec `mod` 60 < 100).
  { pose proof (Z.mod_pos_bound sec 60). lia. }
  rewrite !string_length_app, (pad2_length _ Hm), (pad2_length _ Hs).
  cbn [String.length]. split.
  - intros Hlt.
    assert (Hh : 0 <= (sec `div` 60) `div` 60 < 100).
    { split; [apply Z.div_pos; [apply Z.div_pos|]; lia|].
      apply Z.div_lt_upper_bound; [lia|]. apply Z.div_lt_upper_bound; lia. }
    by rewrite (pad2_length _ Hh).
  - intros Hge.
    assert (Hh : 100 <= (sec `div` 60) `div` 60).
    { apply Z.div_le_lower_bound; [lia|]. apply Z.div_le_lower_bound; lia. }
    set (h := (sec `div` 60) `div` 60) in *.
    assert (Hlen : (2 < String.length (pad2 h))%nat); [|lia].
    unfold pad2.
    replace ((0 <=? h) && (h <? 10))
      with false by (symmetry; apply andb_false_iff; lia).
    destruct h as [|p|p] eqn:E; [lia| |lia].
    destruct (decide (String.length (pretty (Z.pos p)) <= 2)%nat) as [Hle|]; [|lia].
    exfalso.
    (* a text of at most two digits prints a number below 100 *)
    unfold pretty, pretty_Z, pretty, pretty_positive, pretty, pretty_N in Hle.
    rewrite decide_False in Hle by done.
    assert (Hgrow : forall x s, (String.length s <= String.length (pretty_N_go x s))%nat).
    { intros x. induction (N.lt_wf_0 x) as [x _ IH]; intros s.
      destruct (decide (0 < x)%N) as [Hx|Hx].
      - rewrite pretty_N_go_step by done.
        etrans; [|apply IH, N.div_lt; [done|lia]]. cbn. lia.
      - assert (x = 0%N) as -> by lia. by rewrite pretty_N_go_0. }
    rewrite pretty_N_go_step in Hle by lia.
    rewrite pretty_N_go_step in Hle by (apply N.div_str_pos; lia).
    rewrite pretty_N_go_step in Hle.
    2:{ apply N.div_str_pos. split; [lia|].
        apply N.div_le_lower_bound; lia. }
    match type of Hle with
    | (String.length (pretty_N_go ?x ?s) <= _)%nat => pose proof (Hgrow x s) as Hg
    end.
    cbn [String.length] in Hg. lia.
Qed.

(** ** to_mb *)

(** X20. For a size below 2^53 the division by [MEGABYTE] loses nothing: the
    float returned stands for exactly size / 2^20. *)
Theorem to_mb_no_rounding (size : Z) :
  0 < size < 2 ^ 53 ->
  exists m e,
    to_mb size = Ret (S754_finite false m e)
    /\ e <= -20
    /\ Zpos m = size * 2 ^ (- e - 20).
Proof.
  intros [Hlo Hhi]. destruct size as [|mx|mx]; [lia| |lia].
  pose proof (digits2_pos_bounds mx) as [Blo Bhi].
  set (d := Zpos (digits2_pos mx)) in *.
  assert (Hd : 1 <= d <= 53).
  { split; [unfold d; lia|].
    destruct (Z.le_gt_cases d 53); [done|].
    assert (2 ^ 53 <= 2 ^ (d - 1)) by (apply Z.pow_le_mono_r; lia). lia. }
  eexists _, _. split; [exact (to_mb_exact mx Hhi)|]. fold d.
  split; [lia|].
  replace (- (d - 73) - 20) with (53 - d) by lia.
  rewrite Z2Pos.id; [done|].
  apply Z.mul_pos_pos; [lia|]. apply Z.pow_pos_nonneg; lia.
Qed.

(** ** get_filepath *)

Lemma strip_prefix_app (pat rest : string) : strip_prefix pat (pat +:+ rest) = Some rest.
Proof.
  induction pat as [|a pat IH]; [by destruct rest|].
  rewrite string_app_cons. cbn [strip_prefix]. by rewrite Ascii.eqb_refl.
Qed.

Lemma strip_prefix_Some (pat s r : string) :
  strip_prefix pat s = Some r -> s = pat +:+ r.
Proof.
  revert s. induction pat as [|a pat IH]; intros s.
  - destruct s; by intros [= <-].
  - destruct s as [|b s]; [done|]. cbn [strip_prefix].
    destruct (Ascii.eqb a b) eqn:E; [|done].
    apply Ascii.eqb_eq in E as <-. intros H%IH. by rewrite H.
Qed.

Lemma after_first_Some (pat s r : string) :
  after_first pat s = Some r -> exists pre, s = pre +:+ pat +:+ r.
Proof.
  induction s as [|b s IH].
  - cbn [after_first]. destruct (strip_prefix pat "") as [r'|] eqn:E; [|done].
    intros [= <-]. exists "". by apply strip_prefix_Some in E.
  - cbn [after_first].
    destruct (strip_prefix pat (String b s)) as [r'|] eqn:E.
    + intros [= <-]. exists "". by apply strip_prefix_Some in E.
    + intros [pre ->]%IH. by exists (String b pre).
Qed.

(** What [after_first] returns follows an occurrence that starts no later
    than any other. *)
Lemma after_first_occurrence (pat pre rest : string) :
  exists pre' rest',
    after_first pat (pre +:+ pat +:+ rest) = Some rest'
    /\ pre +:+ pat +:+ rest = pre' +:+ pat +:+ rest'
    /\ (String.length pre' <= String.length pre)%nat.
Proof.
  induction pre as [|b pre IH].
  - exists "", rest. split_and!; [|done..].
    change ("" +:+ pat +:+ rest) with (pat +:+ rest).
    destruct (pat +:+ rest) eqn:E; cbn [after_first];
      by rewrite <- E, strip_prefix_app.
  - rewrite string_app_cons. cbn [after_first].
    destruct (strip_prefix pat (String b (pre +:+ pat +:+ rest))) as [r|] eqn:E.
    + exists "", r. split_and!; [done| |cbn; lia].
      by apply strip_prefix_Some in E.
    + destruct IH as (pre' & rest' & Hrun & Heq & Hlen).
      exists (String b pre'), rest'. split_and!; [done| |cbn; lia].
      by rewrite string_app_cons, <- Heq.
Qed.

Lemma last_segment_plain (s : string) :
  string_mem "/" s = false -> last_segment s = s.
Proof.
  destruct s as [|a s]; [done|]. cbn [string_mem last_segment].
  intros [Ha Hs]%orb_false_iff. by rewrite Hs, Ha.
Qed.

Lemma last_segment_app (d seg : string) :
  string_mem "/" seg = false -> last_segment (d +:+ "/" +:+ seg) = seg.
Proof.
  intros Hseg. induction d as [|a d IH].
  - change ("" +:+ "/" +:+ seg) with (String "/" seg).
    cbn [last_segment]. by rewrite Hseg.
  - rewrite string_app_cons. cbn [last_segment].
    rewrite string_mem_app. change ("/" +:+ seg) with (String "/" seg).
    cbn [string_mem]. change (Ascii.eqb "/" "/") with true.
    by rewrite orb_true_r.
Qed.

Section FilepathFacts.
Variable unquote : string -> string.
Variable url_path : string -> string.
Variable is_dir : string -> bool.
Variable path_str : string -> string.
Variable path_join : string -> string -> string.

(** X21. When the Content-Disposition header contains "filename=", the name
    is what follows its first occurrence, up to the end of the header, with
    the double quotes at both ends removed and then percent-decoded; the url
    plays no part. With no path given that name is returned; with a
    directory, the name inside it. *)
Theorem get_filepath_header_name (url : string) (headers : gmap string string)
    (pre rest : string) :
  headers !! "Content-Disposition" = Some (pre +:+ "filename=" +:+ rest) ->
  exists pre' rest',
    pre +:+ "filename=" +:+ rest = pre' +:+ "filename=" +:+ rest'
    /\ (String.length pre' <= String.length pre)%nat
    /\ get_filepath unquote url_path is_dir path_str path_join url headers ""
       = unquote (strip dquote rest')
    /\ (forall dir, dir ≠ "" -> is_dir dir = true ->
          get_filepath unquote url_path is_dir path_str path_join url headers dir
          = path_join dir (unquote (strip dquote rest'))).
Proof.
  intros Hcd.
  destruct (after_first_occurrence "filename=" pre rest)
    as (pre' & rest' & Hrun & Heq & Hlen).
  exists pre', rest'. split; [done|]. split; [done|].
  assert (Hne : String.eqb (pre +:+ "filename=" +:+ rest) "" = false).
  { apply String.eqb_neq. by destruct pre. }
  assert (Hname : derived_filename unquote url_path url headers
                  = unquote (strip dquote rest')).
  { unfold derived_filename. by rewrite Hcd, Hne, Hrun. }
  unfold get_filepath. rewrite Hname. split; [done|].
  intros dir Hdir Hisdir.
  apply String.eqb_neq in Hdir. by rewrite Hdir, Hisdir.
Qed.

(** X22. Without a "filename=" in the headers, the name is the percent-decoded
    text after the last slash of the url's path: the whole path when it has
    no slash, and the empty text when it ends in one. *)
Theorem get_filepath_url_name (url : string) (headers : gmap string string)
    (seg : string) :
  (forall cd pre rest, headers !! "Content-Disposition" = Some cd ->
     cd ≠ pre +:+ "filename=" +:+ rest) ->
  string_mem "/" seg = false ->
  url_path url = seg \/ (exists d, url_path url = d +:+ "/" +:+ seg) ->
  get_filepath unquote url_path is_dir path_str path_join url headers ""
  = unquote seg
  /\ (forall dir, dir ≠ "" -> is_dir dir = true ->
        get_filepath unquote url_path is_dir path_str path_join url headers dir
        = path_join dir (unquote seg)).
Proof.
  intros Hno Hseg Hpath.
  assert (Hlast : last_segment (url_path url) = seg).
  { destruct Hpath as [->|[d ->]].
    - by apply last_segment_plain.
    - by apply last_segment_app. }
  assert (Hname : derived_filename unquote url_path url headers = unquote seg).
  { unfold derived_filename. rewrite Hlast.
    destruct (headers !! "Content-Disposition") as [cd|] eqn:Hcd; [|done].
    destruct (String.eqb cd ""); [done|].
    destruct (after_first "filename=" cd) as [r|] eqn:E; [|done].
    apply after_first_Some in E as [p Hp]. by destruct (Hno cd p r). }
  unfold get_filepath. rewrite Hname. split; [done|].
  intros dir Hdir Hisdir.
  apply String.eqb_neq in Hdir. by rewrite Hdir, Hisdir.
Qed.

End FilepathFacts.

(** ** download: the clock *)

Section ClockFacts.
Variable transport : request -> list event.
Variable sibling : nat -> bool.

(** X15. A chunk for which the clock has not advanced ([end - start] is zero)
    ends the download through the division by zero in the speed estimate:
    the chunk is already written and counted, the rest of the response is
    dropped, the event is set, one second is slept and one line naming
    ZeroDivisionError is logged. *)
Theorem download_zero_elapsed (self : Basicdown) (url path : string)
    (m : mode) (kwargs : kwargs_t) (w : world) (cs rest : list event)
    (data : bytes) (elapsed : PyFloat.float) :
  transport (Request url kwargs) = cs ++ Chunk data elapsed :: rest ->
  forallb good_chunk cs = true ->
  (forall k, (k < length cs)%nat -> interrupt w || sibling k = false) ->
  Z.of_nat (length data) <= MEGABYTE ->
  PyFloat.is_zero elapsed = true ->
  let '(self', w') := download transport sibling self url path m kwargs w in
  let received := mjoin (chunk_data <$> cs) ++ data in
  fs w' = <[path := opened_content m path w ++ received]> (fs w)
  /\ curr self' = curr self + Z.of_nat (length received)
  /\ interrupt w' = true
  /\ slept w' = slept w ++ [1]
  /\ (exists text,
        log w' = log w ++ ["(Thread: " +:+ pretty (id self)
                             +:+ ") [ZeroDivisionError: " +:+ text +:+ "]"])
  /\ completed self' = completed self.
Proof.
  intros Htr Hgood Hunset Hlen Hzero. unfold download. rewrite Htr.
  destruct (open_write_rest path m w) as (Hi & Hl & Hs & Hr).
  set (w0 := add_request (Request url kwargs) (open_write path m w)).
  destruct (download_loop_prefix sibling cs (Chunk data elapsed :: rest) 0 path self w0 Hgood)
    as (self1 & Hcurr & Hcomp & Hid & ->).
  { intros k Hk. change (interrupt w0) with (interrupt (open_write path m w)).
    rewrite Hi. by apply Hunset. }
  assert (Hdom : 0 <= Z.of_nat (length data) < 2 ^ 53).
  { split; [lia|]. unfold MEGABYTE in Hlen.
    assert (1048576 < 2 ^ 53) by done. lia. }
  cbn [download_loop].
  destruct (to_mb_lt_50 _ Hdom) as (mb & -> & _).
  cbv [mbind outcome_bind]. unfold PyFloat.true_div. rewrite Hzero.
  cbn [interrupt log slept requests fs set_interrupt add_sleep
       add_log write_chunk set_fs w0 add_request curr completed id set_curr].
  unfold error_line. cbn [id set_curr].
  rewrite Hid, Hl, Hs, open_write_fs, Hcurr, Hcomp.
  split_and!; try done.
  - apply map_eq. intros q. destruct (decide (path = q)) as [<-|Hq].
    + rewrite !lookup_alter_eq, !lookup_insert_eq. cbn. by rewrite app_assoc.
    + by rewrite !lookup_alter_ne, !lookup_insert_ne.
  - rewrite length_app. lia.
  - by exists "".
Qed.

End ClockFacts.

(** ** Exact float arithmetic on small integers *)

Lemma digits_range (x : positive) : Zpos x < 2 ^ 53 -> 1 <= Zpos (digits2_pos x) <= 53.
Proof.
  intros Hlt. pose proof (digits2_pos_bounds x) as [Blo Bhi].
  split; [lia|].
  destruct (Z.le_gt_cases (Zpos (digits2_pos x)) 53); [done|].
  assert (2 ^ 53 <= 2 ^ (Zpos (digits2_pos x) - 1)) by (apply Z.pow_le_mono_r; lia). lia.
Qed.

Lemma digits_mul_pow2 (x y : positive) (k : Z) :
  0 <= k -> Zpos y = Zpos x * 2 ^ k ->
  Zpos (digits2_pos y) = Zpos (digits2_pos x) + k.
Proof.
  intros Hk Hy. pose proof (digits2_pos_bounds x) as [Blo Bhi].
  apply digits2_pos_unique. rewrite Hy.
  replace (Zpos (digits2_pos x) + k - 1) with (Zpos (digits2_pos x) - 1 + k) by lia.
  rewrite !Z.pow_add_r by lia.
  assert (0 < 2 ^ k) by (apply Z.pow_pos_nonneg; lia). nia.
Qed.

Lemma iter_pos_nat {A} (f : A -> A) (n : positive) (x : A) :
  SpecFloat.iter_pos f n x = Nat.iter (Pos.to_nat n) f x.
Proof.
  revert x. induction n as [n IH|n IH|]; intros x; cbn [SpecFloat.iter_pos].
  - rewrite !IH, Pos2Nat.inj_xI.
    replace (S (2 * Pos.to_nat n)) with (Pos.to_nat n + (Pos.to_nat n + 1))%nat by lia.
    rewrite !Nat.iter_add. done.
  - rewrite !IH, Pos2Nat.inj_xO.
    replace (2 * Pos.to_nat n)%nat with (Pos.to_nat n + Pos.to_nat n)%nat by lia.
    by rewrite Nat.iter_add.
  - done.
Qed.

(** Shifting out [k] zero bits loses nothing. *)
Lemma shr_zero_bits (k : nat) (p y : positive) :
  Zpos y = Zpos p * 2 ^ Z.of_nat k ->
  Nat.iter k shr_1 (Build_shr_record (Zpos y) false false)
  = Build_shr_record (Zpos p) false false.
Proof.
  revert y. induction k as [|k IH]; intros y Hy.
  - cbn in *. f_equal. lia.
  - rewrite Nat.iter_succ_r.
    rewrite Nat2Z.inj_succ, Z.pow_succ_r in Hy by lia.
    destruct y as [y|y|]; [lia| |lia].
    cbn [shr_1 orb]. apply IH. lia.
Qed.

(** Rounding a 53-digit mantissa followed by [k] zero bits. *)
Lemma binary_round_aux_exact (p y : positive) (k e : Z) :
  Zpos (digits2_pos p) = 53 -> 0 <= k -> Zpos y = Zpos p * 2 ^ k ->
  -1074 <= e + k <= 971 ->
  binary_round_aux PyFloat.prec PyFloat.emax false (Zpos y) e loc_Exact
  = S754_finite false p (e + k).
Proof.
  intros Hp Hk Hy He.
  pose proof (digits_mul_pow2 p y k Hk Hy) as Hdy.
  unfold binary_round_aux, shr_fexp.
  change (Zdigits2 (Zpos y)) with (Zpos (digits2_pos y)). rewrite Hdy, Hp.
  unfold fexp, emin, PyFloat.prec, PyFloat.emax.
  replace (Z.max (53 + k + e - 53) (3 - 1024 - 53) - e) with k by lia.
  assert (Hshr : shr (shr_record_of_loc (Zpos y) loc_Exact) e k
                 = (Build_shr_record (Zpos p) false false, e + k)).
  { destruct k as [|k'|k'].
    - cbn. f_equal; [|lia]. f_equal. cbn in Hy. lia.
    - cbn [shr shr_record_of_loc]. f_equal.
      rewrite iter_pos_nat. apply shr_zero_bits.
      by rewrite positive_nat_Z.
    - lia. }
  rewrite Hshr. cbn [shr_m loc_of_shr_record round_nearest_even].
  change (Zdigits2 (Zpos p)) with (Zpos (digits2_pos p)). rewrite Hp.
  replace (Z.max (53 + (e + k) - 53) (3 - 1024 - 53) - (e + k)) with 0 by lia.
  cbn [shr shr_record_of_loc shr_m].
  destruct (Z.leb_spec (e + k) (1024 - 53)); [done|lia].
Qed.

Lemma fl_mantissa (v : positive) :
  Zpos v < 2 ^ 53 ->
  let d := Zpos (digits2_pos v) in
  Zpos (Z.to_pos (Zpos v * 2 ^ (53 - d))) = Zpos v * 2 ^ (53 - d)
  /\ Zpos (digits2_pos (Z.to_pos (Zpos v * 2 ^ (53 - d)))) = 53.
Proof.
  intros Hlt d. pose proof (digits_range v Hlt) as Hd. fold d in Hd.
  assert (Hpos : 0 < Zpos v * 2 ^ (53 - d)).
  { apply Z.mul_pos_pos; [lia|]. apply Z.pow_pos_nonneg; lia. }
  split; [by rewrite Z2Pos.id|].
  rewrite (digits_mul_pow2 v _ (53 - d)); [fold d; lia|lia|by rewrite Z2Pos.id].
Qed.

Lemma finite_eq (m m' : positive) (e e' : Z) :
  Zpos m = Zpos m' -> e = e' -> S754_finite false m e = S754_finite false m' e'.
Proof. by intros [= ->] ->. Qed.

Lemma div_eucl_pair (a b : Z) : Z.div_eucl a b = (a / b, a mod b).
Proof. unfold Z.div, Z.modulo. by destruct (Z.div_eucl a b). Qed.

(** [size / segments] on ints, when the division comes out even. *)
Lemma int_true_div_exact (n q : positive) :
  Zpos n * Zpos q < 2 ^ 53 ->
  PyFloat.int_true_div (Zpos n * Zpos q) (Zpos n) = Ret (fl q).
Proof.
  intros Hlt.
  assert (Hq : Zpos q < 2 ^ 53) by nia.
  assert (Hn : Zpos n < 2 ^ 53) by nia.
  pose proof (digits_range q Hq) as Hdq. pose proof (digits_range n Hn) as Hdn.
  pose proof (digits_range (n * q) Hlt) as Hda.
  pose proof (digits2_pos_bounds q) as [Bql Bqh].
  pose proof (digits2_pos_bounds n) as [Bnl Bnh].
  pose proof (digits2_pos_bounds (n * q)) as [Bal Bah].
  set (dq := Zpos (digits2_pos q)) in *.
  set (dn := Zpos (digits2_pos n)) in *.
  set (da := Zpos (digits2_pos (n * q))) in *.
  rewrite Pos2Z.inj_mul in Bal, Bah.
  (* the digits of the product *)
  assert (Hsum : da <= dn + dq).
  { destruct (Z.le_gt_cases da (dn + dq)); [done|].
    assert (2 ^ (dn + dq) <= 2 ^ (da - 1)) by (apply Z.pow_le_mono_r; lia).
    rewrite Z.pow_add_r in * by lia. nia. }
  unfold PyFloat.int_true_div.
  destruct (Z.eqb_spec (Zpos n) 0); [lia|].
  change (Zpos n * Zpos q) with (Zpos (n * q)).
  cbn [PyFloat.exact]. unfold SFdiv, SFdiv_core_binary.
  change (Zdigits2 (Zpos (n * q))) with da.
  change (Zdigits2 (Zpos n)) with dn.
  unfold fexp, emin, PyFloat.prec, PyFloat.emax.
  replace (Z.min (Z.max (da + 0 - (dn + 0) - 53) (3 - 1024 - 53)) (0 - 0))
    with (da - dn - 53) by lia.
  replace (0 - 0 - (da - dn - 53)) with (53 + dn - da) by lia.
  destruct (53 + dn - da) as [|s|s] eqn:Es; [lia| |lia].
  rewrite <- Es. clear s Es.
  change IntDef.Z.div_eucl with Z.div_eucl.
  rewrite div_eucl_pair, Z.shiftl_mul_pow2 by lia.
  assert (Hpow : 0 < 2 ^ (53 + dn - da)) by (apply Z.pow_pos_nonneg; lia).
  replace (Zpos (n * q) * 2 ^ (53 + dn - da))
    with (Zpos q * 2 ^ (53 + dn - da) * Zpos n) by (rewrite Pos2Z.inj_mul; lia).
  rewrite Z.div_mul, Z.mod_mul by lia.
  assert (Hloc : new_location (Zpos n) 0 = loc_Exact).
  { unfold new_location. by destruct (Z.even (Zpos n)). }
  rewrite Hloc.
  change (xorb false false) with false.
  destruct (fl_mantissa q Hq) as [Hm Hdm]. fold dq in Hm, Hdm.
  assert (Hy : 0 < Zpos q * 2 ^ (53 + dn - da)) by lia.
  destruct (Zpos q * 2 ^ (53 + dn - da)) as [|y|y] eqn:Ey; [lia| |lia].
  change (binary_round_aux 53 1024) with (binary_round_aux PyFloat.prec PyFloat.emax).
  rewrite (binary_round_aux_exact (Z.to_pos (Zpos q * 2 ^ (53 - dq))) y
             (dn - da + dq) (da - dn - 53)).
  - unfold fl. fold dq. f_equal. apply finite_eq; [done|lia].
  - done.
  - lia.
  - rewrite Hm, <- Ey, <- Z.mul_assoc, <- Z.pow_add_r by lia. f_equal. f_equal. lia.
  - lia.
Qed.

Lemma pos_iter_xO (p : positive) (d : positive) :
  Zpos (Pos.iter xO p d) = Zpos p * 2 ^ Zpos d.
Proof.
  induction d as [|d IH] using Pos.peano_ind.
  - cbn. lia.
  - rewrite Pos.iter_succ, Pos2Z.inj_succ, Z.pow_succ_r by lia.
    rewrite Pos2Z.inj_xO, IH. lia.
Qed.

(** [float(i)] for a positive int below 2^53. *)
Lemma of_int_exact (i : positive) :
  Zpos i < 2 ^ 53 -> PyFloat.of_int (Zpos i) = Ret (fl i).
Proof.
  intros Hi. pose proof (digits_range i Hi) as Hd.
  destruct (fl_mantissa i Hi) as [Hm Hdm].
  set (d := Zpos (digits2_pos i)) in *.
  assert (Hnorm : binary_normalize PyFloat.prec PyFloat.emax (Zpos i) 0 false = fl i).
  { unfold binary_normalize, binary_round, shl_align.
    unfold fexp, emin, PyFloat.prec, PyFloat.emax. fold d.
    replace (Z.max (d + 0 - 53) (3 - 1024 - 53) - 0) with (d - 53) by lia.
    replace (Z.max (d + 0 - 53) (3 - 1024 - 53)) with (d - 53) by lia.
    destruct (d - 53) as [|s|s] eqn:Es; [|lia|].
    - change (binary_round_aux 53 1024) with (binary_round_aux PyFloat.prec PyFloat.emax).
      rewrite (binary_round_aux_exact i i 0 0); [|lia|lia|cbn; lia|lia].
      unfold fl. fold d. apply finite_eq; [|lia].
      rewrite Hm. replace (53 - d) with 0 by lia. lia.
    - change (binary_round_aux 53 1024) with (binary_round_aux PyFloat.prec PyFloat.emax).
  rewrite (binary_round_aux_exact (Z.to_pos (Zpos i * 2 ^ (53 - d)))
                 (Pos.iter xO i s) 0 (Z.neg s)).
      + unfold fl. fold d. apply finite_eq; [done|lia].
      + done.
      + lia.
      + rewrite pos_iter_xO, Hm. cbn [Z.pow]. replace (53 - d) with (Zpos s) by lia. lia.
      + lia. }
  unfold PyFloat.of_int. rewrite Hnorm. done.
Qed.

(** The product of two such floats, when it stays below 2^53. *)
Lemma SFmul_exact (q i : positive) :
  Zpos q * Zpos i < 2 ^ 53 ->
  SFmul PyFloat.prec PyFloat.emax (fl q) (fl i) = fl (q * i).
Proof.
  intros Hlt.
  assert (Hq : Zpos q < 2 ^ 53) by nia.
  assert (Hi : Zpos i < 2 ^ 53) by nia.
  pose proof (digits_range q Hq) as Hdq. pose proof (digits_range i Hi) as Hdi.
  pose proof (digits_range (q * i) Hlt) as Hda.
  pose proof (digits2_pos_bounds q) as [Bql Bqh].
  pose proof (digits2_pos_bounds i) as [Bil Bih].
  pose proof (digits2_pos_bounds (q * i)) as [Bal Bah].
  destruct (fl_mantissa q Hq) as [Hmq _].
  destruct (fl_mantissa i Hi) as [Hmi _].
  destruct (fl_mantissa (q * i) Hlt) as [Hma Hdma].
  set (dq := Zpos (digits2_pos q)) in *.
  set (di := Zpos (digits2_pos i)) in *.
  set (da := Zpos (digits2_pos (q * i))) in *.
  rewrite Pos2Z.inj_mul in Bal, Bah.
  assert (Hsum : dq + di - 1 <= da).
  { destruct (Z.le_gt_cases (dq + di - 1) da); [done|].
    assert (2 ^ da <= 2 ^ (dq - 1 + (di - 1))) by (apply Z.pow_le_mono_r; lia).
    rewrite Z.pow_add_r in * by lia. nia. }
  unfold fl at 1 2. fold dq di. cbn [SFmul xorb].
  change (binary_round_aux 53 1024) with (binary_round_aux PyFloat.prec PyFloat.emax).
  rewrite (binary_round_aux_exact (Z.to_pos (Zpos (q * i) * 2 ^ (53 - da))) _
             (53 + da - dq - di) (dq - 53 + (di - 53))).
  - unfold fl. fold da. apply finite_eq; [done|lia].
  - done.
  - lia.
  - rewrite Pos2Z.inj_mul, Hmq, Hmi, Hma, Pos2Z.inj_mul.
    replace (Zpos q * Zpos i * 2 ^ (53 - da) * 2 ^ (53 + da - dq - di))
      with (Zpos q * Zpos i * (2 ^ (53 - da) * 2 ^ (53 + da - dq - di))) by lia.
    rewrite <- Z.pow_add_r by lia.
    replace (Zpos q * 2 ^ (53 - dq) * (Zpos i * 2 ^ (53 - di)))
      with (Zpos q * Zpos i * (2 ^ (53 - dq) * 2 ^ (53 - di))) by lia.
    rewrite <- Z.pow_add_r by lia. f_equal. f_equal. lia.
  - lia.
Qed.

(** [int(float(v))] gives [v] back. *)
Lemma to_int_fl (v : positive) : Zpos v < 2 ^ 53 -> PyFloat.to_int (fl v) = Ret (Zpos v).
Proof.
  intros Hv. pose proof (digits_range v Hv) as Hd.
  destruct (fl_mantissa v Hv) as [Hm _].
  unfold fl. set (d := Zpos (digits2_pos v)) in *.
  cbn [PyFloat.to_int].
  destruct (d - 53) as [|s|s] eqn:Es; [|lia|].
  - rewrite Hm. replace (53 - d) with 0 by lia. f_equal. cbn. lia.
  - rewrite Hm, Z.shiftr_div_pow2 by lia.
    replace (53 - d) with (Zpos s) by lia.
    rewrite Z.div_mul; [done|]. apply Z.pow_nonzero; lia.
Qed.

(** The boundaries of an even partition. *)
Lemma boundary_exact (q : positive) (i : Z) :
  0 <= i -> Zpos q * i < 2 ^ 53 -> boundary (fl q) i = Ret (Zpos q * i).
Proof.
  intros Hi Hlt. unfold boundary, PyFloat.mul_int.
  destruct i as [|i|i]; [|clear Hi|lia].
  - cbn. f_equal; lia.
  - assert (Zpos i < 2 ^ 53) by nia.
    rewrite of_int_exact by done. cbv [mbind outcome_bind].
    rewrite SFmul_exact by done. rewrite to_int_fl by (rewrite Pos2Z.inj_mul; lia).
    by rewrite Pos2Z.inj_mul.
Qed.

(** ** The even plan *)

(** The loop of the planner returns when each of its steps does. *)
Lemma fill_table_total (p : PyFloat.float) (file_path : string) (n : Z)
    (idx : list Z) (dic : gmap Z entry) :
  (forall i, i ∈ idx -> exists e, segment_entry p file_path n i = Ret e) ->
  exists dic', fill_table p file_path n idx dic = Ret dic'.
Proof.
  revert dic. induction idx as [|i idx IH]; intros dic Hall.
  - by exists dic.
  - cbn [fill_table]. destruct (Hall i) as [e ->]; [by left|].
    cbv [mbind outcome_bind]. apply IH. intros j Hj. apply Hall. by right.
Qed.

Lemma segment_entry_even (q : positive) (file_path : string) (n i : Z) :
  0 <= i -> Zpos q * (i + 1) < 2 ^ 53 ->
  segment_entry (fl q) file_path n i
  = Ret (Entry (i * Zpos q)
           (if bool_decide (i ≠ n - 1) then (i + 1) * Zpos q - 1 else (i + 1) * Zpos q)
           (Zpos q) (segment_file file_path i)).
Proof.
  intros Hi Hlt. unfold segment_entry.
  change (x ← PyFloat.mul_int (fl q) i; PyFloat.to_int x) with (boundary (fl q) i).
  change (x ← PyFloat.mul_int (fl q) (i + 1); PyFloat.to_int x)
    with (boundary (fl q) (i + 1)).
  rewrite !boundary_exact by lia. cbv [mbind outcome_bind mret outcome_ret].
  f_equal. f_equal; [lia| |lia]. destruct (bool_decide (i ≠ n - 1)); lia.
Qed.

Lemma sum_const (q : Z) (k : nat) (m : Z) :
  foldr Z.add 0 ((fun _ => q) <$> seqZ m (Z.of_nat k)) = Z.of_nat k * q.
Proof.
  revert m. induction k as [|k IH]; intros m.
  - by rewrite seqZ_nil.
  - rewrite seqZ_cons by lia. cbn [fmap list_fmap foldr].
    replace (Z.pred (Z.of_nat (S k))) with (Z.of_nat k) by lia.
    rewrite IH. lia.
Qed.

Section EvenPlan.
Context `{codec : JsonCodec}.

(** X23. When the size is a multiple of the resolved segment count (and
    below 2^53), the planner returns, and the plan is the even one: segment
    [i] starts at [i * q] for [q = size / n], has [segment_size] [q], ends at
    the byte before the next start (the last one at [size]), and the stored
    sizes sum to the size. *)
Theorem even_partition (url file_path : string) (requested size : Z)
    (etag : etag_t) (w : world) (n q : Z) :
  default (JInt (fresh_segments requested size))
          (persisted_segments w url file_path etag) = JInt n ->
  0 < n -> 0 < q -> size = n * q -> size < 2 ^ 53 ->
  exists t w',
    create_segment_table url file_path requested size etag w = (Ret t, w')
    /\ tbl_segments t = JInt n
    /\ (forall i, 0 <= i < n ->
          tbl_entries t !! i
          = Some (Entry (i * q)
                    (if bool_decide (i = n - 1) then size else (i + 1) * q - 1)
                    q (file_path +:+ "." +:+ pretty i)))
    /\ sum_sizes t n = size.
Proof.
  intros Hres Hn Hq Hsize Hlt.
  destruct n as [|n'|]; [lia| |lia]. destruct q as [|q'|]; [lia| |lia].
  assert (Hdom : requested <= 5 \/ 0 <= size < 2 ^ 53) by (right; lia).
  unfold create_segment_table. cbv [mbind py_bind mret py_ret lift write_text].
  rewrite (resolve_segments_resolved _ _ _ _ _ _ Hdom), Hres.
  cbn [partition_size_of]. rewrite Hsize, int_true_div_exact by lia.
  unfold range_of. cbn [index_value].
  assert (Hin : forall i, i ∈ seqZ 0 (Zpos n') <-> 0 <= i < Zpos n').
  { intros i. rewrite elem_of_seqZ. lia. }
  assert (Hstep : forall i, 0 <= i < Zpos n' ->
            segment_entry (fl q') file_path (Zpos n') i
            = Ret (Entry (i * Zpos q')
                     (if bool_decide (i ≠ Zpos n' - 1)
                      then (i + 1) * Zpos q' - 1 else (i + 1) * Zpos q')
                     (Zpos q') (segment_file file_path i))).
  { intros i Hi. apply segment_entry_even; [lia|]. nia. }
  destruct (fill_table_total (fl q') file_path (Zpos n') (seqZ 0 (Zpos n')) ∅)
    as [dic Hfill].
  { intros i Hi%Hin. eexists. by apply Hstep. }
  rewrite Hfill. eexists _, _. split; [reflexivity|]. cbn [tbl_segments tbl_entries].
  pose proof (fill_table_lookup _ _ _ _ _ _ Hfill) as Hlk.
  assert (Hent : forall i, 0 <= i < Zpos n' ->
            dic !! i = Some (Entry (i * Zpos q')
                     (if bool_decide (i = Zpos n' - 1)
                      then Zpos n' * Zpos q' else (i + 1) * Zpos q' - 1)
                     (Zpos q') (segment_file file_path i))).
  { intros i Hi. destruct (Hlk i) as [Hsome _].
    destruct (Hsome (proj2 (Hin i) Hi)) as (e & He & ->).
    rewrite (Hstep i Hi) in He. injection He as <-. f_equal. f_equal.
    destruct (decide (i = Zpos n' - 1)) as [->|Hne].
    - rewrite bool_decide_false, bool_decide_true by lia. lia.
    - by rewrite bool_decide_true, bool_decide_false by lia. }
  split; [done|]. split; [done|].
  unfold sum_sizes, stored_sizes. cbn [tbl_entries].
  rewrite (list_fmap_ext _ (fun _ => Zpos q') (seqZ 0 (Zpos n'))).
  - replace (Zpos n') with (Z.of_nat (Pos.to_nat n')) at 1 by lia.
    rewrite sum_const. lia.
  - intros k i Hk. apply lookup_seqZ in Hk as [-> Hk].
    rewrite Hent by lia. done.
Qed.

End EvenPlan.


(** ** Empty segments *)

(** A missing segment file stays missing while the loop runs, so the loop
    raises when it gets there, if not before. *)
Lemma combine_loop_missing (file_path : string) (idx : list Z) (j : Z) (w : world) :
  j ∈ idx -> fs w !! segment_file file_path j = None ->
  exists w', combine_loop file_path idx w = (Raise FileNotFoundError, w').
Proof.
  revert w. induction idx as [|i idx IH]; intros w Hj Hmiss.
  - by apply elem_of_nil in Hj.
  - cbn [combine_loop]. unfold read_file, unlink. cbv [mbind py_bind mret py_ret].
    destruct (fs w !! segment_file file_path i) as [c|] eqn:Hc; [|by eexists].
    rewrite copy_chunks_all.
    assert (Hw1 : forall p, p ≠ file_path ->
              fs (write_chunk file_path c w) !! p = fs w !! p).
    { intros p Hp. cbn. by rewrite lookup_alter_ne. }
    rewrite (Hw1 _ (segment_file_ne_dest file_path i)), Hc.
    apply elem_of_cons in Hj as [->|Hj]; [congruence|].
    apply IH; [done|]. cbn [fs set_fs].
    rewrite lookup_delete_ne by (intros E%segment_file_inj; congruence).
    by rewrite Hw1 by apply segment_file_ne_dest.
Qed.

Section EmptySegment.
Variable transport : request -> list event.
Variable sibling : nat -> bool.

(** X24. A segment planned with 0 bytes (as happens when the size is smaller
    than the segment count) is complete at once: a fresh worker that finds
    no file issues no request and creates no file, and ends completed. The
    merge then fails: as long as that segment file is missing,
    [combine_files] raises FileNotFoundError. *)
Theorem empty_segment_breaks_merge (table : segment_table) (file_path : string)
    (segments j : Z) (kwargs : kwargs_t) (e : entry) (w : world) :
  tbl_entries table !! j = Some e ->
  segment_size e = 0 ->
  segment_path e = file_path +:+ "." +:+ pretty j ->
  0 <= j < segments ->
  fs w !! segment_path e = None ->
  (exists md',
     Multidown_worker transport sibling (Multidown_init table j kwargs) w
     = (Ret md', w)
     /\ completed (md_base md') = true /\ curr (md_base md') = 0)
  /\ (forall w2, fs w2 !! segment_path e = None ->
        exists w', combine_files file_path segments w2 = (Raise FileNotFoundError, w')).
Proof.
  intros He Hsize Hpath Hj Hnone. split.
  - rewrite (Multidown_worker_unfold transport sibling
               (Multidown_init table j kwargs) e w He).
    rewrite (Multidown_resume_absent _ _ _ _ Hnone).
    unfold Multidown_fetch. cbv [mbind py_bind mret py_ret].
    rewrite Hsize. cbn. by eexists.
  - intros w2 Hmiss. unfold combine_files. cbv [mbind py_bind mret py_ret].
    destruct (combine_loop_missing file_path (seqZ 0 segments) j
                (open_write file_path WB w2)) as [w' ->].
    + apply elem_of_seqZ. lia.
    + cbn. rewrite lookup_insert_ne by (intros E; by apply (segment_file_ne_dest file_path j)).
      by rewrite <- Hmiss, Hpath.
    + by exists w'.
Qed.

End EmptySegment.


(** ** Negative counts *)

Section NegativeCount.
Context `{codec : JsonCodec}.


End NegativeCount.


(** ** The further properties at concrete inputs *)

Lemma demo_plan_run :
  create_segment_table (codec := demo_codec) "http://host/file" "file" 4 100
    (EBool false) empty_world = (Ret demo_plan, demo_plan_world).
Proof. vm_compute. reflexivity. Qed.

(** X1 ([segments_contiguous]) at the plan of 100 bytes in 4 segments. *)
Lemma segments_contiguous_witness :
  exists n,
    index_value (tbl_segments demo_plan) = Some n
    /\ (forall i, is_Some (tbl_entries demo_plan !! i) <-> 0 <= i < n)
    /\ (forall i a, tbl_entries demo_plan !! i = Some a ->
          segment_path a = segment_file "file" i)
    /\ (forall i a b, tbl_entries demo_plan !! i = Some a ->
          tbl_entries demo_plan !! (i + 1) = Some b -> end_ a + 1 = start b).
Proof.
  exact (segments_contiguous (codec := demo_codec) "http://host/file" "file" 4 100
           (EBool false) empty_world demo_plan_world demo_plan demo_plan_run).
Defined.

Lemma sizes_sum_to_last_end_witness :
  exists first last,
    tbl_entries demo_plan !! 0 = Some first
    /\ tbl_entries demo_plan !! (4 - 1) = Some last
    /\ start first = 0
    /\ sum_sizes demo_plan 4 = end_ last.
Proof.
  exact (sizes_sum_to_last_end (codec := demo_codec) "http://host/file" "file" 4 100
           (EBool false) empty_world demo_plan_world demo_plan 4
           demo_plan_run eq_refl eq_refl).
Defined.

(** The sidecar of "file" is reused by a first plan, which a second request
    with another count then reuses in turn. *)
Lemma replanning_reuses_plan_witness :
  exists t w1,
    create_segment_table (codec := fixed_codec) "http://host/file" "file" 3 80
      (EStr "v1") sidecar_world = (Ret t, w1)
    /\ tbl_segments t = JInt 8
    /\ create_segment_table (codec := fixed_codec) "http://host/file" "file" 2 80
         (EStr "v1") w1 = (Ret t, w1).
Proof.
  eexists _, _. split; [vm_compute; reflexivity|]. split; [reflexivity|].
  apply (replanning_reuses_plan (codec := fixed_codec) "http://host/file" "file"
           3 2 80 (EStr "v1") sidecar_world).
  - reflexivity.
  - left. lia.
  - vm_compute. reflexivity.
  - reflexivity.
Defined.

Lemma changed_request_discards_plan_witness :
  exists t w1,
    create_segment_table (codec := fixed_codec) "http://host/file" "file" 3 80
      (EStr "v1") sidecar_world = (Ret t, w1)
    /\ tbl_segments t = JInt 8
    /\ resolve_segments (codec := fixed_codec) "http://host/other" "file" 2 80
         (EStr "v1") w1 = (Ret (JInt 2), w1).
Proof.
  eexists _, _. split; [vm_compute; reflexivity|]. split; [reflexivity|].
  eapply proj1.
  eapply (changed_request_discards_plan (codec := fixed_codec)
            "http://host/file" "http://host/other" "file" 3 2 80 80
            (EStr "v1") (EStr "v1") sidecar_world).
  - left. discriminate.
  - left. lia.
  - vm_compute. reflexivity.
  - reflexivity.
Defined.

Lemma zero_segments_raise_witness :
  create_segment_table (codec := demo_codec) "http://host/file" "file" 0 100
    (EBool false) empty_world
  = (Raise ZeroDivisionError,
     set_fs <["file.json" :=
                @json_dumps demo_codec
                  (JObj [("url", JStr "http://host/file"); ("etag", JBool false);
                         ("segments", JInt 0)])]> empty_world).
Proof.
  apply (zero_segments_raise (codec := demo_codec) "http://host/file" "file" 0 100
           (EBool false) empty_world).
  - left. lia.
  - reflexivity.
Defined.

Lemma non_integer_count_raises_witness :
  exists e,
    create_segment_table (codec := broken_codec) "http://host/file" "file" 4 100
      (EStr "v1") sidecar_world
    = (Raise e,
       set_fs <["file.json" :=
                  @json_dumps broken_codec
                    (JObj [("url", JStr "http://host/file"); ("etag", JStr "v1");
                           ("segments", JStr "8")])]> sidecar_world).
Proof.
  apply (non_integer_count_raises (codec := broken_codec) "http://host/file" "file"
           4 100 (EStr "v1") sidecar_world (JStr "8")).
  - left. lia.
  - reflexivity.
  - reflexivity.
Defined.

Lemma worker_count_is_file_size_witness :
  exists md' w',
    Multidown_worker one_chunk no_sibling (Multidown_init demo_table 0 no_kwargs)
      partial_world = (Ret md', w')
    /\ fs w' !! "file.0" = Some (abc ++ de)
    /\ curr (md_base md') = size_on_disk "file.0" w'.
Proof.
  eexists _, _. split; [vm_compute; reflexivity|]. split; [reflexivity|].
  eapply (worker_count_is_file_size one_chunk no_sibling demo_table 0 no_kwargs
            (Entry 0 5 5 "file.0") partial_world).
  - reflexivity.
  - vm_compute. reflexivity.
Defined.

Lemma worker_touches_only_its_segment_witness :
  exists md' w',
    Multidown_worker one_chunk no_sibling (Multidown_init demo_table 0 no_kwargs)
      merge_world = (Ret md', w')
    /\ (forall p, p ≠ "file.0" -> fs w' !! p = fs merge_world !! p)
    /\ (interrupt merge_world = true -> interrupt w' = true).
Proof.
  eexists _, _. split; [vm_compute; reflexivity|].
  eapply (worker_touches_only_its_segment one_chunk no_sibling demo_table 0
            no_kwargs (Entry 0 5 5 "file.0") merge_world).
  - reflexivity.
  - vm_compute. reflexivity.
Defined.

(** A first run that stops after 2 of 5 bytes, and the run after it. *)
Lemma second_run_resumes_witness :
  exists md1 w1 md2 w2,
    Multidown_worker one_chunk no_sibling (Multidown_init demo_table 0 no_kwargs)
      empty_world = (Ret md1, w1)
    /\ curr (md_base md1) = 2
    /\ Multidown_worker two_chunks no_sibling (Multidown_init demo_table 0 no_kwargs) w1
       = (Ret md2, w2)
    /\ requests w2
       = requests w1
         ++ [Request "http://host/file" (Kwargs (Some {["range" := "bytes=2-5"]}) [])].
Proof.
  eexists _, _. 
  destruct (second_run_resumes one_chunk two_chunks no_sibling no_sibling
              demo_table 0 no_kwargs (Entry 0 5 5 "file.0") empty_world
              _ _ eq_refl ltac:(vm_compute; reflexivity) eq_refl)
    as (md2 & w2 & _ & Hrun & Hreq & _).
  exists md2, w2. split; [vm_compute; reflexivity|]. split; [reflexivity|].
  split; [exact Hrun|exact Hreq].
Defined.

(** A server that sends 7 bytes for the 5-byte segment, and the run after. *)
Lemma second_run_restarts_oversized_witness :
  exists md1 w1 md2 w2 (n : nat),
    Multidown_worker oversending_transport no_sibling
      (Multidown_init demo_table 0 no_kwargs) empty_world = (Ret md1, w1)
    /\ curr (md_base md1) = 7
    /\ completed (md_base md1) = false
    /\ Multidown_worker one_chunk no_sibling (Multidown_init demo_table 0 no_kwargs) w1
       = (Ret md2, w2)
    /\ fs w2 !! "file.0" = Some (body_prefix n [Chunk de one_second]).
Proof.
  eexists _, _.
  destruct (second_run_restarts_oversized oversending_transport one_chunk
              no_sibling no_sibling
              demo_table 0 no_kwargs (Entry 0 5 5 "file.0") empty_world
              _ _ eq_refl ltac:(vm_compute; reflexivity) eq_refl eq_refl)
    as (md2 & w2 & n & Hrun & _ & Hfile & Hcomp).
  exists md2, w2, n. split; [vm_compute; reflexivity|]. split; [reflexivity|].
  split; [exact Hcomp|]. split; [exact Hrun|exact Hfile].
Defined.

Lemma uninterrupted_run_witness :
  exists md' w',
    Multidown_worker one_chunk no_sibling (Multidown_init demo_table 0 no_kwargs)
      partial_world = (Ret md', w')
    /\ fs w' !! "file.0" = Some (abc ++ de)
    /\ curr (md_base md') = 3 + 2
    /\ (completed (md_base md') = true <-> 3 + 2 = 5)
    /\ interrupt w' = false /\ log w' = [] /\ slept w' = [].
Proof.
  exact (uninterrupted_run one_chunk no_sibling demo_table 0 no_kwargs
           (Entry 0 5 5 "file.0") partial_world eq_refl eq_refl eq_refl eq_refl
           (fun _ => eq_refl)).
Defined.

Lemma failed_request_empties_file_witness :
  let '(sd', w') :=
    Simpledown_worker refusing_transport no_sibling
      (Simpledown_init "http://host/file" "file" no_kwargs) old_file_world in
  fs w' !! "file" = Some []
  /\ interrupt w' = true
  /\ curr (sd_base sd') = 0
  /\ completed (sd_base sd') = true.
Proof.
  exact (failed_request_empties_file refusing_transport no_sibling
           (Simpledown_init "http://host/file" "file" no_kwargs) old_file_world
           (Exn "ConnectionError" "refused") [] eq_refl).
Defined.

Lemma download_zero_elapsed_witness :
  let '(self', w') :=
    download instant_transport no_sibling Basicdown_init "http://host/file"
      "file" WB no_kwargs empty_world in
  fs w' = <["file" := de]> ∅
  /\ curr self' = 2
  /\ interrupt w' = true
  /\ slept w' = [1]
  /\ (exists text, log w' = ["(Thread: 0) [ZeroDivisionError: " +:+ text +:+ "]"])
  /\ completed self' = false.
Proof.
  exact (download_zero_elapsed instant_transport no_sibling Basicdown_init
           "http://host/file" "file" WB no_kwargs empty_world [] []
           de (S754_zero false) eq_refl eq_refl (fun _ _ => eq_refl)
           ltac:(vm_compute; discriminate) eq_refl).
Defined.

Lemma combine_files_missing_segment_witness :
  exists w',
    combine_files "file" 2 gap_world = (Raise FileNotFoundError, w')
    /\ fs w' !! "file" = Some abc
    /\ fs w' !! "file.0" = None
    /\ fs w' !! "file.json" = Some demo_text.
Proof.
  destruct (combine_files_missing_segment "file" 2 1 merge_contents gap_world)
    as (w' & Hrun & Hdest & Hgone & Hside & _).
  - lia.
  - intros i Hi. assert (i = 0) as -> by lia. reflexivity.
  - reflexivity.
  - exists w'. split_and!; [done|done|by apply (Hgone 0)|done].
Defined.

Lemma combine_files_missing_sidecar_witness :
  exists w',
    combine_files "file" 2 no_sidecar_world = (Raise FileNotFoundError, w')
    /\ fs w' !! "file" = Some (abc ++ de)
    /\ fs w' !! "file.0" = None
    /\ fs w' !! "file.1" = None.
Proof.
  destruct (combine_files_missing_sidecar "file" 2 merge_contents no_sidecar_world)
    as (w' & Hrun & Hdest & Hgone).
  - intros i Hi. assert (i = 0 \/ i = 1) as [-> | ->] by lia; reflexivity.
  - reflexivity.
  - exists w'. split_and!; [done|done|by apply (Hgone 0)|by apply (Hgone 1)].
Defined.

Lemma timestring_inj_witness :
  timestring 3661 = "01:01:01" /\ 3661 = 3661.
Proof.
  split; [reflexivity|]. exact (timestring_inj 3661 3661 eq_refl).
Defined.

Lemma timestring_width_witness :
  String.length (timestring 3661) = 8%nat
  /\ (8 < String.length (timestring 360000))%nat.
Proof.
  split.
  - apply (timestring_width 3661); lia.
  - apply (timestring_width 360000); lia.
Defined.

Lemma to_mb_no_rounding_witness :
  exists m e,
    to_mb 3145728 = Ret (S754_finite false m e)
    /\ e <= -20
    /\ Zpos m = 3145728 * 2 ^ (- e - 20).
Proof.
  apply (to_mb_no_rounding 3145728). split; [lia|reflexivity].
Defined.

Lemma get_filepath_header_name_witness :
  let headers : gmap string string :=
    {["Content-Disposition" := "attachment; filename=" +:+ String dquote "a.txt"
                                 +:+ String dquote ""]} in
  exists pre' rest',
    "attachment; " +:+ "filename=" +:+ (String dquote "a.txt" +:+ String dquote "")
    = pre' +:+ "filename=" +:+ rest'
    /\ (String.length pre' <= 12)%nat
    /\ get_filepath demo_unquote demo_url_path demo_is_dir demo_path_str
         demo_path_join "http://host/dir/file.bin?x=1" headers ""
       = demo_unquote (strip dquote rest')
    /\ (forall dir, dir ≠ "" -> demo_is_dir dir = true ->
          get_filepath demo_unquote demo_url_path demo_is_dir demo_path_str
            demo_path_join "http://host/dir/file.bin?x=1" headers dir
          = demo_path_join dir (demo_unquote (strip dquote rest'))).
Proof.
  exact (get_filepath_header_name demo_unquote demo_url_path demo_is_dir
           demo_path_str demo_path_join "http://host/dir/file.bin?x=1"
           {["Content-Disposition" := "attachment; filename=" +:+ String dquote "a.txt"
                                 +:+ String dquote ""]}
           "attachment; " (String dquote "a.txt" +:+ String dquote "") eq_refl).
Defined.

Lemma get_filepath_url_name_witness :
  get_filepath demo_unquote demo_url_path demo_is_dir demo_path_str
    demo_path_join "http://host/dir/file.bin?x=1" ∅ "" = "file.bin"
  /\ (forall dir, dir ≠ "" -> demo_is_dir dir = true ->
        get_filepath demo_unquote demo_url_path demo_is_dir demo_path_str
          demo_path_join "http://host/dir/file.bin?x=1" ∅ dir
        = demo_path_join dir "file.bin").
Proof.
  apply (get_filepath_url_name demo_unquote demo_url_path demo_is_dir
           demo_path_str demo_path_join "http://host/dir/file.bin?x=1" ∅ "file.bin").
  - intros cd pre rest Hcd. by rewrite lookup_empty in Hcd.
  - reflexivity.
  - right. by exists "/dir".
Defined.

Lemma even_partition_witness :
  exists t w',
    create_segment_table (codec := demo_codec) "http://host/file" "file" 4 100
      (EBool false) empty_world = (Ret t, w')
    /\ tbl_segments t = JInt 4
    /\ (forall i, 0 <= i < 4 ->
          tbl_entries t !! i
          = Some (Entry (i * 25) (if bool_decide (i = 4 - 1) then 100 else (i + 1) * 25 - 1)
                    25 ("file" +:+ "." +:+ pretty i)))
    /\ sum_sizes t 4 = 100.
Proof.
  apply (even_partition (codec := demo_codec) "http://host/file" "file" 4 100
           (EBool false) empty_world 4 25); [reflexivity|lia|lia|lia|].
  reflexivity.
Defined.

Lemma tiny_plan_run :
  (create_segment_table (codec := demo_codec) "http://host/file" "file" 5 3
     (EBool false) empty_world).1 = Ret tiny_plan.
Proof. vm_compute. reflexivity. Qed.

Lemma empty_segment_breaks_merge_witness :
  (create_segment_table (codec := demo_codec) "http://host/file" "file" 5 3
     (EBool false) empty_world).1 = Ret tiny_plan
  /\ (exists md',
        Multidown_worker one_chunk no_sibling (Multidown_init tiny_plan 0 no_kwargs)
          empty_world = (Ret md', empty_world)
        /\ completed (md_base md') = true /\ curr (md_base md') = 0)
  /\ (forall w2, fs w2 !! "file.0" = None ->
        exists w', combine_files "file" 5 w2 = (Raise FileNotFoundError, w')).
Proof.
  split; [exact tiny_plan_run|].
  apply (empty_segment_breaks_merge one_chunk no_sibling tiny_plan "file" 5 0
           no_kwargs (Entry 0 (-1) 0 "file.0") empty_world);
    [reflexivity|reflexivity|reflexivity|lia|reflexivity].
Defined.

